(** * CortexHub backend: document lifecycle and retrieval-augmented query

    A shallow embedding of the Express handlers of [src/server.ts]
    ([POST /api/universal-upload], [POST /api/universal-qa]), of the
    listing route of [src/routes/workspace.ts] and of the Mongoose schema
    of [models/Document], followed by the properties of the upload and
    query pipeline.  The knowledge graph and agent routes, the workspace
    routes over the MySQL tables, the seeding at start-up and the port of
    [config/mysql.ts] are embedded as well.

    Conventions of the embedding.
    - A JavaScript string is a [string]: a sequence of code units in the
      range 0..255.  On that range [toLowerCase] maps A-Z and the Latin-1
      capitals to their small letters, and the white space of [trim] is
      TAB, LF, VT, FF, CR, SP and NBSP.
    - The MongoDB collection is a list of records in insertion order; a
      handler is a computation over it that can throw, and that logs every
      committed write and every call to an external process or service.
    - What the code cannot decide (the child process, the JSON parser, the
      LLM, the text of the driver's errors) is a field of [World]; how
      Mongoose casts the values of a filter is a [Caster].
    - The query handler is given on the bodies of the shape its comment
      declares ([universal_qa]) and on every body ([universal_qa_body]). *)

From Stdlib Require Import List String Ascii Bool Arith NArith Lia.
From Stdlib Require DecimalString HexadecimalString DecimalN DecimalPos.
From Stdlib Require Import Sorted.
Import ListNotations.

Local Open Scope list_scope.
Local Open Scope string_scope.

(* ================================================================== *)
(** ** JavaScript strings *)
(* ================================================================== *)

Module JS.

Definition LF : ascii := ascii_of_nat 10.
Definition CR : ascii := ascii_of_nat 13.
Definition DQUOTE : ascii := ascii_of_nat 34.

(** The newline and the double quote as one-character strings. *)
Definition nl : string := String LF EmptyString.
Definition dq : string := String DQUOTE EmptyString.

(** WhiteSpace and LineTerminator of ECMAScript, on code units 0..255. *)
Definition isLineTerminator (c : ascii) : bool :=
  let n := nat_of_ascii c in ((n =? 10) || (n =? 13))%nat.

Definition isWhiteSpace (c : ascii) : bool :=
  let n := nat_of_ascii c in
  ((n =? 9) || (n =? 10) || (n =? 11) || (n =? 12) || (n =? 13)
   || (n =? 32) || (n =? 160))%nat.

(** [String.prototype.trim]. *)
Fixpoint trimStart (s : string) : string :=
  match s with
  | EmptyString => EmptyString
  | String c s' => if isWhiteSpace c then trimStart s' else s
  end.

Fixpoint trimEnd (s : string) : string :=
  match s with
  | EmptyString => EmptyString
  | String c s' =>
      match trimEnd s' with
      | EmptyString => if isWhiteSpace c then EmptyString else String c EmptyString
      | t => String c t
      end
  end.

Definition trim (s : string) : string := trimEnd (trimStart s).

(** [String.prototype.toLowerCase], one code unit at a time. *)
Definition lowerChar (c : ascii) : ascii :=
  let n := nat_of_ascii c in
  if (((65 <=? n) && (n <=? 90))
      || ((192 <=? n) && (n <=? 222) && negb (n =? 215)))%nat
  then ascii_of_nat (n + 32)
  else c.

Fixpoint toLowerCase (s : string) : string :=
  match s with
  | EmptyString => EmptyString
  | String c s' => String (lowerChar c) (toLowerCase s')
  end.

(** [s.startsWith(p)], and the rest of [s] after [p]. *)
Fixpoint stripPrefix (p s : string) : option string :=
  match p with
  | EmptyString => Some s
  | String a p' =>
      match s with
      | EmptyString => None
      | String b s' => if Ascii.eqb a b then stripPrefix p' s' else None
      end
  end.

Definition startsWith (s p : string) : bool :=
  match stripPrefix p s with Some _ => true | None => false end.

(** [s.includes(k)]: [k] occurs in [s] at some position. *)
Fixpoint includes (s k : string) : bool :=
  startsWith s k
  || match s with
     | EmptyString => false
     | String _ s' => includes s' k
     end.

(** [Array.prototype.join]. *)
Fixpoint join (sep : string) (l : list string) : string :=
  match l with
  | [] => EmptyString
  | [x] => x
  | x :: rest => x ++ sep ++ join sep rest
  end.

(** Template-literal rendering of a number: decimal digits. *)
Definition showN (n : N) : string :=
  DecimalString.NilZero.string_of_uint (N.to_uint n).

(** The truthiness of a string: only the empty string is falsy. *)
Definition truthy (s : string) : bool :=
  match s with EmptyString => false | String _ _ => true end.

End JS.

Import JS.

(* ================================================================== *)
(** ** Data model *)
(* ================================================================== *)

(** A MongoDB ObjectId, and its [toString()]: 24 hexadecimal digits. *)
Definition ObjectId := N.

Fixpoint replicate (n : nat) (c : ascii) : string :=
  match n with
  | O => EmptyString
  | S n' => String c (replicate n' c)
  end.

Definition padStart (width : nat) (c : ascii) (s : string) : string :=
  replicate (width - String.length s) c ++ s.

Definition oid_toString (o : ObjectId) : string :=
  padStart 24 "0"%char
    (HexadecimalString.NilZero.string_of_uint (N.to_hex_uint o)).

(** [IDocument] / [DocumentSchema] of models/Document. *)
Record DocRecord := mkDoc {
  _id : ObjectId;
  fileName : string;
  originalType : string;
  uploadedAt : N;
  processed : bool;
  chromaDocumentId : option string;
  workspaceId : string
}.

(** [{ text: string; source: string }], one retrieved passage. *)
Record Chunk := mkChunk { text : string; source : string }.

(** [req.file] as multer leaves it. *)
Record File := mkFile { originalname : string; mimetype : string; path : string }.

(** The request of [POST /api/universal-upload].  [up_workspaceId] is the
    body field when it is a string, [None] when it is absent or of
    another type. *)
Record UploadRequest := mkUpload {
  up_file : option File;
  up_workspaceId : option string
}.

(** The body of [POST /api/universal-qa] as the handler's comment
    describes it: the query text, the optional array of MongoDB ids, the
    workspace id as a string.  The handler does not check these types;
    [QaBody] and [universal_qa_body] further down take the body as
    Express parses it, and agree with [universal_qa] on the bodies of
    this shape. *)
Record QaRequest := mkQa {
  qa_query : option string;
  qa_documentIds : option (list ObjectId);
  qa_workspaceId : option string
}.

(** The JSON bodies the handlers send. *)
Inductive Body :=
| MessageBody (message : string)
| ErrorBody (message error : string)
| UploadBody (message documentId chromaDocId : string)
| AnswerBody (answer : string) (citations : list string)
             (chartData : option string) (nextSteps : list string)
| DocumentsBody (message : string) (docs : list DocRecord).

Record Response := mkResponse { status : nat; body : Body }.

(** The [documentId] field of a response body, when it has one. *)
Definition response_documentId (r : Response) : option string :=
  match body r with
  | UploadBody _ documentId _ => Some documentId
  | _ => None
  end.

(* ================================================================== *)
(** ** The environment of a request *)
(* ================================================================== *)

(** How a spawned child process ends: the [close] event with its exit
    code ([None] is JavaScript's [null], a process ended by a signal) and
    all it wrote, or the [error] event. *)
Inductive ProcResult :=
| Exited (code : option N) (stdout stderr : string)
| SpawnFailed (message : string).

Inductive StoreError := ValidationFailed | DuplicateKey | DocumentNotFound.

Record World := mkWorld {
  now : N;                                              (* Date.now() *)
  spawn_python : string -> list string -> ProcResult;   (* the python child *)
  JSON_parse : string -> string + list Chunk;           (* throws, or chunks *)
  generateContent : string -> string + string;          (* throws, or text *)
  store_error : StoreError -> string                    (* driver messages *)
}.

(* ================================================================== *)
(** ** Handlers as computations over the collection *)
(* ================================================================== *)

(** What an outside observer can see of a running handler. *)
Inductive Event :=
| Saved (collection : list DocRecord)
| Spawned (script : string) (args : list string)
| Generated (prompt : string).

Record Db := mkDb { documents : list DocRecord; next_oid : N }.

(** A computation reads and writes the collection, logs events, and ends
    with a value or with a thrown [Error] (its message). *)
Definition M (A : Type) : Type := Db -> list Event * Db * (string + A).

Definition ret {A} (a : A) : M A := fun db => ([], db, inr a).

Definition throw {A} (message : string) : M A := fun db => ([], db, inl message).

Definition bind {A B} (m : M A) (k : A -> M B) : M B :=
  fun db =>
    match m db with
    | (ev, db', inl e) => (ev, db', inl e)
    | (ev, db', inr a) =>
        match k a db' with
        | (ev', db'', r) => ((ev ++ ev')%list, db'', r)
        end
    end.

Definition emit (e : Event) : M unit := fun db => ([e], db, inr tt).

(** [await] of a settled promise: its value, or its rejection thrown. *)
Definition await {A} (p : string + A) : M A := fun db => ([], db, p).

Notation "x <- m ;; k" := (bind m (fun x => k))
  (at level 61, m at next level, right associativity).
Notation "m ;; k" := (bind m (fun _ => k))
  (at level 61, right associativity).

(** A request handler always answers. *)
Definition Handler : Type := Db -> list Event * Db * Response.

Definition respond (code : nat) (b : Body) : Handler :=
  fun db => ([], db, mkResponse code b).

(** [try { m } catch (error) { res.status(..).json(..) }]. *)
Definition try_catch (m : M Response) (handler : string -> Response) : Handler :=
  fun db =>
    match m db with
    | (ev, db', inl e) => (ev, db', handler e)
    | (ev, db', inr r) => (ev, db', r)
    end.

(** A body field that passes the [!field] guard. *)
Definition truthyField (o : option string) : option string :=
  match o with
  | Some s => if truthy s then Some s else None
  | None => None
  end.

(* ================================================================== *)
(** ** Mongoose: [new DocumentModel], [save], [find] *)
(* ================================================================== *)

(** [new DocumentModel({fileName, originalType, processed: false,
    workspaceId})]: a fresh [_id], [uploadedAt] by its default, no
    [chromaDocumentId]. *)
Definition new_DocumentModel (w : World) (name type ws : string) : M DocRecord :=
  fun db =>
    ([],
     mkDb (documents db) (N.succ (next_oid db)),
     inr (mkDoc (next_oid db) name type (now w) false None ws)).

(** The [unique, sparse] index on [chromaDocumentId]: another record
    already holds the handle of [d]. *)
Definition handle_taken (d : DocRecord) (coll : list DocRecord) : bool :=
  match chromaDocumentId d with
  | None => false
  | Some h =>
      existsb (fun d' =>
                 negb (N.eqb (_id d') (_id d))
                 && match chromaDocumentId d' with
                    | Some h' => String.eqb h' h
                    | None => false
                    end) coll
  end.

Definition id_taken (d : DocRecord) (coll : list DocRecord) : bool :=
  existsb (fun d' => N.eqb (_id d') (_id d)) coll.

(** The [required: true] paths of the schema. *)
Definition valid (d : DocRecord) : bool :=
  truthy (fileName d) && truthy (originalType d) && truthy (workspaceId d).

(** [await newDocument.save()] on a new document: one insert. *)
Definition save_new (w : World) (d : DocRecord) : M unit :=
  fun db =>
    if negb (valid d) then ([], db, inl (store_error w ValidationFailed))
    else if id_taken d (documents db) || handle_taken d (documents db)
    then ([], db, inl (store_error w DuplicateKey))
    else
      let coll := (documents db ++ [d])%list in
      ([Saved coll], mkDb coll (next_oid db), inr tt).

(** The [$set] of the two paths the handler modifies. *)
Definition set_processed (d : DocRecord) (stored : DocRecord) : DocRecord :=
  mkDoc (_id stored) (fileName stored) (originalType stored) (uploadedAt stored)
        (processed d) (chromaDocumentId d) (workspaceId stored).

(** [await newDocument.save()] after [processed] and [chromaDocumentId]
    were assigned: one update of the record with that [_id]. *)
Definition save_modified (w : World) (d : DocRecord) : M unit :=
  fun db =>
    if negb (id_taken d (documents db))
    then ([], db, inl (store_error w DocumentNotFound))
    else if handle_taken d (documents db)
    then ([], db, inl (store_error w DuplicateKey))
    else
      let coll :=
        map (fun stored =>
               if N.eqb (_id stored) (_id d) then set_processed d stored else stored)
            (documents db) in
      ([Saved coll], mkDb coll (next_oid db), inr tt).

(** [await DocumentModel.find(filter)]. *)
Definition find (p : DocRecord -> bool) : M (list DocRecord) :=
  fun db => ([], db, inr (filter p (documents db))).

(* ================================================================== *)
(** ** [runPythonScript] (server.ts, lines 91-125) *)
(* ================================================================== *)

Definition showCode (code : option N) : string :=
  match code with
  | Some n => showN n
  | None => "null"
  end.

(** How the promise settles: [resolve(stdout.trim())] on exit code 0,
    [reject(new Error(..))] otherwise; [inl] is the rejection's message. *)
Definition settle (r : ProcResult) : string + string :=
  match r with
  | Exited code stdout stderr =>
      match code with
      | Some 0%N => inr (trim stdout)
      | _ =>
          inl ("Python script exited with code " ++ showCode code
               ++ ". Stderr: " ++ trim stderr)
      end
  | SpawnFailed message =>
      inl ("Failed to start Python script: " ++ message)
  end.

Definition runPythonScript (w : World) (scriptPath : string) (args : list string)
  : M string :=
  emit (Spawned scriptPath args) ;;
  await (settle (spawn_python w scriptPath args)).

(** [path.join(__dirname, ...)], kept as the relative path of the source. *)
Definition chroma_handler : string := "../python_scripts/chroma_handler.py".

(* ================================================================== *)
(** ** [pythonOutput.match(/SUCCESS:(.+)$/m)] *)
(* ================================================================== *)

(** What a greedy [.+] or [.*] consumes: the characters up to the next
    line terminator.  With the [m] flag the [$] that follows then holds. *)
Fixpoint line_rest (s : string) : string :=
  match s with
  | EmptyString => EmptyString
  | String c s' =>
      if isLineTerminator c then EmptyString else String c (line_rest s')
  end.

(** The match anchored at the start of [s]: its group 1. *)
Definition success_at (s : string) : option string :=
  match stripPrefix "SUCCESS:" s with
  | Some rest =>
      match line_rest rest with
      | EmptyString => None
      | g => Some g
      end
  | None => None
  end.

(** Without the [g] flag [match] returns the match at the leftmost
    position that has one; the result here is [successMatch[1]]. *)
Fixpoint match_success (s : string) : option string :=
  match success_at s with
  | Some g => Some g
  | None =>
      match s with
      | EmptyString => None
      | String _ s' => match_success s'
      end
  end.

(* ================================================================== *)
(** ** [POST /api/universal-upload] (server.ts, lines 179-249) *)
(* ================================================================== *)

(** Lines 220-236: [chromaDocId] from the worker's output, or the
    message of the [Error] thrown. *)
Definition parse_embed (pythonOutput : string) : string + string :=
  match match_success pythonOutput with
  | Some g => inr (trim g)
  | None => inl ("Python processing failed: " ++ pythonOutput)
  end.

(** Lines 206-236: the worker is run and its output parsed. *)
Definition embed_document (w : World) (filePath type mongoDocumentId : string)
  : M string :=
  pythonOutput <- runPythonScript w chroma_handler
                    ["embed_document"; filePath; type; mongoDocumentId] ;;
  await (parse_embed pythonOutput).

Definition universal_upload (w : World) (req : UploadRequest) : Handler :=
  match up_file req with
  | None => respond 400 (MessageBody "No file uploaded.")
  | Some file =>
      match truthyField (up_workspaceId req) with
      | None => respond 400 (MessageBody "Workspace ID is required.")
      | Some ws =>
          try_catch
            (newDocument <- new_DocumentModel w (originalname file) (mimetype file) ws ;;
             save_new w newDocument ;;
             let mongoDocumentId := oid_toString (_id newDocument) in
             chromaDocId <- embed_document w (path file) (mimetype file) mongoDocumentId ;;
             let newDocument :=
               mkDoc (_id newDocument) (fileName newDocument)
                     (originalType newDocument) (uploadedAt newDocument)
                     true (Some chromaDocId) (workspaceId newDocument) in
             save_modified w newDocument ;;
             ret (mkResponse 200
                    (UploadBody "File uploaded and processed successfully!"
                                mongoDocumentId chromaDocId)))
            (fun error =>
               mkResponse 500 (ErrorBody "Error processing file" error))
      end
  end.

(* ================================================================== *)
(** ** [POST /api/universal-qa] (server.ts, lines 253-419) *)
(* ================================================================== *)

(** [.map((doc) => doc.chromaDocumentId!).filter(Boolean)]. *)
Definition filter_Boolean (l : list (option string)) : list string :=
  flat_map (fun o =>
              match o with
              | Some h => if truthy h then [h] else []
              | None => []
              end) l.

Definition chromaIds (docs : list DocRecord) : list string :=
  filter_Boolean (map chromaDocumentId docs).

(** The filter of lines 268-272:
    [{_id: {$in: documentIds}, workspaceId, processed: true}]. *)
Definition by_ids (documentIds : list ObjectId) (ws : string) (d : DocRecord) : bool :=
  existsb (N.eqb (_id d)) documentIds
  && String.eqb (workspaceId d) ws
  && processed d.

(** The filter of lines 285-288: [{workspaceId, processed: true}]. *)
Definition all_processed (ws : string) (d : DocRecord) : bool :=
  String.eqb (workspaceId d) ws && processed d.

(** [documentIds && documentIds.length > 0]. *)
Definition ids_given (documentIds : option (list ObjectId)) : option (list ObjectId) :=
  match documentIds with
  | Some (i :: l) => Some (i :: l)
  | _ => None
  end.

(** Lines 264-300: the early 400 response, or [chromaDocumentIds]. *)
Definition resolve_documents (documentIds : option (list ObjectId)) (ws : string)
  : M (Response + list string) :=
  match ids_given documentIds with
  | Some ids =>
      docs <- find (by_ids ids ws) ;;
      let chromaDocumentIds := chromaIds docs in
      match chromaDocumentIds with
      | [] => ret (inl (mkResponse 400
                (MessageBody "No processed documents found for the provided IDs.")))
      | _ => ret (inr chromaDocumentIds)
      end
  | None =>
      allProcessedDocs <- find (all_processed ws) ;;
      let chromaDocumentIds := chromaIds allProcessedDocs in
      match chromaDocumentIds with
      | [] => ret (inl (mkResponse 400
                (MessageBody
                   "No documents have been processed yet. Please upload a file first.")))
      | _ => ret (inr chromaDocumentIds)
      end
  end.

(** Lines 302-313: the retrieval worker and [JSON.parse] of its output. *)
Definition query_documents (w : World) (query : string) (chromaDocumentIds : list string)
  : M (list Chunk) :=
  relevantChunksJson <- runPythonScript w chroma_handler
                          ["query_documents"; query; join "," chromaDocumentIds] ;;
  await (JSON_parse w relevantChunksJson).

(** Lines 327-336. *)
Definition llmPrompt (context query : string) : string :=
  "You are an intelligent assistant. Answer the following question based ONLY on the provided context. If the answer cannot be found in the context, state that you don't have enough information."
  ++ nl ++
  "If the question asks for numerical comparison or data visualization, suggest a chart type (e.g., "
  ++ dq ++ "bar chart" ++ dq ++ ", " ++ dq ++ "line chart" ++ dq ++ ", "
  ++ dq ++ "pie chart" ++ dq
  ++ ") and briefly describe what it would show."
  ++ nl ++ nl ++
  "Context:" ++ nl ++ context ++ nl ++ nl ++
  "Question: " ++ dq ++ query ++ dq ++ nl ++ nl ++
  "Answer:".

(** Lines 339-362: one call of the model; a throw of the SDK is a throw. *)
Definition gemini (w : World) (prompt : string) : M string :=
  emit (Generated prompt) ;;
  await (generateContent w prompt).

(** Lines 367-372: the first chart block, as a change of [chartData]. *)
Definition chart_block_1 (aiAnswer : string) (chartData : option string)
  : option string :=
  if includes (toLowerCase aiAnswer) "chart"
     || includes (toLowerCase aiAnswer) "visualize"
  then
    let chartData := Some "A chart showing data from the context would be beneficial." in
    let chartData :=
      if includes (toLowerCase aiAnswer) "bar chart"
      then Some "Bar chart showing comparison." else chartData in
    let chartData :=
      if includes (toLowerCase aiAnswer) "line chart"
      then Some "Line chart showing trends over time." else chartData in
    let chartData :=
      if includes (toLowerCase aiAnswer) "pie chart"
      then Some "Pie chart showing proportions." else chartData in
    chartData
  else chartData.

(** Lines 381-392: the second chart block. *)
Definition chart_block_2 (aiAnswer : string) (chartData : option string)
  : option string :=
  if includes (toLowerCase aiAnswer) "chart"
     || includes (toLowerCase aiAnswer) "visualize"
  then
    let chartData := Some "A chart showing data from the context would be beneficial." in
    let chartData :=
      if includes (toLowerCase aiAnswer) "bar chart"
      then Some "Bar chart showing comparison." else chartData in
    let chartData :=
      if includes (toLowerCase aiAnswer) "line chart"
      then Some "Line chart showing trends over time." else chartData in
    let chartData :=
      if includes (toLowerCase aiAnswer) "pie chart"
      then Some "Pie chart showing proportions." else chartData in
    chartData
  else chartData.

(** Lines 394-398. *)
Definition next_steps_block (aiAnswer : string) (nextSteps : list string)
  : list string :=
  if includes (toLowerCase aiAnswer) "suggested next steps"
  then ["Review the detailed report."; "Discuss findings with the team."]
  else if includes (toLowerCase aiAnswer) "further analysis"
  then ["Perform further analysis on identified areas."]
  else nextSteps.

Definition no_information : string :=
  "I couldn't find relevant information in the uploaded documents for your query. Please try rephrasing or upload more relevant files.".

(** Lines 315-406: from the retrieved chunks to the response. *)
Definition answer_from (w : World) (query : string) (relevantChunks : list Chunk)
  : M Response :=
  match relevantChunks with
  | [] => ret (mkResponse 200 (AnswerBody no_information [] None []))
  | _ =>
      let context := join (nl ++ nl) (map text relevantChunks) in
      aiAnswer <- gemini w (llmPrompt context query) ;;
      let chartData : option string := None in
      let nextSteps : list string := [] in
      let chartData := chart_block_1 aiAnswer chartData in
      let citations := map source relevantChunks in
      let chartData := chart_block_2 aiAnswer chartData in
      let nextSteps := next_steps_block aiAnswer nextSteps in
      ret (mkResponse 200 (AnswerBody aiAnswer citations chartData nextSteps))
  end.

(** Lines 407-418: the [catch] of the query handler. *)
Definition qa_catch (error : string) : Response :=
  if includes error "API key not valid"
  then mkResponse 401 (MessageBody "Gemini API key is invalid or not configured.")
  else mkResponse 500 (ErrorBody "Error getting AI response" error).

Definition universal_qa (w : World) (req : QaRequest) : Handler :=
  match truthyField (qa_query req) with
  | None => respond 400 (MessageBody "Query is required.")
  | Some query =>
      match truthyField (qa_workspaceId req) with
      | None => respond 400 (MessageBody "Workspace ID is required.")
      | Some ws =>
          try_catch
            (resolved <- resolve_documents (qa_documentIds req) ws ;;
             match resolved with
             | inl early => ret early
             | inr chromaDocumentIds =>
                 relevantChunks <- query_documents w query chromaDocumentIds ;;
                 answer_from w query relevantChunks
             end)
            qa_catch
      end
  end.

(* ================================================================== *)
(** ** [GET /api/workspaces/:workspaceId/documents] (workspace.ts, 73-88) *)
(* ================================================================== *)

(** The handler of the route.  The router reaches it for the workspace
    ids that do not read "join": see [route_get] and
    [get_workspace_documents] further down. *)
Definition workspace_documents (ws : string) : Handler :=
  try_catch
    (docs <- find (fun d => String.eqb (workspaceId d) ws) ;;
     ret (mkResponse 200
            (DocumentsBody
               ("Found " ++ showN (N.of_nat (List.length docs))
                ++ " documents for workspace " ++ ws ++ ".")
               docs)))
    (fun error =>
       mkResponse 500 (ErrorBody "Failed to retrieve documents." error)).

(* ================================================================== *)
(** ** Requests, and runs of the server *)
(* ================================================================== *)

(** The requests of a run: an upload, a query with a body of the
    declared shape, and a GET that the router gives to the listing
    handler. *)
Inductive Request :=
| Upload (req : UploadRequest)
| Query (req : QaRequest)
| ListDocuments (ws : string).

Definition handle (w : World) (r : Request) : Handler :=
  match r with
  | Upload req => universal_upload w req
  | Query req => universal_qa w req
  | ListDocuments ws => workspace_documents ws
  end.

(** The server answers requests one after the other, each in the world it
    meets; the result is every event in order, the final store and the
    responses. *)
Fixpoint serve (rs : list (World * Request)) (db : Db)
  : list Event * Db * list Response :=
  match rs with
  | [] => ([], db, [])
  | (w, r) :: rest =>
      match handle w r db with
      | (ev, db', resp) =>
          match serve rest db' with
          | (ev', db'', resps) => ((ev ++ ev')%list, db'', resp :: resps)
          end
      end
  end.

Definition empty_db : Db := mkDb [] 0.

(** The states of the collection an observer can meet during a run: the
    one it started from and the one after each committed write. *)
Fixpoint snapshots (ev : list Event) : list (list DocRecord) :=
  match ev with
  | [] => []
  | Saved coll :: rest => coll :: snapshots rest
  | _ :: rest => snapshots rest
  end.

Definition observable (db : Db) (ev : list Event) : list (list DocRecord) :=
  documents db :: snapshots ev.

(* ================================================================== *)
(** ** Notions the statements use *)
(* ================================================================== *)

(** The three components of a run. *)
Definition events_of {A} (r : list Event * Db * A) : list Event := fst (fst r).
Definition store_of {A} (r : list Event * Db * A) : Db := snd (fst r).
Definition result_of {A} (r : list Event * Db * A) : A := snd r.

(** [k] occurs in [s] in some mix of upper and lower case. *)
Definition contains_any_case (s k : string) : Prop :=
  exists pre mid post,
    s = pre ++ mid ++ post /\ toLowerCase mid = toLowerCase k.

(** The record as the upload handler builds it before its first save. *)
Definition pending (w : World) (file : File) (ws : string) (db : Db) : DocRecord :=
  mkDoc (next_oid db) (originalname file) (mimetype file) (now w) false None ws.

(** The same record once marked processed with handle [h]. *)
Definition marked (h : string) (d : DocRecord) : DocRecord :=
  mkDoc (_id d) (fileName d) (originalType d) (uploadedAt d) true (Some h)
        (workspaceId d).

(** The arguments the upload handler gives the worker for record [d]. *)
Definition embed_args (file : File) (d : DocRecord) : list string :=
  ["embed_document"; path file; mimetype file; oid_toString (_id d)].

(** The outcome of the embedding for a child process that ends as [r]:
    [inr] the vector handle, [inl] the reason of the failure. *)
Definition embed_outcome (r : ProcResult) : string + string :=
  match settle r with
  | inl e => inl e
  | inr pythonOutput => parse_embed pythonOutput
  end.

(** The outcome of the retrieval for a child process that ends as [r]. *)
Definition retrieval_outcome (w : World) (r : ProcResult) : string + list Chunk :=
  match settle r with
  | inl e => inl e
  | inr relevantChunksJson => JSON_parse w relevantChunksJson
  end.

(** The records a query resolves to, and their handles. *)
Definition resolved_records (documentIds : option (list ObjectId)) (ws : string)
           (coll : list DocRecord) : list DocRecord :=
  match ids_given documentIds with
  | Some ids => filter (by_ids ids ws) coll
  | None => filter (all_processed ws) coll
  end.

Definition candidate_handles (documentIds : option (list ObjectId)) (ws : string)
           (coll : list DocRecord) : list string :=
  chromaIds (resolved_records documentIds ws coll).

Definition no_processed_documents (documentIds : option (list ObjectId)) : Response :=
  match ids_given documentIds with
  | Some _ =>
      mkResponse 400
        (MessageBody "No processed documents found for the provided IDs.")
  | None =>
      mkResponse 400
        (MessageBody
           "No documents have been processed yet. Please upload a file first.")
  end.

Definition query_args (query : string) (handles : list string) : list string :=
  ["query_documents"; query; join "," handles].

(** The invariant of the data model on one record. *)
Definition handle_iff_processed (d : DocRecord) : Prop :=
  chromaDocumentId d <> None <-> processed d = true.

(** What the handler computes from the answer of the model. *)
Definition chartHint (aiAnswer : string) : option string :=
  chart_block_2 aiAnswer (chart_block_1 aiAnswer None).

Definition nextSteps (aiAnswer : string) : list string :=
  next_steps_block aiAnswer [].

(** *** Matches of [/SUCCESS:(.+)$/m], declaratively *)

Fixpoint no_line_terminator (s : string) : bool :=
  match s with
  | EmptyString => true
  | String c s' => negb (isLineTerminator c) && no_line_terminator s'
  end.

(** Where [$] holds under the [m] flag: at the end of the input or in
    front of a line terminator. *)
Definition at_line_end (s : string) : bool :=
  match s with
  | EmptyString => true
  | String c _ => isLineTerminator c
  end.

(** The pattern matches [s] right after [pre], with [g] as group 1. *)
Definition success_match (s pre g : string) : Prop :=
  exists post,
    s = pre ++ "SUCCESS:" ++ g ++ post
    /\ g <> EmptyString
    /\ no_line_terminator g = true
    /\ at_line_end post = true.

(** [g] is group 1 of the leftmost match in [s]. *)
Definition first_success (s g : string) : Prop :=
  exists pre,
    success_match s pre g
    /\ forall pre' g', success_match s pre' g' ->
                      String.length pre <= String.length pre'.

(** *** The worker boundary in the words of the specification

    "stdout last matching line [SUCCESS:<handle>]": the text is cut into
    lines and the handle is read from the last line that matches. *)
Fixpoint split_lines (s : string) : list string :=
  match s with
  | EmptyString => [EmptyString]
  | String c s' =>
      if isLineTerminator c then EmptyString :: split_lines s'
      else match split_lines s' with
           | l :: ls => String c l :: ls
           | [] => [String c EmptyString]
           end
  end.

Definition last_success_line (stdout : string) : option string :=
  fold_left (fun acc line =>
               match match_success line with
               | Some g => Some (trim g)
               | None => acc
               end)
            (split_lines stdout) None.

(** *** The query handler with the chart heuristic written once

    The handler of lines 253-419 without the block of lines 381-392. *)
Definition answer_from_single (w : World) (query : string)
           (relevantChunks : list Chunk) : M Response :=
  match relevantChunks with
  | [] => ret (mkResponse 200 (AnswerBody no_information [] None []))
  | _ =>
      let context := join (nl ++ nl) (map text relevantChunks) in
      aiAnswer <- gemini w (llmPrompt context query) ;;
      let chartData : option string := None in
      let nextSteps : list string := [] in
      let chartData := chart_block_1 aiAnswer chartData in
      let citations := map source relevantChunks in
      let nextSteps := next_steps_block aiAnswer nextSteps in
      ret (mkResponse 200 (AnswerBody aiAnswer citations chartData nextSteps))
  end.

Definition universal_qa_single (w : World) (req : QaRequest) : Handler :=
  match truthyField (qa_query req) with
  | None => respond 400 (MessageBody "Query is required.")
  | Some query =>
      match truthyField (qa_workspaceId req) with
      | None => respond 400 (MessageBody "Workspace ID is required.")
      | Some ws =>
          try_catch
            (resolved <- resolve_documents (qa_documentIds req) ws ;;
             match resolved with
             | inl early => ret early
             | inr chromaDocumentIds =>
                 relevantChunks <- query_documents w query chromaDocumentIds ;;
                 answer_from_single w query relevantChunks
             end)
            qa_catch
      end
  end.

(** *** Uploads that overlap

    A handler is suspended at each [await] and other requests run
    meanwhile.  The upload handler writes twice, once before and once
    after it awaits the worker; the two segments are given here with the
    handler's own operations, and [step] lets any number of uploads
    interleave on the shared collection. *)

(** An upload suspended on the worker: the world it runs in, its file and
    its in-memory document. *)
Record Suspended := mkSuspended {
  s_world : World;
  s_file : File;
  s_doc : DocRecord
}.

(** Lines 196-203: up to the call of the worker. *)
Definition upload_begin (w : World) (file : File) (ws : string) : M DocRecord :=
  newDocument <- new_DocumentModel w (originalname file) (mimetype file) ws ;;
  save_new w newDocument ;;
  ret newDocument.

(** Lines 220-236: from the settled promise of the worker on. *)
Definition upload_resume (s : Suspended) : M Response :=
  chromaDocId <- await (embed_outcome
                          (spawn_python (s_world s) chroma_handler
                             (embed_args (s_file s) (s_doc s)))) ;;
  save_modified (s_world s) (marked chromaDocId (s_doc s)) ;;
  ret (mkResponse 200
         (UploadBody "File uploaded and processed successfully!"
                     (oid_toString (_id (s_doc s))) chromaDocId)).

Definition Server : Type := Db * list Suspended.

Inductive step : Server -> Server -> Prop :=
| step_begin (w : World) (file : File) (ws : string) (db db' : Db)
             (ev : list Event) (d : DocRecord) (pool : list Suspended) :
    upload_begin w file ws db = (ev, db', inr d) ->
    step (db, pool) (db', mkSuspended w file d :: pool)
| step_refused (w : World) (file : File) (ws : string) (db db' : Db)
               (ev : list Event) (e : string) (pool : list Suspended) :
    upload_begin w file ws db = (ev, db', inl e) ->
    step (db, pool) (db', pool)
| step_resume (s : Suspended) (db db' : Db) (ev : list Event)
              (r : string + Response) (pool1 pool2 : list Suspended) :
    upload_resume s db = (ev, db', r) ->
    step (db, (pool1 ++ s :: pool2)%list) (db', (pool1 ++ pool2)%list).

Inductive reachable : Server -> Prop :=
| reachable_init : reachable (empty_db, [])
| reachable_step (s s' : Server) : reachable s -> step s s' -> reachable s'.

(** *** Sample worlds and requests *)

Module Sample.

Definition passage : Chunk := mkChunk "Revenue was $5M" "vec123".

Definition driver (e : StoreError) : string :=
  match e with
  | ValidationFailed => "Document validation failed"
  | DuplicateKey => "E11000 duplicate key error"
  | DocumentNotFound => "No document found for query"
  end.

(** The worker embeds and answers [SUCCESS:vec123]; retrieval finds one
    passage; the model answers. *)
Definition world_ok : World :=
  mkWorld 1700000000000%N
    (fun _ args =>
       match args with
       | "embed_document" :: _ =>
           Exited (Some 0%N) ("Loading file" ++ nl ++ "SUCCESS:vec123" ++ nl)
                  EmptyString
       | _ => Exited (Some 0%N) "[...]" EmptyString
       end)
    (fun _ => inr [passage])
    (fun _ => inr "Revenue was $5M. A Pie Chart would show the split; suggested next steps follow.")
    driver.

(** The worker exits with code 1. *)
Definition world_fail : World :=
  mkWorld 1700000000000%N
    (fun _ _ => Exited (Some 1%N) "FAILURE:no text" " boom ")
    (fun _ => inr [])
    (fun _ => inr "n/a")
    driver.

(** Retrieval finds nothing. *)
Definition world_empty : World :=
  mkWorld 1700000000000%N
    (fun _ _ => Exited (Some 0%N) "[]" EmptyString)
    (fun _ => inr [])
    (fun _ => inr "n/a")
    driver.

(** The worker prints [SUCCESS:] followed by a blank only. *)
Definition world_blank : World :=
  mkWorld 1700000000000%N
    (fun _ _ => Exited (Some 0%N) ("SUCCESS: " ++ nl ++ "done") EmptyString)
    (fun _ => inr [])
    (fun _ => inr "n/a")
    driver.

(** A worker output with two lines that match. *)
Definition two_lines : string := "SUCCESS:a" ++ nl ++ "SUCCESS:b".

Definition report : File :=
  mkFile "report.pdf" "application/pdf" "uploads/1700000000000-report.pdf".

Definition upload_W1 : UploadRequest := mkUpload (Some report) (Some "W1").

Definition ask_W1 : QaRequest :=
  mkQa (Some "What is the revenue?") None (Some "W1").

Definition ask_W2 : QaRequest :=
  mkQa (Some "What is the revenue?") None (Some "W2").

Definition ask_W1_ids (ids : list ObjectId) : QaRequest :=
  mkQa (Some "What is the revenue?") (Some ids) (Some "W1").

(** The record of [upload_W1] on the empty store, pending and processed. *)
Definition report_pending : DocRecord :=
  mkDoc 0%N "report.pdf" "application/pdf" 1700000000000%N false None "W1".

Definition report_processed : DocRecord := marked "vec123" report_pending.

Definition db_processed : Db := mkDb [report_processed] 1.

End Sample.

(* ================================================================== *)
(** ** Routes answering with parsed JSON *)
(* ================================================================== *)

(** What [res.status(..).json(..)] sends on the routes that forward the
    output of a script: one of the fixed bodies, or the value
    [JSON.parse] returned, of a type [Json] left open. *)
Inductive Reply (Json : Type) : Type :=
| Fixed (r : Response)
| Parsed (code : nat) (json : Json).

Arguments Fixed {Json} r.
Arguments Parsed {Json} code json.

(** [try { m } catch (error) { .. }] for any type of answer. *)
Definition catching {A} (m : M A) (handler : string -> A)
  : Db -> list Event * Db * A :=
  fun db =>
    match m db with
    | (ev, db', inl e) => (ev, db', handler e)
    | (ev, db', inr a) => (ev, db', a)
    end.

(** *** [POST /api/generate-knowledge-graph] (server.ts, lines 135-174) *)

Definition knowledge_graph_generator : string :=
  "../python_scripts/knowledge_graph_generator.py".

(** Lines 149-154: one placeholder per document with a truthy
    [chromaDocumentId]. *)
Definition allProcessedChunks (docs : list DocRecord) : list string :=
  flat_map (fun doc =>
              match chromaDocumentId doc with
              | Some h =>
                  if truthy h
                  then ["Placeholder content for doc ID: " ++ h ++ "."]
                  else []
              | None => []
              end) docs.

Definition generate_knowledge_graph {Json : Type} (w : World)
           (parse : string -> string + Json) (bodyWorkspaceId : option string)
  : Db -> list Event * Db * Reply Json :=
  match truthyField bodyWorkspaceId with
  | None =>
      fun db => ([], db, Fixed (mkResponse 400 (MessageBody "Workspace ID is required.")))
  | Some ws =>
      catching
        (docs <- find (all_processed ws) ;;
         match docs with
         | [] =>
             ret (Fixed (mkResponse 400 (MessageBody "No processed document found")))
         | _ =>
             let textContext := join (nl ++ nl) (allProcessedChunks docs) in
             if negb (truthy textContext)
             then ret (Fixed (mkResponse 400
                                (MessageBody "Could not retrieve content")))
             else
               pythonOutput <- runPythonScript w knowledge_graph_generator
                                 ["generate_graph"; textContext] ;;
               knowledgeGraph <- await (parse pythonOutput) ;;
               ret (Parsed 200 knowledgeGraph)
         end)
        (fun error =>
           Fixed (mkResponse 500
                    (ErrorBody "Failed to generate knowledge graph" error)))
  end.

(** *** [POST /api/agents/run] (routes/agent.ts, lines 39-59) *)

Definition langgraph_agent : string := "../../python_scripts/langgraph_agent.py".

Definition agent_run {Json : Type} (w : World)
           (parse : string -> string + Json) (bodyGoal : option string)
  : Db -> list Event * Db * Reply Json :=
  match truthyField bodyGoal with
  | None =>
      fun db =>
        ([], db,
         Fixed (mkResponse 400
                  (MessageBody "A goal is required to run the agent.")))
  | Some goal =>
      catching
        (pythonOutput <- runPythonScript w langgraph_agent ["run_agent"; goal] ;;
         result <- await (parse pythonOutput) ;;
         ret (Parsed 200 result))
        (fun error =>
           Fixed (mkResponse 500 (ErrorBody "Failed to run agent." error)))
  end.

(* ================================================================== *)
(** ** The MySQL side: users and workspaces *)
(* ================================================================== *)

(** Rows of the tables [user] (models/User) and [workspaces]
    (models/Workspace); ids are UUID strings. *)
Record UserRow := mkUser {
  user_id : string;
  email : string;
  passwordHash : string;
  username : string;
  user_createdAt : N;
  user_updatedAt : N
}.

Record WorkspaceRow := mkWorkspace {
  workspace_id : string;
  workspace_name : string;
  ownerId : string;
  inviteLink : string;
  description : option string;
  createdAt : N;
  updatedAt : N
}.

Record Sql := mkSql { users : list UserRow; workspaces : list WorkspaceRow }.

Inductive SqlError :=
| UniqueViolation
| ForeignKeyViolation
| Refused.

(** What the code does not decide on the MySQL side: the two values
    [uuidv4] gives (the default of [id] and the invite link), the time
    of the [timestamps], how the
    server compares the text of a column (its collation), whether it
    refuses a row the models allow (a value too long, a lost connection),
    whether [sequelize.sync] fails, and the text of the errors. *)
Record SqlWorld := mkSqlWorld {
  sql_now : N;
  uuid_id : string;
  uuid_link : string;
  collate : string -> string -> bool;
  refuses_workspace : WorkspaceRow -> bool;
  refuses_user : UserRow -> bool;
  sync_fails : bool;
  sql_error : SqlError -> string
}.

(** [Workspace.create(row)]: primary key, the [unique] invite link, the
    reference to [User]. *)
Definition insert_workspace (w : SqlWorld) (row : WorkspaceRow) (s : Sql)
  : string + Sql :=
  if refuses_workspace w row then inl (sql_error w Refused)
  else if existsb (fun r => String.eqb (workspace_id r) (workspace_id row))
                  (workspaces s)
          || existsb (fun r => collate w (inviteLink r) (inviteLink row))
                     (workspaces s)
  then inl (sql_error w UniqueViolation)
  else if negb (existsb (fun u => String.eqb (user_id u) (ownerId row)) (users s))
  then inl (sql_error w ForeignKeyViolation)
  else inr (mkSql (users s) (workspaces s ++ [row])%list).

(** [User.create(row)]: primary key, [unique] email and username. *)
Definition insert_user (w : SqlWorld) (row : UserRow) (s : Sql) : string + Sql :=
  if refuses_user w row then inl (sql_error w Refused)
  else if existsb (fun u => String.eqb (user_id u) (user_id row)
                            || collate w (email u) (email row)
                            || collate w (username u) (username row))
                  (users s)
  then inl (sql_error w UniqueViolation)
  else inr (mkSql (users s ++ [row])%list (workspaces s)).

(** The answers of the workspace routes. *)
Inductive WorkspaceBody :=
| WsMessage (message : string)
| WsError (message error : string)
| WsCreated (message workspaceId inviteLink : string)
| WsFound (message workspaceId workspaceName inviteLink : string).

Record WsResponse := mkWsResponse { ws_status : nat; ws_body : WorkspaceBody }.

(** The placeholder owner of server.ts line 40 and workspace.ts line 21. *)
Definition placeholder_owner : string := "00000000-0000-0000-0000-000000000001".

(** *** [POST /api/workspaces/create] (workspace.ts, lines 12-39) *)
Definition workspace_create (w : SqlWorld) (workspaceName : option string) (s : Sql)
  : Sql * WsResponse :=
  match truthyField workspaceName with
  | None => (s, mkWsResponse 400 (WsMessage "Workspace name is required."))
  | Some name =>
      let newWorkspace :=
        mkWorkspace (uuid_id w) name placeholder_owner (uuid_link w) None
                    (sql_now w) (sql_now w) in
      match insert_workspace w newWorkspace s with
      | inr s' =>
          (s', mkWsResponse 201
                 (WsCreated "Workspace created successfully!"
                            (workspace_id newWorkspace) (inviteLink newWorkspace)))
      | inl error =>
          (s, mkWsResponse 500 (WsError "Failed to create workspace." error))
      end
  end.

(** [Workspace.findOne({ where: { inviteLink } })]. *)
Definition findOne_inviteLink (w : SqlWorld) (link : string) (s : Sql)
  : option WorkspaceRow :=
  List.find (fun r => collate w (inviteLink r) link) (workspaces s).

(** *** [GET /api/workspaces/join/:inviteLink] (workspace.ts, lines 44-70) *)
Definition workspace_join (w : SqlWorld) (link : string) (s : Sql)
  : Sql * WsResponse :=
  match findOne_inviteLink w link s with
  | None => (s, mkWsResponse 404 (WsMessage "Invalid or expired invite link."))
  | Some workspace =>
      (s, mkWsResponse 200
            (WsFound "Workspace found." (workspace_id workspace)
                     (workspace_name workspace) (inviteLink workspace)))
  end.

(** *** The start of the server (server.ts, lines 36-55)

    After [sequelize.sync] the placeholder user is created unless
    [findByPk] finds it; [None] is [process.exit(1)]. *)
Definition placeholder_user (w : SqlWorld) : UserRow :=
  mkUser placeholder_owner "placeholder@example.com"
         "not_needed_for_this_example" "PlaceholderUser"
         (sql_now w) (sql_now w).

Definition findByPk (pk : string) (s : Sql) : option UserRow :=
  List.find (fun u => String.eqb (user_id u) pk) (users s).

Definition startup (w : SqlWorld) (s : Sql) : option Sql :=
  if sync_fails w then None
  else
    match findByPk placeholder_owner s with
    | Some existingUser => Some s
    | None =>
        match insert_user w (placeholder_user w) s with
        | inr s' => Some s'
        | inl _ => None
        end
    end.

(** Requests to the workspace routes, served one after the other. *)
Inductive WorkspaceRequest :=
| Create (workspaceName : option string)
| Join (link : string).

Definition workspace_route (w : SqlWorld) (r : WorkspaceRequest) (s : Sql)
  : Sql * WsResponse :=
  match r with
  | Create workspaceName => workspace_create w workspaceName s
  | Join link => workspace_join w link s
  end.

Fixpoint serve_workspaces (rs : list (SqlWorld * WorkspaceRequest)) (s : Sql) : Sql :=
  match rs with
  | [] => s
  | (w, r) :: rest => serve_workspaces rest (fst (workspace_route w r s))
  end.

(* ================================================================== *)
(** ** config/mysql.ts: the port of the connection *)
(* ================================================================== *)

(** The values [parseInt] can give: [NaN], an integer with its sign (so
    that [-0] is told from [0]), or an integer above 2^53 in magnitude,
    which [parseInt] rounds to a double that is not followed here. *)
Inductive JsNumber :=
| NaN
| Int (negative : bool) (magnitude : N)
| Beyond (negative : bool).

Definition isDigit (c : ascii) : bool :=
  let n := nat_of_ascii c in ((48 <=? n) && (n <=? 57))%nat.

(** The longest prefix of decimal digits. *)
Fixpoint digits (s : string) : string :=
  match s with
  | EmptyString => EmptyString
  | String c s' => if isDigit c then String c (digits s') else EmptyString
  end.

Definition strip_sign (s : string) : bool * string :=
  match s with
  | EmptyString => (false, s)
  | String c r =>
      if Ascii.eqb c "-" then (true, r)
      else if Ascii.eqb c "+" then (false, r)
      else (false, s)
  end.

(** [parseInt(string, 10)]: leading white space is skipped, then a sign,
    then the digits up to the first character that is not one; no digit
    gives [NaN]. *)
Definition parseInt10 (s : string) : JsNumber :=
  let (negative, rest) := strip_sign (trimStart s) in
  match DecimalString.NilZero.uint_of_string (digits rest) with
  | None => NaN
  | Some d =>
      let n := N.of_uint d in
      if (n <=? 9007199254740992)%N then Int negative n else Beyond negative
  end.

(** [parseInt(process.env.MYSQL_PORT as string, 10) || 3306]: an unset
    variable is [undefined], which [parseInt] reads as the text
    "undefined"; [NaN], [0] and [-0] are falsy. *)
Definition mysql_port (MYSQL_PORT : option string) : JsNumber :=
  match parseInt10 (match MYSQL_PORT with
                    | Some s => s
                    | None => "undefined"
                    end) with
  | NaN => Int false 3306
  | Int _ 0%N => Int false 3306
  | n => n
  end.

(* ================================================================== *)
(** ** Further notions the statements use *)
(* ================================================================== *)

(** The handles stored in a collection, in order. *)
Definition handles (coll : list DocRecord) : list string :=
  flat_map (fun d =>
              match chromaDocumentId d with
              | Some h => [h]
              | None => []
              end) coll.

(** Ids and handles are keys: no two records share one, and the
    generator is ahead of every stored id. *)
Definition well_keyed (db : Db) : Prop :=
  NoDup (map _id (documents db))
  /\ NoDup (handles (documents db))
  /\ Forall (fun d => (_id d < next_oid db)%N) (documents db).

(** A character occurs in a string. *)
Fixpoint has_char (c : ascii) (s : string) : bool :=
  match s with
  | EmptyString => false
  | String x s' => Ascii.eqb x c || has_char c s'
  end.

Definition COMMA : ascii := ascii_of_nat 44.

(** The requests of a run that are uploads. *)
Definition is_upload (x : World * Request) : bool :=
  match snd x with
  | Upload _ => true
  | _ => false
  end.

(** A string that is empty or starts with a character that is not white
    space; the same at its end. *)
Definition starts_clean (s : string) : bool :=
  match s with
  | EmptyString => true
  | String c _ => negb (isWhiteSpace c)
  end.

(** *** Further sample worlds *)

Module Scenario.

(** Every script fails with exit code 1 and a complaint about a key. *)
Definition world_key_error : World :=
  mkWorld 1700000000000%N
    (fun _ _ => Exited (Some 1%N) EmptyString
                       ("chromadb: API key not valid" ++ nl))
    (fun _ => inr [])
    (fun _ => inr "n/a")
    Sample.driver.

(** A parser of JSON that knows one text. *)
Definition parse_one (out : string) : string + nat :=
  if String.eqb out "[...]" then inr 7 else inl "Unexpected token".

(** The agent script prints the JSON text of a list of two numbers. *)
Definition world_agent : World :=
  mkWorld 1700000000000%N
    (fun _ _ => Exited (Some 0%N) ("[7, 8]" ++ nl) EmptyString)
    (fun _ => inr [])
    (fun _ => inr "n/a")
    Sample.driver.

(** A parser of JSON that knows that text. *)
Definition parse_array (out : string) : string + list nat :=
  if String.eqb out "[7, 8]" then inr [7; 8]
  else inl "Unexpected token . in JSON".

Definition sql_world (id link : string) : SqlWorld :=
  mkSqlWorld 1700000000000%N id link String.eqb
             (fun _ => false) (fun _ => false) false
             (fun e => match e with
                       | UniqueViolation => "Validation error"
                       | ForeignKeyViolation => "a foreign key constraint fails"
                       | Refused => "Data too long for column"
                       end).

Definition seeded : Sql :=
  mkSql [placeholder_user (sql_world "id-1" "link-1")] [].

End Scenario.

(* ================================================================== *)
(** ** The query handler on the body as Express parses it *)
(* ================================================================== *)

(** [req.body] is what [express.json()] parsed: its fields are JSON
    values of any shape.  [universal_qa] above is the handler on bodies
    whose [workspaceId] is a string and whose [documentIds] are ObjectIds;
    [universal_qa_body] below is the same handler (lines 253-419) on every
    body, with the casting Mongoose applies to the filter of [find]. *)
#[warnings="-register-all"]
Inductive Json :=
| JNull
| JBool (b : bool)
| JNumber (n : BinNums.Z)
| JString (s : string)
| JArray (items : list Json)
| JObject (members : list (string * Json)).

(** [!value] is false: the value is truthy. *)
Definition json_truthy (v : Json) : bool :=
  match v with
  | JNull => false
  | JBool b => b
  | JNumber BinNums.Z0 => false
  | JNumber _ => true
  | JString s => truthy s
  | JArray _ => true
  | JObject _ => true
  end.

(** What Mongoose does with the values of a filter, beyond the code of
    the repository: [cast_id] casts one operand of [$in] on [_id] to an
    ObjectId, [cast_operand] reads a value that is not a string, on the
    String path [workspaceId], as the test it stands for (a query
    operator such as [{"$ne": ..}]); [inl] is the message of the
    [CastError] thrown. *)
Record Caster := mkCaster {
  cast_id : Json -> string + ObjectId;
  cast_operand : Json -> string + (string -> bool)
}.

Fixpoint cast_ids (c : Caster) (items : list Json) : string + list ObjectId :=
  match items with
  | [] => inr []
  | x :: rest =>
      match cast_id c x with
      | inl e => inl e
      | inr o =>
          match cast_ids c rest with
          | inl e => inl e
          | inr os => inr (o :: os)
          end
      end
  end.

(** A value on the String path [workspaceId]: a string is compared for
    equality, anything else is for Mongoose to read. *)
Definition text_filter (c : Caster) (value : Json) : string + (string -> bool) :=
  match value with
  | JString s => inr (fun v => String.eqb v s)
  | other => cast_operand c other
  end.

(** The body of [POST /api/universal-qa]: the query as text,
    [documentIds] when it is an array ([None] when the body has none or
    has [null]), [workspaceId] as any JSON value ([None] when the body
    has none).  A body whose [documentIds] is of another type is not
    described. *)
Record QaBody := mkQaBody {
  body_query : option string;
  body_documentIds : option (list Json);
  body_workspaceId : option Json
}.

Definition truthyJson (o : option Json) : option Json :=
  match o with
  | Some v => if json_truthy v then Some v else None
  | None => None
  end.

(** [documentIds && documentIds.length > 0]. *)
Definition ids_given_body (documentIds : option (list Json)) : option (list Json) :=
  match documentIds with
  | Some (i :: l) => Some (i :: l)
  | _ => None
  end.

(** The filter of lines 268-272 and the one of lines 285-288 after
    casting, or the [CastError] of the first path that fails. *)
Definition ids_filter (c : Caster) (items : list Json) (workspace : Json)
  : string + (DocRecord -> bool) :=
  match cast_ids c items with
  | inl e => inl e
  | inr ids =>
      match text_filter c workspace with
      | inl e => inl e
      | inr inWorkspace =>
          inr (fun d => existsb (N.eqb (_id d)) ids
                        && inWorkspace (workspaceId d)
                        && processed d)
      end
  end.

Definition workspace_filter (c : Caster) (workspace : Json)
  : string + (DocRecord -> bool) :=
  match text_filter c workspace with
  | inl e => inl e
  | inr inWorkspace => inr (fun d => inWorkspace (workspaceId d) && processed d)
  end.

(** [await DocumentModel.find(filter)] when the filter may fail to cast. *)
Definition find_cast (filter : string + (DocRecord -> bool)) : M (list DocRecord) :=
  match filter with
  | inl e => throw e
  | inr p => find p
  end.

(** Lines 264-300 on any body. *)
Definition resolve_documents_body (c : Caster) (documentIds : option (list Json))
           (workspace : Json) : M (Response + list string) :=
  match ids_given_body documentIds with
  | Some items =>
      docs <- find_cast (ids_filter c items workspace) ;;
      let chromaDocumentIds := chromaIds docs in
      match chromaDocumentIds with
      | [] => ret (inl (mkResponse 400
                (MessageBody "No processed documents found for the provided IDs.")))
      | _ => ret (inr chromaDocumentIds)
      end
  | None =>
      allProcessedDocs <- find_cast (workspace_filter c workspace) ;;
      let chromaDocumentIds := chromaIds allProcessedDocs in
      match chromaDocumentIds with
      | [] => ret (inl (mkResponse 400
                (MessageBody
                   "No documents have been processed yet. Please upload a file first.")))
      | _ => ret (inr chromaDocumentIds)
      end
  end.

Definition universal_qa_body (c : Caster) (w : World) (body : QaBody) : Handler :=
  match truthyField (body_query body) with
  | None => respond 400 (MessageBody "Query is required.")
  | Some query =>
      match truthyJson (body_workspaceId body) with
      | None => respond 400 (MessageBody "Workspace ID is required.")
      | Some workspace =>
          try_catch
            (resolved <- resolve_documents_body c (body_documentIds body) workspace ;;
             match resolved with
             | inl early => ret early
             | inr chromaDocumentIds =>
                 relevantChunks <- query_documents w query chromaDocumentIds ;;
                 answer_from w query relevantChunks
             end)
            qa_catch
      end
  end.

(** The filter the handler gives [find] for a body, and what the handler
    does once the handles are resolved. *)
Definition body_filter (c : Caster) (documentIds : option (list Json))
           (workspace : Json) : string + (DocRecord -> bool) :=
  match ids_given_body documentIds with
  | Some items => ids_filter c items workspace
  | None => workspace_filter c workspace
  end.

Definition no_processed_documents_body (documentIds : option (list Json)) : Response :=
  match ids_given_body documentIds with
  | Some _ =>
      mkResponse 400
        (MessageBody "No processed documents found for the provided IDs.")
  | None =>
      mkResponse 400
        (MessageBody
           "No documents have been processed yet. Please upload a file first.")
  end.

Definition retrieve_and_answer (w : World) (query : string)
           (chromaDocumentIds : list string) : Handler :=
  try_catch
    (relevantChunks <- query_documents w query chromaDocumentIds ;;
     answer_from w query relevantChunks)
    qa_catch.

(* ================================================================== *)
(** ** The GET routes of the workspace router *)
(* ================================================================== *)

(** [router.get('/join/:inviteLink')] is registered (workspace.ts, line
    44) before [router.get('/:workspaceId/documents')] (line 73), and
    Express tries the routes in that order, matching the fixed segments
    without regard to case: a GET of the two segments [a/b] goes to the
    first route whenever [a] reads "join". *)
Inductive Routed :=
| ToJoin (link : string)
| ToDocuments (ws : string)
| Unrouted.

Definition route_get (a b : string) : Routed :=
  if String.eqb (toLowerCase a) "join" then ToJoin b
  else if String.eqb (toLowerCase b) "documents" then ToDocuments a
  else Unrouted.

(** [GET /api/workspaces/<ws>/documents] as the router dispatches it:
    the listing handler with [ws] as its [:workspaceId], or nothing when
    another route has taken the request. *)
Definition get_workspace_documents (ws : string) : option Handler :=
  match route_get ws "documents" with
  | ToDocuments workspaceId => Some (workspace_documents workspaceId)
  | _ => None
  end.

(** *** A caster for the examples *)

Module Driver.

Definition hex_value (c : ascii) : option N :=
  let n := nat_of_ascii c in
  if ((48 <=? n) && (n <=? 57))%nat then Some (N.of_nat (n - 48))
  else if ((97 <=? n) && (n <=? 102))%nat then Some (N.of_nat (n - 87))
  else if ((65 <=? n) && (n <=? 70))%nat then Some (N.of_nat (n - 55))
  else None.

Fixpoint hex_number (acc : N) (s : string) : option N :=
  match s with
  | EmptyString => Some acc
  | String c s' =>
      match hex_value c with
      | Some v => hex_number (acc * 16 + v) s'
      | None => None
      end
  end.

(** A string of 24 hexadecimal digits casts to the ObjectId it spells;
    of the other values, which Mongoose casts in part, none is cast
    here.  [{"$ne": s}] on a String path is the test of being different
    from [s]; no other operator is read. *)
Definition mongoose : Caster :=
  mkCaster
    (fun v =>
       match v with
       | JString s =>
           if Nat.eqb (String.length s) 24
           then match hex_number 0 s with
                | Some o => inr o
                | None => inl "Cast to ObjectId failed"
                end
           else inl "Cast to ObjectId failed"
       | _ => inl "Cast to ObjectId failed"
       end)
    (fun v =>
       match v with
       | JObject [(op, JString s)] =>
           if String.eqb op "$ne" then inr (fun x => negb (String.eqb x s))
           else inl "Cast to string failed"
       | _ => inl "Cast to string failed"
       end).

Definition ask (documentIds : option (list Json)) (workspace : Json) : QaBody :=
  mkQaBody (Some "What is the revenue?") documentIds (Some workspace).

End Driver.

(* ================================================================== *)
(** ** Handles as the handlers test them *)
(* ================================================================== *)

(** [if (doc.chromaDocumentId)] (server.ts, line 153) and [filter(Boolean)]
    (lines 149 and 293): a handle counts when it is set and not empty. *)
Definition usable_handle (d : DocRecord) : bool :=
  match chromaDocumentId d with
  | Some h => truthy h
  | None => false
  end.

Definition handle_is_usable (d : DocRecord) : Prop :=
  usable_handle d = true <-> processed d = true.

(** The embedding worker of world [w] yields no handle that trims to the
    empty string. *)
Definition worker_never_blank (w : World) : Prop :=
  forall (file : File) (d : DocRecord) (h : string),
    embed_outcome (spawn_python w chroma_handler (embed_args file d)) = inr h ->
    truthy h = true.

(* ================================================================== *)
(** * Properties *)
(* ================================================================== *)

(** ** Strings *)

Section StringFacts.

Lemma append_assoc (a b c : string) : (a ++ b) ++ c = a ++ (b ++ c).
Proof. induction a as [|x a IH]; simpl; [reflexivity | now rewrite IH]. Qed.

Lemma append_empty_r (a : string) : a ++ EmptyString = a.
Proof. induction a as [|x a IH]; simpl; [reflexivity | now rewrite IH]. Qed.

Lemma stripPrefix_app (p t : string) : stripPrefix p (p ++ t) = Some t.
Proof.
  induction p as [|a p IH]; simpl; [reflexivity|].
  now rewrite Ascii.eqb_refl.
Qed.

Lemma stripPrefix_Some (p s t : string) : stripPrefix p s = Some t -> s = p ++ t.
Proof.
  revert s; induction p as [|a p IH]; simpl; intros s H.
  - now inversion H.
  - destruct s as [|b s]; [discriminate|].
    destruct (Ascii.eqb_spec a b) as [->|]; [|discriminate].
    now rewrite (IH _ H).
Qed.

Lemma startsWith_iff (s p : string) :
  startsWith s p = true <-> exists t, s = p ++ t.
Proof.
  unfold startsWith; split.
  - destruct (stripPrefix p s) as [t|] eqn:E; [|discriminate].
    intros _; exists t; now apply stripPrefix_Some.
  - intros [t ->]; now rewrite stripPrefix_app.
Qed.

Lemma includes_unfold (s k : string) :
  includes s k
  = startsWith s k
    || match s with EmptyString => false | String _ s' => includes s' k end.
Proof. now destruct s. Qed.

Lemma includes_app (pre k post : string) : includes (pre ++ k ++ post) k = true.
Proof.
  induction pre as [|c pre IH]; simpl.
  - rewrite includes_unfold.
    replace (startsWith (k ++ post) k) with true; [reflexivity|].
    symmetry; apply startsWith_iff; now exists post.
  - rewrite IH; apply orb_true_r.
Qed.

Lemma includes_iff (s k : string) :
  includes s k = true <-> exists pre post, s = pre ++ k ++ post.
Proof.
  split.
  - induction s as [|c s IH]; simpl; intros H;
      apply orb_true_iff in H as [H|H].
    + apply startsWith_iff in H as [t ->]; now exists EmptyString, t.
    + discriminate.
    + apply startsWith_iff in H as [t ->]; now exists EmptyString, t.
    + destruct (IH H) as (pre & post & ->); now exists (String c pre), post.
  - intros (pre & post & ->); apply includes_app.
Qed.

Lemma includes_longer (s k1 k2 : string) :
  includes s (k1 ++ k2) = true -> includes s k2 = true.
Proof.
  rewrite !includes_iff; intros (pre & post & ->).
  exists (pre ++ k1), post; now rewrite !append_assoc.
Qed.

Lemma toLowerCase_app (a b : string) :
  toLowerCase (a ++ b) = toLowerCase a ++ toLowerCase b.
Proof. induction a as [|x a IH]; simpl; [reflexivity | now rewrite IH]. Qed.

End StringFacts.

Lemma toLowerCase_split (s a b : string) :
  toLowerCase s = a ++ b ->
  exists sa sb, s = sa ++ sb /\ toLowerCase sa = a /\ toLowerCase sb = b.
Proof.
  revert s; induction a as [|x a IH]; simpl; intros s E.
  - now exists EmptyString, s.
  - destruct s as [|c s]; [discriminate|].
    simpl in E; injection E as Ec Es.
    destruct (IH _ Es) as (sa & sb & -> & Ea & Eb).
    exists (String c sa), sb; simpl; now rewrite Ec, Ea.
Qed.

Lemma contains_any_case_includes (s k : string) :
  contains_any_case s k <-> includes (toLowerCase s) (toLowerCase k) = true.
Proof.
  split.
  - intros (pre & mid & post & -> & E).
    rewrite !toLowerCase_app, E; apply includes_app.
  - rewrite includes_iff; intros (pre & post & E).
    apply toLowerCase_split in E as (s1 & s2 & -> & _ & E).
    apply toLowerCase_split in E as (s3 & s4 & -> & E & _).
    now exists s1, s3, s4.
Qed.

(** ** The monad *)

Ltac unfold_M :=
  unfold try_catch, bind, ret, throw, emit, respond, find in *.

(** ** The upload handler, case by case *)

Section Upload.

Variable w : World.
Variable req : UploadRequest.
Variable file : File.
Variable ws : string.
Hypothesis Hfile : up_file req = Some file.
Hypothesis Hws : truthyField (up_workspaceId req) = Some ws.

(** The worker's part of the handler does not touch the store. *)
Lemma embed_document_run (p t i : string) (db : Db) :
  embed_document w p t i db
  = ([Spawned chroma_handler ["embed_document"; p; t; i]], db,
     embed_outcome (spawn_python w chroma_handler ["embed_document"; p; t; i])).
Proof.
  unfold embed_document, runPythonScript, embed_outcome, await; unfold_M.
  now destruct (settle _).
Qed.

(** The runs of the handler on a well-formed request: the first save is
    refused; or the record is saved pending and then the worker or the
    second save fails; or both saves succeed. *)
Lemma universal_upload_cases (db : Db) :
  let d := pending w file ws db in
  let coll := (documents db ++ [d])%list in
  let coll' h :=
    map (fun stored =>
           if N.eqb (_id stored) (_id d) then marked h stored else stored) coll in
  let spawned := Spawned chroma_handler (embed_args file d) in
  let embedded :=
    embed_outcome (spawn_python w chroma_handler (embed_args file d)) in
  (exists e,
     universal_upload w req db
     = ([], mkDb (documents db) (N.succ (next_oid db)),
        mkResponse 500 (ErrorBody "Error processing file" e)))
  \/ (exists e,
        (embedded = inl e
         \/ exists h, embedded = inr h /\ e = store_error w DuplicateKey) /\
        universal_upload w req db
        = ([Saved coll; spawned], mkDb coll (N.succ (next_oid db)),
           mkResponse 500 (ErrorBody "Error processing file" e)))
  \/ (exists h,
        embedded = inr h /\
        universal_upload w req db
        = ([Saved coll; spawned; Saved (coll' h)],
           mkDb (coll' h) (N.succ (next_oid db)),
           mkResponse 200
             (UploadBody "File uploaded and processed successfully!"
                         (oid_toString (_id d)) h))).
Proof.
  intros d coll coll' spawned embedded.
  unfold universal_upload; rewrite Hfile, Hws.
  unfold try_catch, bind, new_DocumentModel, save_new, ret.
  cbn [documents next_oid].
  fold (pending w file ws db); fold d.
  destruct (negb (valid d)); [left; eexists; reflexivity|].
  destruct (id_taken d (documents db) || handle_taken d (documents db));
    [left; eexists; reflexivity|].
  rewrite embed_document_run.
  fold coll (embed_args file d); fold embedded.
  destruct embedded as [e|h] eqn:Eemb.
  - right; left; exists e; split; [now left | reflexivity].
  - unfold save_modified; cbn [documents next_oid _id].
    replace (id_taken _ coll) with true.
    2:{ symmetry; unfold id_taken, coll.
        rewrite existsb_app; cbn.
        now rewrite N.eqb_refl, orb_true_r. }
    cbn [negb].
    destruct (handle_taken _ coll).
    + right; left; eexists; split; [right; eexists; split; reflexivity|].
      reflexivity.
    + right; right; exists h; split; [reflexivity|].
      reflexivity.
Qed.

End Upload.

Section UploadOutcome.

Variable w : World.
Variable req : UploadRequest.
Variable file : File.
Variable ws : string.
Hypothesis Hfile : up_file req = Some file.
Hypothesis Hws : truthyField (up_workspaceId req) = Some ws.

Lemma mark_fresh (h : string) (d : DocRecord) (docs : list DocRecord) :
  id_taken d docs = false ->
  map (fun stored => if N.eqb (_id stored) (_id d) then marked h stored else stored)
      (docs ++ [d])%list
  = (docs ++ [marked h d])%list.
Proof.
  intros Hid; rewrite map_app; cbn [map]; rewrite N.eqb_refl; f_equal.
  unfold id_taken in Hid.
  induction docs as [|x docs IH]; [reflexivity|].
  cbn in Hid; apply orb_false_iff in Hid as [Hx Hid].
  cbn [map]; now rewrite Hx, IH.
Qed.

(** The handler as a function of what it tests. *)
Lemma universal_upload_eq (db : Db) :
  let d := pending w file ws db in
  let coll := (documents db ++ [d])%list in
  let spawned := Spawned chroma_handler (embed_args file d) in
  let failed e := mkResponse 500 (ErrorBody "Error processing file" e) in
  universal_upload w req db
  = if negb (valid d)
    then ([], mkDb (documents db) (N.succ (next_oid db)),
          failed (store_error w ValidationFailed))
    else if id_taken d (documents db)
    then ([], mkDb (documents db) (N.succ (next_oid db)),
          failed (store_error w DuplicateKey))
    else
      match embed_outcome (spawn_python w chroma_handler (embed_args file d)) with
      | inl e => ([Saved coll; spawned], mkDb coll (N.succ (next_oid db)), failed e)
      | inr h =>
          if handle_taken (marked h d) coll
          then ([Saved coll; spawned], mkDb coll (N.succ (next_oid db)),
                failed (store_error w DuplicateKey))
          else ([Saved coll; spawned; Saved (documents db ++ [marked h d])%list],
                mkDb (documents db ++ [marked h d])%list (N.succ (next_oid db)),
                mkResponse 200
                  (UploadBody "File uploaded and processed successfully!"
                              (oid_toString (_id d)) h))
      end.
Proof.
  intros d coll spawned failed.
  unfold universal_upload; rewrite Hfile, Hws.
  unfold try_catch, bind, new_DocumentModel, save_new, ret.
  cbn [documents next_oid].
  fold (pending w file ws db); fold d.
  destruct (negb (valid d)); [reflexivity|].
  replace (handle_taken d (documents db)) with false by reflexivity.
  rewrite orb_false_r.
  destruct (id_taken d (documents db)) eqn:Hid; [reflexivity|].
  rewrite embed_document_run.
  fold coll (embed_args file d) spawned.
  destruct (embed_outcome _) as [e|h]; [reflexivity|].
  unfold save_modified; cbn [documents next_oid _id].
  replace (id_taken _ coll) with true.
  2:{ symmetry; unfold id_taken, coll.
      rewrite existsb_app; cbn.
      now rewrite N.eqb_refl, orb_true_r. }
  cbn [negb].
  change (mkDoc (_id d) (fileName d) (originalType d) (uploadedAt d) true
                (Some h) (workspaceId d)) with (marked h d).
  destruct (handle_taken (marked h d) coll); [reflexivity|].
  change (fun stored : DocRecord =>
            if N.eqb (_id stored) (_id d)
            then set_processed (marked h d) stored else stored)
    with (fun stored : DocRecord =>
            if N.eqb (_id stored) (_id d) then marked h stored else stored).
  unfold coll; rewrite (mark_fresh h d _ Hid).
  reflexivity.
Qed.

End UploadOutcome.

(** ** The query handler, case by case *)

Section Query.

Variable w : World.
Variable req : QaRequest.
Variables query ws : string.
Hypothesis Hquery : truthyField (qa_query req) = Some query.
Hypothesis Hws : truthyField (qa_workspaceId req) = Some ws.

Lemma resolve_documents_run (ids : option (list ObjectId)) (db : Db) :
  resolve_documents ids ws db
  = ([], db,
     inr match candidate_handles ids ws (documents db) with
         | [] => inl (no_processed_documents ids)
         | hs => inr hs
         end).
Proof.
  unfold resolve_documents, candidate_handles, resolved_records,
    no_processed_documents.
  destruct (ids_given ids); unfold_M;
    now destruct (chromaIds _).
Qed.

Lemma query_documents_run (hs : list string) (db : Db) :
  query_documents w query hs db
  = ([Spawned chroma_handler (query_args query hs)], db,
     retrieval_outcome w (spawn_python w chroma_handler (query_args query hs))).
Proof.
  unfold query_documents, runPythonScript, retrieval_outcome, await, query_args;
    unfold_M.
  now destruct (settle _).
Qed.

(** Every run of the handler on a request that passes the two guards. *)
Lemma universal_qa_cases (db : Db) :
  let hs := candidate_handles (qa_documentIds req) ws (documents db) in
  let spawned := Spawned chroma_handler (query_args query hs) in
  universal_qa w req db
  = match hs with
    | [] => ([], db, no_processed_documents (qa_documentIds req))
    | _ :: _ =>
        match retrieval_outcome w
                (spawn_python w chroma_handler (query_args query hs)) with
        | inl e => ([spawned], db, qa_catch e)
        | inr [] =>
            ([spawned], db,
             mkResponse 200 (AnswerBody no_information [] None []))
        | inr (c :: cs) =>
            let prompt :=
              llmPrompt (join (nl ++ nl) (map text (c :: cs))) query in
            match generateContent w prompt with
            | inl e => ([spawned; Generated prompt], db, qa_catch e)
            | inr aiAnswer =>
                ([spawned; Generated prompt], db,
                 mkResponse 200
                   (AnswerBody aiAnswer (map source (c :: cs))
                      (chart_block_2 aiAnswer (chart_block_1 aiAnswer None))
                      (next_steps_block aiAnswer [])))
            end
        end
    end.
Proof.
  intros hs spawned.
  unfold universal_qa; rewrite Hquery, Hws.
  unfold try_catch, bind; rewrite resolve_documents_run.
  fold hs. destruct hs as [|h hs']; [reflexivity|].
  rewrite query_documents_run. fold spawned.
  destruct (retrieval_outcome _ _) as [e|[|c cs]]; try reflexivity.
  unfold answer_from, gemini, await; unfold_M.
  now destruct (generateContent w _).
Qed.

End Query.

(** The handlers that only read. *)
Lemma universal_qa_reads (w : World) (req : QaRequest) (db : Db) :
  store_of (universal_qa w req db) = db
  /\ snapshots (events_of (universal_qa w req db)) = [].
Proof.
  destruct (truthyField (qa_query req)) as [query|] eqn:Hq.
  2:{ unfold universal_qa; rewrite Hq; now split. }
  destruct (truthyField (qa_workspaceId req)) as [ws|] eqn:Hw.
  2:{ unfold universal_qa; rewrite Hq, Hw; now split. }
  rewrite (universal_qa_cases w req query ws Hq Hw db); cbv zeta.
  destruct (candidate_handles _ _ _); [now split|].
  destruct (retrieval_outcome _ _) as [e|[|c cs]]; try now split.
  now destruct (generateContent w _).
Qed.

Lemma workspace_documents_run (ws : string) (db : Db) :
  workspace_documents ws db
  = ([], db,
     let docs := filter (fun d => String.eqb (workspaceId d) ws) (documents db) in
     mkResponse 200
       (DocumentsBody
          ("Found " ++ showN (N.of_nat (List.length docs))
           ++ " documents for workspace " ++ ws ++ ".")
          docs)).
Proof. reflexivity. Qed.

Lemma filter_Boolean_truthy (l : list (option string)) :
  Forall (fun h => truthy h = true) (filter_Boolean l).
Proof.
  induction l as [|[h|] l IH]; simpl; auto.
  destruct (truthy h) eqn:E; simpl; auto.
Qed.

Lemma qa_catch_status (e : string) :
  (includes e "API key not valid" = true
   /\ qa_catch e
      = mkResponse 401 (MessageBody "Gemini API key is invalid or not configured."))
  \/ (includes e "API key not valid" = false
      /\ qa_catch e = mkResponse 500 (ErrorBody "Error getting AI response" e)).
Proof. unfold qa_catch; destruct (includes e _); auto. Qed.

(** ** The query handler on any body, case by case *)

Lemma retrieve_and_answer_cases (w : World) (query : string) (hs : list string)
      (db : Db) :
  let spawned := Spawned chroma_handler (query_args query hs) in
  retrieve_and_answer w query hs db
  = match retrieval_outcome w
            (spawn_python w chroma_handler (query_args query hs)) with
    | inl e => ([spawned], db, qa_catch e)
    | inr [] =>
        ([spawned], db, mkResponse 200 (AnswerBody no_information [] None []))
    | inr (c :: cs) =>
        let prompt := llmPrompt (join (nl ++ nl) (map text (c :: cs))) query in
        match generateContent w prompt with
        | inl e => ([spawned; Generated prompt], db, qa_catch e)
        | inr aiAnswer =>
            ([spawned; Generated prompt], db,
             mkResponse 200
               (AnswerBody aiAnswer (map source (c :: cs))
                  (chart_block_2 aiAnswer (chart_block_1 aiAnswer None))
                  (next_steps_block aiAnswer [])))
        end
    end.
Proof.
  intros spawned; unfold retrieve_and_answer, try_catch, bind.
  rewrite query_documents_run; fold spawned.
  destruct (retrieval_outcome _ _) as [e|[|c cs]]; try reflexivity.
  unfold answer_from, gemini, await; unfold_M.
  now destruct (generateContent w _).
Qed.

(** Once the handles are resolved, the worker is spawned first, and the
    answer is never a 400. *)
Lemma retrieve_and_answer_spawns (w : World) (query : string) (hs : list string)
      (db : Db) :
  (exists rest,
      events_of (retrieve_and_answer w query hs db)
      = Spawned chroma_handler (query_args query hs) :: rest)
  /\ store_of (retrieve_and_answer w query hs db) = db
  /\ (status (result_of (retrieve_and_answer w query hs db)) = 200
      \/ status (result_of (retrieve_and_answer w query hs db)) = 401
      \/ status (result_of (retrieve_and_answer w query hs db)) = 500).
Proof.
  rewrite retrieve_and_answer_cases; cbv zeta.
  assert (Hcatch : forall e,
             status (qa_catch e) = 401 \/ status (qa_catch e) = 500).
  { intros e; destruct (qa_catch_status e) as [[_ ->]|[_ ->]]; auto. }
  unfold events_of, store_of, result_of.
  destruct (retrieval_outcome _ _) as [e|[|c cs]];
    [| |destruct (generateContent w _) as [e|a]]; cbn [fst snd];
    (split; [eexists; reflexivity|]); (split; [reflexivity|]);
    try (destruct (Hcatch e) as [E|E]; rewrite E); auto.
Qed.

Section QueryBody.

Variable c : Caster.
Variable w : World.
Variable body : QaBody.
Variable query : string.
Variable workspace : Json.
Hypothesis Hquery : truthyField (body_query body) = Some query.
Hypothesis Hworkspace : truthyJson (body_workspaceId body) = Some workspace.

(** Every run of the handler on a body that passes the two guards. *)
Lemma universal_qa_body_cases (db : Db) :
  universal_qa_body c w body db
  = match body_filter c (body_documentIds body) workspace with
    | inl e => ([], db, qa_catch e)
    | inr p =>
        match chromaIds (filter p (documents db)) with
        | [] => ([], db, no_processed_documents_body (body_documentIds body))
        | h :: hs => retrieve_and_answer w query (h :: hs) db
        end
    end.
Proof.
  unfold universal_qa_body; rewrite Hquery, Hworkspace.
  unfold body_filter, resolve_documents_body, no_processed_documents_body,
    retrieve_and_answer.
  destruct (ids_given_body (body_documentIds body)) as [items|].
  - destruct (ids_filter c items workspace) as [e|p];
      unfold find_cast, try_catch, bind, throw, find, ret; [reflexivity|].
    destruct (chromaIds (filter p (documents db))) as [|h hs]; [reflexivity|].
    destruct (query_documents w query (h :: hs) db) as [[ev db'] [e|chunks]];
      [reflexivity|].
    now destruct (answer_from w query chunks db') as [[ev' db''] [e|r]].
  - destruct (workspace_filter c workspace) as [e|p];
      unfold find_cast, try_catch, bind, throw, find, ret; [reflexivity|].
    destruct (chromaIds (filter p (documents db))) as [|h hs]; [reflexivity|].
    destruct (query_documents w query (h :: hs) db) as [[ev db'] [e|chunks]];
      [reflexivity|].
    now destruct (answer_from w query chunks db') as [[ev' db''] [e|r]].
Qed.

(** The only process a query spawns is the retrieval worker, on handles
    that are not empty, of which there is at least one. *)
Lemma universal_qa_body_spawned (db : Db) (script : string) (args : list string) :
  In (Spawned script args) (events_of (universal_qa_body c w body db)) ->
  exists p h hs,
    body_filter c (body_documentIds body) workspace = inr p
    /\ chromaIds (filter p (documents db)) = h :: hs
    /\ script = chroma_handler
    /\ args = query_args query (h :: hs)
    /\ Forall (fun x => truthy x = true) (h :: hs).
Proof.
  rewrite universal_qa_body_cases.
  destruct (body_filter c _ workspace) as [e|p]; [intros []|].
  pose proof (filter_Boolean_truthy
                (map chromaDocumentId (filter p (documents db)))) as Htruthy.
  fold (chromaIds (filter p (documents db))) in Htruthy.
  destruct (chromaIds (filter p (documents db))) as [|h hs] eqn:Ec;
    [intros []|].
  rewrite retrieve_and_answer_cases; cbv zeta.
  intros Hin; exists p, h, hs; split; [reflexivity|]; split; [exact Ec|].
  assert (E : script = chroma_handler /\ args = query_args query (h :: hs)).
  { destruct (retrieval_outcome _ _) as [e|[|x xs]];
      [| |destruct (generateContent w _)];
      unfold events_of in Hin; cbn [fst] in Hin;
      repeat (destruct Hin as [Hin|Hin]; try discriminate;
              try (injection Hin as <- <-; now split)); destruct Hin. }
  destruct E as [-> ->]; repeat split; assumption.
Qed.

End QueryBody.

(** On a body whose workspace id is a string and whose ids cast, the
    handler is [universal_qa] on the request so typed. *)
Lemma universal_qa_body_typed
      (c : Caster) (w : World) (body : QaBody) (ws : string)
      (ids : option (list ObjectId)) (db : Db) :
  body_workspaceId body = Some (JString ws) ->
  match body_documentIds body with
  | None => ids = None
  | Some items => exists l, cast_ids c items = inr l /\ ids = Some l
  end ->
  universal_qa_body c w body db
  = universal_qa w (mkQa (body_query body) ids (Some ws)) db.
Proof.
  intros Hws Hids.
  unfold universal_qa_body, universal_qa;
    cbn [qa_query qa_workspaceId qa_documentIds].
  destruct (truthyField (body_query body)) as [query|]; [|reflexivity].
  rewrite Hws; cbn [truthyJson json_truthy truthyField].
  destruct (truthy ws); [|reflexivity].
  unfold resolve_documents_body, resolve_documents.
  destruct (body_documentIds body) as [items|].
  - destruct Hids as (l & Hl & ->).
    destruct items as [|i items].
    + cbn in Hl; injection Hl as <-; reflexivity.
    + assert (l <> []) as Hne.
      { cbn in Hl; destruct (cast_id c i); [discriminate|].
        destruct (cast_ids c items); [discriminate|].
        injection Hl as <-; discriminate. }
      destruct l as [|o l]; [congruence|].
      cbn [ids_given_body ids_given].
      unfold ids_filter; rewrite Hl; cbn [text_filter find_cast].
      reflexivity.
  - subst ids; reflexivity.
Qed.

(** ** The invariant of the store *)

Lemma marked_consistent (h : string) (d : DocRecord) :
  handle_iff_processed (marked h d).
Proof. unfold handle_iff_processed; simpl; split; [reflexivity | discriminate]. Qed.

Lemma pending_consistent (w : World) (file : File) (ws : string) (db : Db) :
  handle_iff_processed (pending w file ws db).
Proof.
  unfold handle_iff_processed; simpl; split; [congruence | discriminate].
Qed.

Lemma universal_upload_invariant (w : World) (req : UploadRequest) (db : Db) :
  Forall handle_iff_processed (documents db) ->
  Forall (Forall handle_iff_processed)
         (snapshots (events_of (universal_upload w req db)))
  /\ Forall handle_iff_processed (documents (store_of (universal_upload w req db))).
Proof.
  intros Hdb.
  destruct (up_file req) as [file|] eqn:Hfile.
  2:{ unfold universal_upload; rewrite Hfile; now split. }
  destruct (truthyField (up_workspaceId req)) as [ws|] eqn:Hws.
  2:{ unfold universal_upload; rewrite Hfile, Hws; now split. }
  assert (Hcoll : Forall handle_iff_processed
                    (documents db ++ [pending w file ws db])%list).
  { apply Forall_app; split; [assumption|].
    constructor; [apply pending_consistent | constructor]. }
  assert (Hcoll' : forall h,
             Forall handle_iff_processed
               (map (fun stored =>
                       if N.eqb (_id stored) (_id (pending w file ws db))
                       then marked h stored else stored)
                    (documents db ++ [pending w file ws db])%list)).
  { intros h; apply Forall_map.
    eapply Forall_impl; [|exact Hcoll].
    intros d Hd; destruct (N.eqb _ _); [apply marked_consistent | exact Hd]. }
  destruct (universal_upload_cases w req file ws Hfile Hws db)
    as [(e & ->)|[(e & _ & ->)|(h & _ & ->)]];
    unfold events_of, store_of; simpl; split; auto.
Qed.

Lemma handle_invariant (w : World) (r : Request) (db : Db) :
  Forall handle_iff_processed (documents db) ->
  Forall (Forall handle_iff_processed) (snapshots (events_of (handle w r db)))
  /\ Forall handle_iff_processed (documents (store_of (handle w r db))).
Proof.
  intros Hdb; destruct r as [req|req|ws]; simpl.
  - now apply universal_upload_invariant.
  - destruct (universal_qa_reads w req db) as [-> ->]; now split.
  - rewrite workspace_documents_run; now split.
Qed.

Lemma snapshots_app (ev1 ev2 : list Event) :
  snapshots (ev1 ++ ev2) = (snapshots ev1 ++ snapshots ev2)%list.
Proof.
  induction ev1 as [|[coll|s a|p] ev1 IH]; simpl; [reflexivity| |assumption..].
  now rewrite IH.
Qed.

Lemma serve_invariant (rs : list (World * Request)) (db : Db) :
  Forall handle_iff_processed (documents db) ->
  Forall (Forall handle_iff_processed) (snapshots (events_of (serve rs db))).
Proof.
  revert db; induction rs as [|[w r] rs IH]; intros db Hdb; [constructor|].
  simpl.
  destruct (handle_invariant w r db Hdb) as [H1 H2].
  destruct (handle w r db) as [[ev db'] resp] eqn:E.
  unfold events_of, store_of in *; simpl in *.
  specialize (IH db' H2).
  destruct (serve rs db') as [[ev' db''] resps]; simpl in *.
  rewrite snapshots_app; apply Forall_app; now split.
Qed.

Lemma universal_upload_usable (w : World) (req : UploadRequest) (db : Db) :
  worker_never_blank w ->
  Forall handle_is_usable (documents db) ->
  Forall (Forall handle_is_usable)
         (snapshots (events_of (universal_upload w req db)))
  /\ Forall handle_is_usable (documents (store_of (universal_upload w req db))).
Proof.
  intros Hw Hdb.
  destruct (up_file req) as [file|] eqn:Hfile.
  2:{ unfold universal_upload; rewrite Hfile; now split. }
  destruct (truthyField (up_workspaceId req)) as [ws|] eqn:Hws.
  2:{ unfold universal_upload; rewrite Hfile, Hws; now split. }
  assert (Hcoll : Forall handle_is_usable
                    (documents db ++ [pending w file ws db])%list).
  { apply Forall_app; split; [assumption|].
    constructor; [|constructor].
    unfold handle_is_usable, usable_handle; simpl; split; discriminate. }
  destruct (universal_upload_cases w req file ws Hfile Hws db)
    as [(e & ->)|[(e & _ & ->)|(h & He & ->)]];
    unfold events_of, store_of; simpl; split; auto.
  - constructor; [assumption|]. constructor; [|constructor].
    apply Forall_map; eapply Forall_impl; [|exact Hcoll].
    intros d Hd; destruct (N.eqb _ _); [|exact Hd].
    unfold handle_is_usable, usable_handle; simpl.
    rewrite (Hw file _ h He); split; reflexivity.
  - apply Forall_map; eapply Forall_impl; [|exact Hcoll].
    intros d Hd; destruct (N.eqb _ _); [|exact Hd].
    unfold handle_is_usable, usable_handle; simpl.
    rewrite (Hw file _ h He); split; reflexivity.
Qed.

Lemma serve_usable (rs : list (World * Request)) (db : Db) :
  Forall (fun wr => worker_never_blank (fst wr)) rs ->
  Forall handle_is_usable (documents db) ->
  Forall (Forall handle_is_usable) (snapshots (events_of (serve rs db))).
Proof.
  revert db; induction rs as [|[w r] rs IH]; intros db Hrs Hdb; [constructor|].
  inversion Hrs as [|x l Hw Hrs']; subst; cbn [fst] in Hw.
  assert (H : Forall (Forall handle_is_usable)
                (snapshots (events_of (handle w r db)))
              /\ Forall handle_is_usable (documents (store_of (handle w r db)))).
  { destruct r as [req|req|ws]; simpl.
    - now apply universal_upload_usable.
    - destruct (universal_qa_reads w req db) as [-> ->]; now split.
    - rewrite workspace_documents_run; now split. }
  destruct H as [H1 H2]; simpl.
  destruct (handle w r db) as [[ev db'] resp] eqn:E.
  unfold events_of, store_of in *; simpl in *.
  specialize (IH db' Hrs' H2).
  destruct (serve rs db') as [[ev' db''] resps]; simpl in *.
  rewrite snapshots_app; apply Forall_app; now split.
Qed.

(* ================================================================== *)
(** ** The document lifecycle *)
(* ================================================================== *)

(** The handler is one schedule of its two segments. *)
Lemma universal_upload_segments
  (w : World) (req : UploadRequest) (file : File) (ws : string) (db : Db) :
  up_file req = Some file ->
  truthyField (up_workspaceId req) = Some ws ->
  universal_upload w req db
  = match upload_begin w file ws db with
    | (ev1, db1, inl e) =>
        (ev1, db1, mkResponse 500 (ErrorBody "Error processing file" e))
    | (ev1, db1, inr d) =>
        match upload_resume (mkSuspended w file d) db1 with
        | (ev2, db2, r) =>
            ((ev1 ++ Spawned chroma_handler (embed_args file d) :: ev2)%list,
             db2,
             match r with
             | inl e => mkResponse 500 (ErrorBody "Error processing file" e)
             | inr resp => resp
             end)
        end
    end.
Proof.
  intros Hfile Hws.
  unfold universal_upload; rewrite Hfile, Hws.
  unfold upload_begin, upload_resume, try_catch, bind, new_DocumentModel,
    save_new, ret, await; cbn [documents next_oid s_world s_file s_doc].
  destruct (negb (valid _)); [reflexivity|].
  destruct (id_taken _ _ || handle_taken _ _); [reflexivity|].
  rewrite embed_document_run.
  unfold embed_args; cbn [_id].
  destruct (embed_outcome _) as [e|h]; [reflexivity|].
  unfold marked; cbn [_id fileName originalType uploadedAt workspaceId].
  destruct (save_modified _ _ _) as [[ev db2] [e|[]]]; reflexivity.
Qed.

Lemma step_invariant (s s' : Server) :
  step s s' ->
  Forall handle_iff_processed (documents (fst s)) ->
  Forall handle_iff_processed (documents (fst s')).
Proof.
  intros Hstep; destruct Hstep as
      [w file ws db db' ev d pool E | w file ws db db' ev e pool E
      | s db db' ev r pool1 pool2 E]; cbn [fst]; intros Hdb.
  - unfold upload_begin, bind, new_DocumentModel, save_new, ret in E;
      cbn [documents next_oid] in E.
    destruct (negb (valid _)); [discriminate|].
    destruct (id_taken _ _ || handle_taken _ _); [discriminate|].
    injection E as _ <- <-; cbn [documents].
    apply Forall_app; split; [assumption|].
    constructor; [|constructor].
    unfold handle_iff_processed; simpl; split; [congruence | discriminate].
  - unfold upload_begin, bind, new_DocumentModel, save_new, ret in E;
      cbn [documents next_oid] in E.
    destruct (negb (valid _)); [now injection E as _ <- _|].
    destruct (id_taken _ _ || handle_taken _ _); [now injection E as _ <- _|].
    discriminate.
  - unfold upload_resume, bind, await, save_modified, ret in E.
    destruct (embed_outcome _) as [e|h]; [now injection E as _ <- _|].
    destruct (negb (id_taken _ _)); [now injection E as _ <- _|].
    destruct (handle_taken _ _); [now injection E as _ <- _|].
    injection E as _ <- _; cbn [documents].
    apply Forall_map; eapply Forall_impl; [|exact Hdb].
    intros d Hd; destruct (N.eqb _ _); [|exact Hd].
    unfold handle_iff_processed; simpl; split; [reflexivity | discriminate].
Qed.

Lemma reachable_invariant (s : Server) :
  reachable s -> Forall handle_iff_processed (documents (fst s)).
Proof.
  induction 1 as [|s s' _ IH Hstep]; [constructor|].
  exact (step_invariant s s' Hstep IH).
Qed.

(** A sequential upload is one of the interleavings. *)
Lemma universal_upload_reachable
  (w : World) (req : UploadRequest) (db : Db) (pool : list Suspended) :
  reachable (db, pool) ->
  reachable (store_of (universal_upload w req db), pool).
Proof.
  intros Hreach.
  destruct (up_file req) as [file|] eqn:Hfile.
  2:{ unfold universal_upload; now rewrite Hfile. }
  destruct (truthyField (up_workspaceId req)) as [ws|] eqn:Hws.
  2:{ unfold universal_upload; now rewrite Hfile, Hws. }
  rewrite (universal_upload_segments w req file ws db Hfile Hws).
  destruct (upload_begin w file ws db) as [[ev1 db1] [e|d]] eqn:E1.
  - eapply reachable_step; [exact Hreach|].
    eapply step_refused; exact E1.
  - destruct (upload_resume (mkSuspended w file d) db1) as [[ev2 db2] r] eqn:E2.
    unfold store_of; cbn [fst snd].
    eapply reachable_step.
    + eapply reachable_step; [exact Hreach|].
      eapply step_begin; exact E1.
    + exact (step_resume (mkSuspended w file d) db1 db2 ev2 r [] pool E2).
Qed.

(** Two uploads overlap: both are saved pending, then the first one is
    marked processed while the second still awaits its worker. *)
Example overlapping_uploads :
  reachable
    (mkDb [Sample.report_processed;
           mkDoc 1%N "report.pdf" "application/pdf" 1700000000000%N
                 false None "W2"] 2,
     [mkSuspended Sample.world_ok Sample.report
        (mkDoc 1%N "report.pdf" "application/pdf" 1700000000000%N
               false None "W2")]).
Proof.
  set (second := mkDoc 1%N "report.pdf" "application/pdf" 1700000000000%N
                       false None "W2").
  assert (H1 : reachable
                 (mkDb [Sample.report_pending] 1,
                  [mkSuspended Sample.world_ok Sample.report
                     Sample.report_pending])).
  { apply (reachable_step _ _ reachable_init).
    exact (step_begin Sample.world_ok Sample.report "W1" empty_db
             (mkDb [Sample.report_pending] 1)
             [Saved [Sample.report_pending]]
             Sample.report_pending [] eq_refl). }
  assert (H2 : reachable
                 (mkDb [Sample.report_pending; second] 2,
                  [mkSuspended Sample.world_ok Sample.report second;
                   mkSuspended Sample.world_ok Sample.report
                     Sample.report_pending])).
  { apply (reachable_step _ _ H1).
    exact (step_begin Sample.world_ok Sample.report "W2"
             (mkDb [Sample.report_pending] 1)
             (mkDb [Sample.report_pending; second] 2)
             [Saved [Sample.report_pending; second]]
             second _ eq_refl). }
  apply (reachable_step _ _ H2).
  exact (step_resume
           (mkSuspended Sample.world_ok Sample.report Sample.report_pending)
           (mkDb [Sample.report_pending; second] 2)
           (mkDb [Sample.report_processed; second] 2)
           [Saved [Sample.report_processed; second]]
           (inr (mkResponse 200
                   (UploadBody "File uploaded and processed successfully!"
                               "000000000000000000000000" "vec123")))
           [mkSuspended Sample.world_ok Sample.report second] []
           eq_refl).
Qed.

(** C1. A record has a vector handle ([chromaDocumentId]) if and only if
    it is processed, at every state of the collection an observer can
    meet: in every run of the server from the empty store, initially and
    after each committed write; and in every interleaving of uploads that
    are suspended while they await the worker. One upload writes the
    collection as follows: nothing, when its first save is refused; or
    its record once, with [processed] false and no handle, when the
    embedding or the second save fails, and the answer is 500; or that
    record and then, in one write that sets [processed] and the handle
    together and touches no other record, the same record marked, and
    the answer is 200 with the id and the handle. The handle is present
    when the field is set; when no worker of the run yields a blank
    handle, a record also has a handle that the handlers' truth tests
    accept exactly when it is processed. *)
Theorem vectorHandle_iff_processed :
  (forall (rs : list (World * Request)) (coll : list DocRecord) (d : DocRecord),
      In coll (observable empty_db (events_of (serve rs empty_db))) ->
      In d coll ->
      (chromaDocumentId d <> None <-> processed d = true))
  /\ (forall (db : Db) (pool : list Suspended) (d : DocRecord),
         reachable (db, pool) ->
         In d (documents db) ->
         (chromaDocumentId d <> None <-> processed d = true))
  /\ (forall (w : World) (req : UploadRequest) (file : File) (ws : string)
             (db : Db),
         up_file req = Some file ->
         truthyField (up_workspaceId req) = Some ws ->
         let d := pending w file ws db in
         let run := universal_upload w req db in
         processed d = false /\ chromaDocumentId d = None
         /\ ((snapshots (events_of run) = []
              /\ documents (store_of run) = documents db
              /\ status (result_of run) = 500)
             \/ (snapshots (events_of run) = [(documents db ++ [d])%list]
                 /\ documents (store_of run) = (documents db ++ [d])%list
                 /\ status (result_of run) = 500)
             \/ (exists h,
                    embed_outcome
                      (spawn_python w chroma_handler (embed_args file d))
                    = inr h
                    /\ snapshots (events_of run)
                       = [(documents db ++ [d])%list;
                          (documents db ++ [marked h d])%list]
                    /\ documents (store_of run)
                       = (documents db ++ [marked h d])%list
                    /\ _id (marked h d) = _id d
                    /\ processed (marked h d) = true
                    /\ chromaDocumentId (marked h d) = Some h
                    /\ result_of run
                       = mkResponse 200
                           (UploadBody "File uploaded and processed successfully!"
                                       (oid_toString (_id d)) h))))
  /\ (forall (rs : list (World * Request)) (coll : list DocRecord) (d : DocRecord),
         Forall (fun wr => worker_never_blank (fst wr)) rs ->
         In coll (observable empty_db (events_of (serve rs empty_db))) ->
         In d coll ->
         (usable_handle d = true <-> processed d = true)).
Proof.
  split; [|split; [|split]].
  - intros rs coll d Hcoll Hd.
    assert (H : Forall (Forall handle_iff_processed)
                  (observable empty_db (events_of (serve rs empty_db)))).
    { constructor; [constructor|]. now apply serve_invariant. }
    rewrite Forall_forall in H; specialize (H coll Hcoll).
    rewrite Forall_forall in H; exact (H d Hd).
  - intros db pool d Hreach Hd.
    pose proof (reachable_invariant _ Hreach) as H; cbn [fst] in H.
    rewrite Forall_forall in H; exact (H d Hd).
  - intros w req file ws db Hfile Hws d run.
    split; [reflexivity|]; split; [reflexivity|].
    pose proof (universal_upload_eq w req file ws Hfile Hws db) as E;
      cbv zeta in E; fold d in E; fold run in E.
    destruct (negb (valid d)); [left; rewrite E; now repeat split|].
    destruct (id_taken d (documents db)); [left; rewrite E; now repeat split|].
    destruct (embed_outcome _) as [e|h] eqn:Eh;
      [right; left; rewrite E; now repeat split|].
    destruct (handle_taken (marked h d) _);
      [right; left; rewrite E; now repeat split|].
    right; right; exists h; rewrite E; now repeat split.
  - intros rs coll d Hrs Hcoll Hd.
    assert (H : Forall (Forall handle_is_usable)
                  (observable empty_db (events_of (serve rs empty_db)))).
    { constructor; [constructor|].
      apply serve_usable; [exact Hrs | constructor]. }
    rewrite Forall_forall in H; specialize (H coll Hcoll).
    rewrite Forall_forall in H; exact (H d Hd).
Qed.

Lemma vectorHandle_iff_processed_witness :
  (chromaDocumentId Sample.report_processed <> None
   <-> processed Sample.report_processed = true)
  /\ (usable_handle Sample.report_processed = true
      <-> processed Sample.report_processed = true)
  /\ exists h,
       snapshots (events_of (universal_upload Sample.world_ok Sample.upload_W1
                               empty_db))
       = [[Sample.report_pending]; [marked h Sample.report_pending]]
       /\ result_of (universal_upload Sample.world_ok Sample.upload_W1 empty_db)
          = mkResponse 200
              (UploadBody "File uploaded and processed successfully!"
                          "000000000000000000000000" h).
Proof.
  pose proof vectorHandle_iff_processed as (H1 & _ & H3 & H4).
  split; [|split].
  - apply (H1 [(Sample.world_ok, Upload Sample.upload_W1)]
              [Sample.report_processed]).
    + vm_compute; right; right; left; reflexivity.
    + left; reflexivity.
  - apply (H4 [(Sample.world_ok, Upload Sample.upload_W1)]
              [Sample.report_processed]).
    + constructor; [|constructor].
      intros file d h E; vm_compute in E.
      injection E as <-; reflexivity.
    + vm_compute; right; right; left; reflexivity.
    + left; reflexivity.
  - destruct (H3 Sample.world_ok Sample.upload_W1 Sample.report "W1" empty_db
                 eq_refl eq_refl)
      as (_ & _ & [(E & _)|[(E & _)|(h & _ & E1 & _ & _ & _ & _ & E2)]]);
      [discriminate E | discriminate E |].
    exists h; split; [exact E1 | exact E2].
Defined.

(** A handle that trims to the empty string is stored as it is, with
    [processed] set; the query handler's [filter(Boolean)] then drops it,
    and the workspace counts as having no processed document. *)
Example blank_handle_is_stored_and_unusable :
  store_of (universal_upload Sample.world_blank Sample.upload_W1 empty_db)
  = mkDb [marked EmptyString Sample.report_pending] 1
  /\ result_of
       (universal_qa Sample.world_blank Sample.ask_W1
          (mkDb [marked EmptyString Sample.report_pending] 1))
     = mkResponse 400
         (MessageBody
            "No documents have been processed yet. Please upload a file first.").
Proof. split; reflexivity. Qed.

(** C2, as the specification words it, fails: when the worker exits with
    code 1 the record stays pending in the store, but the response is the
    500 body with [message] and [error] only, and has no document id. *)
Lemma upload_failure_response_has_no_documentId :
  universal_upload Sample.world_fail Sample.upload_W1 empty_db
  = ([Saved [Sample.report_pending];
      Spawned chroma_handler (embed_args Sample.report Sample.report_pending)],
     mkDb [Sample.report_pending] 1,
     mkResponse 500
       (ErrorBody "Error processing file"
                  "Python script exited with code 1. Stderr: boom"))
  /\ response_documentId
       (result_of (universal_upload Sample.world_fail Sample.upload_W1 empty_db))
     = None.
Proof. split; reflexivity. Qed.

(** C2, amended. Whenever the upload handler invokes the embedding
    worker, the pending record (processed false, no handle) was saved
    before; and if the embedding then fails, the store still holds that
    record unchanged and the caller gets status 500 with the message
    "Error processing file" and the reason of the failure. The response
    carries no document id. *)
Theorem upload_failure_leaves_pending
  (w : World) (req : UploadRequest) (db : Db) (script : string)
  (args : list string) :
  In (Spawned script args) (events_of (universal_upload w req db)) ->
  exists file ws,
    let d := pending w file ws db in
    up_file req = Some file
    /\ script = chroma_handler /\ args = embed_args file d
    /\ processed d = false /\ chromaDocumentId d = None
    /\ (exists rest,
           events_of (universal_upload w req db)
           = Saved (documents db ++ [d])%list :: Spawned script args :: rest)
    /\ forall reason,
         embed_outcome (spawn_python w script args) = inl reason ->
         documents (store_of (universal_upload w req db))
         = (documents db ++ [d])%list
         /\ result_of (universal_upload w req db)
            = mkResponse 500 (ErrorBody "Error processing file" reason)
         /\ response_documentId (result_of (universal_upload w req db)) = None.
Proof.
  intros Hin.
  destruct (up_file req) as [file|] eqn:Hfile.
  2:{ unfold universal_upload in Hin; rewrite Hfile in Hin; destruct Hin. }
  destruct (truthyField (up_workspaceId req)) as [ws|] eqn:Hws.
  2:{ unfold universal_upload in Hin; rewrite Hfile, Hws in Hin; destruct Hin. }
  exists file, ws; cbv zeta.
  destruct (universal_upload_cases w req file ws Hfile Hws db)
    as [(e & E)|[(e & He & E)|(h & He & E)]];
    rewrite E in *; unfold events_of, store_of, result_of in *; simpl in *.
  - destruct Hin.
  - destruct Hin as [Hin|[Hin|[]]]; [discriminate|].
    injection Hin as <- <-.
    repeat split; try reflexivity; [now exists []|].
    destruct He as [He|(h & He & _)]; congruence.
  - destruct Hin as [Hin|[Hin|[Hin|[]]]]; try discriminate.
    injection Hin as <- <-.
    repeat split; try reflexivity; [eexists; reflexivity|..]; congruence.
Qed.

Lemma upload_failure_leaves_pending_witness :
  exists file ws,
    let d := pending Sample.world_fail file ws empty_db in
    up_file Sample.upload_W1 = Some file
    /\ chroma_handler = chroma_handler
    /\ embed_args Sample.report Sample.report_pending = embed_args file d
    /\ processed d = false /\ chromaDocumentId d = None
    /\ (exists rest,
           events_of (universal_upload Sample.world_fail Sample.upload_W1 empty_db)
           = Saved (documents empty_db ++ [d])%list
               :: Spawned chroma_handler
                    (embed_args Sample.report Sample.report_pending)
               :: rest)
    /\ forall reason,
         embed_outcome
           (spawn_python Sample.world_fail chroma_handler
              (embed_args Sample.report Sample.report_pending))
         = inl reason ->
         documents (store_of (universal_upload Sample.world_fail
                                Sample.upload_W1 empty_db))
         = (documents empty_db ++ [d])%list
         /\ result_of (universal_upload Sample.world_fail Sample.upload_W1 empty_db)
            = mkResponse 500 (ErrorBody "Error processing file" reason)
         /\ response_documentId
              (result_of (universal_upload Sample.world_fail
                            Sample.upload_W1 empty_db)) = None.
Proof.
  apply (upload_failure_leaves_pending Sample.world_fail Sample.upload_W1
           empty_db chroma_handler
           (embed_args Sample.report Sample.report_pending)).
  vm_compute; right; left; reflexivity.
Defined.

(* ================================================================== *)
(** ** The query operation *)
(* ================================================================== *)

Lemma filter_nil_iff {A} (p : A -> bool) (l : list A) :
  filter p l = [] <-> forall x, In x l -> p x = false.
Proof.
  induction l as [|a l IH]; simpl.
  - split; [intros _ x [] | reflexivity].
  - destruct (p a) eqn:E; split.
    + discriminate.
    + intros H; specialize (H a (or_introl eq_refl)); congruence.
    + intros H x [<-|Hx]; [assumption | now apply IH].
    + intros H; apply IH; auto.
Qed.

Lemma existsb_eqb_In (i : ObjectId) (ids : list ObjectId) :
  existsb (N.eqb i) ids = true <-> In i ids.
Proof.
  rewrite existsb_exists; split.
  - intros (x & Hx & E); apply N.eqb_eq in E; now subst.
  - intros H; exists i; split; [assumption | apply N.eqb_refl].
Qed.

Lemma resolved_records_spec (ids : option (list ObjectId)) (ws : string)
      (coll : list DocRecord) (d : DocRecord) :
  In d (resolved_records ids ws coll) ->
  In d coll /\ workspaceId d = ws /\ processed d = true.
Proof.
  unfold resolved_records; destruct (ids_given ids) as [l|];
    rewrite filter_In; unfold by_ids, all_processed;
    rewrite !andb_true_iff, String.eqb_eq; tauto.
Qed.

(** The retrieval worker is the only process the query handler spawns,
    and it gets the candidate handles, of which there is at least one. *)
Lemma universal_qa_spawned
  (w : World) (req : QaRequest) (db : Db) (query ws script : string)
  (args : list string) :
  truthyField (qa_query req) = Some query ->
  truthyField (qa_workspaceId req) = Some ws ->
  In (Spawned script args) (events_of (universal_qa w req db)) ->
  exists h hs,
    candidate_handles (qa_documentIds req) ws (documents db) = h :: hs
    /\ args = query_args query (h :: hs)
    /\ Forall (fun x => truthy x = true) (h :: hs).
Proof.
  intros Hq Hw Hin.
  rewrite (universal_qa_cases w req query ws Hq Hw db) in Hin; cbv zeta in Hin.
  pose proof (filter_Boolean_truthy
                (map chromaDocumentId
                   (resolved_records (qa_documentIds req) ws (documents db))))
    as Htruthy.
  fold (chromaIds (resolved_records (qa_documentIds req) ws (documents db)))
    in Htruthy.
  fold (candidate_handles (qa_documentIds req) ws (documents db)) in Htruthy.
  destruct (candidate_handles _ _ _) as [|h hs]; [destruct Hin|].
  exists h, hs; split; [reflexivity|]; split; [|assumption].
  destruct (retrieval_outcome _ _) as [e|[|c cs]];
    [| |destruct (generateContent w _)];
    unfold events_of in Hin; simpl in Hin;
    repeat (destruct Hin as [Hin|Hin]; try discriminate;
            try (now injection Hin)); destruct Hin.
Qed.

(** C4, as the specification words it, fails: an id that Mongoose cannot
    cast to an ObjectId resolves to no record, processed or not, and yet
    the query is not rejected as a fault of the client. [find] throws
    while it casts the filter, and the handler's catch answers 500 with
    "Error getting AI response". *)
Lemma malformed_id_is_answered_500 :
  (forall d, In d (documents Sample.db_processed) ->
             JString (oid_toString (_id d)) <> JString "not-an-id")
  /\ universal_qa_body Driver.mongoose Sample.world_ok
       (Driver.ask (Some [JString "not-an-id"]) (JString "W1"))
       Sample.db_processed
     = ([], Sample.db_processed,
        mkResponse 500
          (ErrorBody "Error getting AI response" "Cast to ObjectId failed"))
  /\ status (result_of
               (universal_qa_body Driver.mongoose Sample.world_ok
                  (Driver.ask (Some [JString "not-an-id"]) (JString "W1"))
                  Sample.db_processed)) <> 400.
Proof.
  split; [|split].
  - intros d [<-|[]]; vm_compute; discriminate.
  - reflexivity.
  - vm_compute; discriminate.
Qed.

(** C4, amended. For a body with a query text and a workspace id that is
    a string: when the id list is non-empty, every id casts to an
    ObjectId and none of them is the id of a processed record of the
    workspace, the answer is 400 with the message for explicit ids; when
    the id list is missing or empty and the workspace has no processed
    record, the answer is 400 with the message for an empty workspace;
    in both cases nothing is spawned and no answer is made up. When an
    id of a non-empty list does not cast, nothing is spawned either and
    the answer is that of the catch for the cast error: 500 with the
    message "Error getting AI response" and the text of the error, or 401
    if that text names the API key. On every body, whenever the retrieval
    worker is invoked, its candidate handle list is non-empty and holds
    no empty handle. *)
Theorem query_without_processed_documents
  (c : Caster) (w : World) (body : QaBody) (db : Db) (query : string)
  (workspace : Json) :
  truthyField (body_query body) = Some query ->
  truthyJson (body_workspaceId body) = Some workspace ->
  (forall ws items ids,
      workspace = JString ws ->
      body_documentIds body = Some items -> items <> [] ->
      cast_ids c items = inr ids ->
      (forall d, In d (documents db) -> In (_id d) ids ->
                 workspaceId d = ws -> processed d = true -> False) ->
      universal_qa_body c w body db
      = ([], db,
         mkResponse 400
           (MessageBody "No processed documents found for the provided IDs.")))
  /\ (forall ws,
         workspace = JString ws ->
         body_documentIds body = None \/ body_documentIds body = Some [] ->
         (forall d, In d (documents db) ->
                    workspaceId d = ws -> processed d = true -> False) ->
         universal_qa_body c w body db
         = ([], db,
            mkResponse 400
              (MessageBody
                 "No documents have been processed yet. Please upload a file first.")))
  /\ (forall items e,
         body_documentIds body = Some items -> items <> [] ->
         cast_ids c items = inl e ->
         universal_qa_body c w body db = ([], db, qa_catch e)
         /\ (qa_catch e
             = mkResponse 500 (ErrorBody "Error getting AI response" e)
             \/ qa_catch e
                = mkResponse 401
                    (MessageBody "Gemini API key is invalid or not configured.")))
  /\ (forall script args,
         In (Spawned script args) (events_of (universal_qa_body c w body db)) ->
         exists p h hs,
           body_filter c (body_documentIds body) workspace = inr p
           /\ chromaIds (filter p (documents db)) = h :: hs
           /\ script = chroma_handler
           /\ args = query_args query (h :: hs)
           /\ Forall (fun x => truthy x = true) (h :: hs)).
Proof.
  intros Hq Hw.
  pose proof (universal_qa_body_cases c w body query workspace Hq Hw db) as E.
  split; [|split; [|split]].
  - intros ws items ids -> Hitems Hne Hcast Hnone.
    destruct items as [|i items]; [congruence|].
    rewrite E, Hitems; unfold body_filter, no_processed_documents_body.
    cbn [ids_given_body]; unfold ids_filter; rewrite Hcast.
    cbn [text_filter].
    replace (filter _ (documents db)) with (@nil DocRecord); [reflexivity|].
    symmetry; apply filter_nil_iff; intros d Hd.
    destruct (existsb _ _) eqn:E1; [|reflexivity].
    destruct (String.eqb _ _) eqn:E2; [|reflexivity].
    destruct (processed d) eqn:E3; [|reflexivity].
    exfalso; apply (Hnone d Hd); auto.
    + now apply existsb_eqb_In.
    + now apply String.eqb_eq.
  - intros ws -> Hids Hnone.
    assert (Hgiven : ids_given_body (body_documentIds body) = None)
      by now destruct Hids as [-> | ->].
    rewrite E; unfold body_filter, no_processed_documents_body.
    rewrite Hgiven; unfold workspace_filter; cbn [text_filter].
    replace (filter _ (documents db)) with (@nil DocRecord); [reflexivity|].
    symmetry; apply filter_nil_iff; intros d Hd.
    destruct (String.eqb _ _) eqn:E2; [|reflexivity].
    destruct (processed d) eqn:E3; [|reflexivity].
    exfalso; apply (Hnone d Hd); auto.
    now apply String.eqb_eq.
  - intros items e Hitems Hne Hcast.
    destruct items as [|i items]; [congruence|].
    split.
    + rewrite E, Hitems; unfold body_filter.
      cbn [ids_given_body]; unfold ids_filter; now rewrite Hcast.
    + destruct (qa_catch_status e) as [[_ ->]|[_ ->]]; auto.
  - intros script args Hin.
    exact (universal_qa_body_spawned c w body query workspace Hq Hw db
             script args Hin).
Qed.

Lemma query_without_processed_documents_witness :
  universal_qa_body Driver.mongoose Sample.world_ok
    (Driver.ask (Some [JString "000000000000000000000007"]) (JString "W1"))
    Sample.db_processed
  = ([], Sample.db_processed,
     mkResponse 400
       (MessageBody "No processed documents found for the provided IDs.")).
Proof.
  refine (proj1 (query_without_processed_documents
                   Driver.mongoose Sample.world_ok
                   (Driver.ask (Some [JString "000000000000000000000007"])
                               (JString "W1"))
                   Sample.db_processed
                   "What is the revenue?" (JString "W1") eq_refl eq_refl)
                "W1" [JString "000000000000000000000007"] [7%N]
                eq_refl eq_refl _ eq_refl _).
  - discriminate.
  - intros d [<-|[]] [Hid|[]]; vm_compute in Hid; discriminate.
Defined.

(** The worlds of the sample: with no id and no processed record in the
    workspace asked for, the other message. *)
Example query_of_an_empty_workspace :
  universal_qa_body Driver.mongoose Sample.world_ok
    (Driver.ask None (JString "W2")) Sample.db_processed
  = ([], Sample.db_processed,
     mkResponse 400
       (MessageBody
          "No documents have been processed yet. Please upload a file first.")).
Proof. reflexivity. Qed.

(** C5. When the candidate handles are non-empty and the retrieval
    returns no passage, the handler answers 200 with the fixed text, no
    citation, no next step and no chart hint, whatever the query text, and
    the model is not called. *)
Theorem zero_passages_fixed_answer
  (w : World) (req : QaRequest) (db : Db) (query ws : string) :
  truthyField (qa_query req) = Some query ->
  truthyField (qa_workspaceId req) = Some ws ->
  candidate_handles (qa_documentIds req) ws (documents db) <> [] ->
  retrieval_outcome w
    (spawn_python w chroma_handler
       (query_args query
          (candidate_handles (qa_documentIds req) ws (documents db))))
  = inr [] ->
  result_of (universal_qa w req db)
  = mkResponse 200
      (AnswerBody
         "I couldn't find relevant information in the uploaded documents for your query. Please try rephrasing or upload more relevant files."
         [] None [])
  /\ forall prompt, ~ In (Generated prompt) (events_of (universal_qa w req db)).
Proof.
  intros Hq Hw Hne Hret.
  rewrite (universal_qa_cases w req query ws Hq Hw db); cbv zeta.
  destruct (candidate_handles _ _ _) as [|h hs]; [congruence|].
  rewrite Hret; split; [reflexivity|].
  intros prompt [H|[]]; discriminate.
Qed.

Lemma zero_passages_fixed_answer_witness :
  result_of (universal_qa Sample.world_empty Sample.ask_W1 Sample.db_processed)
  = mkResponse 200
      (AnswerBody
         "I couldn't find relevant information in the uploaded documents for your query. Please try rephrasing or upload more relevant files."
         [] None [])
  /\ forall prompt,
      ~ In (Generated prompt)
          (events_of (universal_qa Sample.world_empty Sample.ask_W1
                        Sample.db_processed)).
Proof.
  apply (zero_passages_fixed_answer Sample.world_empty Sample.ask_W1
           Sample.db_processed "What is the revenue?" "W1").
  - reflexivity.
  - reflexivity.
  - vm_compute; discriminate.
  - reflexivity.
Defined.

(** C6. When the retrieval returns a non-empty list of passages and the
    model answers, the citations of the result are the [source] of each
    passage in retrieval order, one per passage, duplicates kept: same
    length, and citation [i] is the source of passage [i]. *)
Theorem citations_are_passage_sources
  (w : World) (req : QaRequest) (db : Db) (query ws : string)
  (chunks : list Chunk) (aiAnswer : string) :
  truthyField (qa_query req) = Some query ->
  truthyField (qa_workspaceId req) = Some ws ->
  candidate_handles (qa_documentIds req) ws (documents db) <> [] ->
  retrieval_outcome w
    (spawn_python w chroma_handler
       (query_args query
          (candidate_handles (qa_documentIds req) ws (documents db))))
  = inr chunks ->
  chunks <> [] ->
  generateContent w (llmPrompt (join (nl ++ nl) (map text chunks)) query)
  = inr aiAnswer ->
  exists citations chart steps,
    result_of (universal_qa w req db)
    = mkResponse 200 (AnswerBody aiAnswer citations chart steps)
    /\ citations = map source chunks
    /\ List.length citations = List.length chunks
    /\ forall i, nth_error citations i = option_map source (nth_error chunks i).
Proof.
  intros Hq Hw Hne Hret Hchunks Hllm.
  rewrite (universal_qa_cases w req query ws Hq Hw db); cbv zeta.
  destruct (candidate_handles _ _ _) as [|h hs]; [congruence|].
  rewrite Hret. destruct chunks as [|c cs]; [congruence|].
  rewrite Hllm.
  eexists _, _, _; split; [reflexivity|]; split; [reflexivity|]; split.
  - apply length_map.
  - intros i; apply nth_error_map.
Qed.

Lemma citations_are_passage_sources_witness :
  exists citations chart steps,
    result_of (universal_qa Sample.world_ok Sample.ask_W1 Sample.db_processed)
    = mkResponse 200
        (AnswerBody
           "Revenue was $5M. A Pie Chart would show the split; suggested next steps follow."
           citations chart steps)
    /\ citations = map source [Sample.passage]
    /\ List.length citations = List.length [Sample.passage]
    /\ forall i,
        nth_error citations i = option_map source (nth_error [Sample.passage] i).
Proof.
  apply (citations_are_passage_sources Sample.world_ok Sample.ask_W1
           Sample.db_processed "What is the revenue?" "W1" [Sample.passage]).
  - reflexivity.
  - reflexivity.
  - vm_compute; discriminate.
  - reflexivity.
  - discriminate.
  - reflexivity.
Defined.

(** Duplicate sources stay, each at its position. *)
Example citations_keep_duplicates :
  map source [mkChunk "a" "S1"; mkChunk "b" "S2"; mkChunk "c" "S1"]
  = ["S1"; "S2"; "S1"].
Proof. reflexivity. Qed.

(** ** The heuristics on the answer text *)

Lemma chart_blocks_agree (aiAnswer : string) (chartData : option string) :
  chart_block_2 aiAnswer chartData = chart_block_1 aiAnswer chartData.
Proof. reflexivity. Qed.

Lemma chart_block_1_twice (aiAnswer : string) (chartData : option string) :
  chart_block_1 aiAnswer (chart_block_1 aiAnswer chartData)
  = chart_block_1 aiAnswer chartData.
Proof.
  unfold chart_block_1.
  now destruct (includes (toLowerCase aiAnswer) "chart"
                || includes (toLowerCase aiAnswer) "visualize").
Qed.

Lemma chartHint_once (aiAnswer : string) :
  chartHint aiAnswer = chart_block_1 aiAnswer None.
Proof. unfold chartHint; now rewrite chart_blocks_agree, chart_block_1_twice. Qed.

Lemma not_contains_any_case (s k : string) :
  ~ contains_any_case s k -> includes (toLowerCase s) (toLowerCase k) = false.
Proof.
  intros H; destruct (includes _ _) eqn:E; [|reflexivity].
  exfalso; apply H; now apply contains_any_case_includes.
Qed.

(** C7. The chart hint and the next steps of a result are functions of
    the answer text alone, by case-insensitive search of fixed phrases:
    "pie chart" in any case gives the pie-chart hint; neither "chart" nor
    "visualize" gives no hint; "suggested next steps" gives its canned
    list, otherwise "further analysis" gives its own, otherwise the list
    is empty. *)
Theorem chart_hint_and_next_steps
  (w : World) (req : QaRequest) (db : Db) (query ws : string)
  (chunks : list Chunk) (aiAnswer : string) :
  truthyField (qa_query req) = Some query ->
  truthyField (qa_workspaceId req) = Some ws ->
  candidate_handles (qa_documentIds req) ws (documents db) <> [] ->
  retrieval_outcome w
    (spawn_python w chroma_handler
       (query_args query
          (candidate_handles (qa_documentIds req) ws (documents db))))
  = inr chunks ->
  chunks <> [] ->
  generateContent w (llmPrompt (join (nl ++ nl) (map text chunks)) query)
  = inr aiAnswer ->
  result_of (universal_qa w req db)
  = mkResponse 200
      (AnswerBody aiAnswer (map source chunks)
                  (chartHint aiAnswer) (nextSteps aiAnswer))
  /\ (contains_any_case aiAnswer "pie chart" ->
      chartHint aiAnswer = Some "Pie chart showing proportions.")
  /\ (~ contains_any_case aiAnswer "chart" ->
      ~ contains_any_case aiAnswer "visualize" ->
      chartHint aiAnswer = None)
  /\ (contains_any_case aiAnswer "suggested next steps" ->
      nextSteps aiAnswer
      = ["Review the detailed report."; "Discuss findings with the team."])
  /\ (~ contains_any_case aiAnswer "suggested next steps" ->
      contains_any_case aiAnswer "further analysis" ->
      nextSteps aiAnswer = ["Perform further analysis on identified areas."])
  /\ (~ contains_any_case aiAnswer "suggested next steps" ->
      ~ contains_any_case aiAnswer "further analysis" ->
      nextSteps aiAnswer = []).
Proof.
  intros Hq Hw Hne Hret Hchunks Hllm.
  split; [|repeat split].
  - rewrite (universal_qa_cases w req query ws Hq Hw db); cbv zeta.
    destruct (candidate_handles _ _ _) as [|h hs]; [congruence|].
    rewrite Hret. destruct chunks as [|c cs]; [congruence|].
    now rewrite Hllm.
  - intros Hpie; apply contains_any_case_includes in Hpie.
    change (toLowerCase "pie chart") with "pie chart" in Hpie.
    assert (Hchart : includes (toLowerCase aiAnswer) "chart" = true)
      by exact (includes_longer _ "pie " "chart" Hpie).
    rewrite chartHint_once; unfold chart_block_1.
    now rewrite Hchart, Hpie.
  - intros Hchart Hvis.
    apply not_contains_any_case in Hchart, Hvis.
    change (toLowerCase "chart") with "chart" in Hchart.
    change (toLowerCase "visualize") with "visualize" in Hvis.
    rewrite chartHint_once; unfold chart_block_1.
    now rewrite Hchart, Hvis.
  - intros Hsns; apply contains_any_case_includes in Hsns.
    change (toLowerCase "suggested next steps") with "suggested next steps" in Hsns.
    unfold nextSteps, next_steps_block; now rewrite Hsns.
  - intros Hsns Hfa.
    apply not_contains_any_case in Hsns.
    apply contains_any_case_includes in Hfa.
    change (toLowerCase "suggested next steps") with "suggested next steps" in Hsns.
    change (toLowerCase "further analysis") with "further analysis" in Hfa.
    unfold nextSteps, next_steps_block; now rewrite Hsns, Hfa.
  - intros Hsns Hfa.
    apply not_contains_any_case in Hsns, Hfa.
    change (toLowerCase "suggested next steps") with "suggested next steps" in Hsns.
    change (toLowerCase "further analysis") with "further analysis" in Hfa.
    unfold nextSteps, next_steps_block; now rewrite Hsns, Hfa.
Qed.

Lemma chart_hint_and_next_steps_witness :
  result_of (universal_qa Sample.world_ok Sample.ask_W1 Sample.db_processed)
  = mkResponse 200
      (AnswerBody
         "Revenue was $5M. A Pie Chart would show the split; suggested next steps follow."
         ["vec123"]
         (Some "Pie chart showing proportions.")
         ["Review the detailed report."; "Discuss findings with the team."]).
Proof.
  destruct (chart_hint_and_next_steps Sample.world_ok Sample.ask_W1
              Sample.db_processed "What is the revenue?" "W1" [Sample.passage]
              "Revenue was $5M. A Pie Chart would show the split; suggested next steps follow."
              eq_refl eq_refl ltac:(vm_compute; discriminate) eq_refl
              ltac:(discriminate) eq_refl)
    as (Hres & Hpie & _ & Hsns & _).
  rewrite Hres, Hpie, Hsns.
  - reflexivity.
  - exists "Revenue was $5M. A Pie Chart would show the split; ",
      "suggested next steps", " follow."; split; reflexivity.
  - exists "Revenue was $5M. A ", "Pie Chart",
      " would show the split; suggested next steps follow."; split; reflexivity.
Defined.

(** C9. The second chart block computes what the first one did: after
    both, [chartData] is what the first block alone leaves, for every
    answer text, and the handler equals the handler with the chart
    heuristic written once, on every request, world and store. *)
Theorem duplicate_chart_block_is_redundant :
  (forall aiAnswer chartData,
      chart_block_2 aiAnswer chartData = chart_block_1 aiAnswer chartData)
  /\ (forall aiAnswer,
         chart_block_2 aiAnswer (chart_block_1 aiAnswer None)
         = chart_block_1 aiAnswer None)
  /\ (forall w req db, universal_qa w req db = universal_qa_single w req db).
Proof.
  split; [exact chart_blocks_agree|]; split.
  - intros a; now rewrite chart_blocks_agree, chart_block_1_twice.
  - intros w req db; unfold universal_qa, universal_qa_single.
    destruct (truthyField (qa_query req)) as [query|]; [|reflexivity].
    destruct (truthyField (qa_workspaceId req)) as [ws|]; [|reflexivity].
    unfold try_catch, bind.
    destruct (resolve_documents _ _ _) as [[ev db'] [e|[early|hs]]];
      try reflexivity.
    destruct (query_documents _ _ _ _) as [[ev2 db2] [e|chunks]];
      try reflexivity.
    unfold answer_from, answer_from_single, bind, ret.
    destruct chunks as [|c cs]; [reflexivity|].
    destruct (gemini _ _ _) as [[ev3 db3] [e|a]]; [reflexivity|].
    now rewrite chart_blocks_agree, chart_block_1_twice.
Qed.

(** C10. An id list that is present but empty is treated as an omitted
    one: the handler gives the same run. With a workspace id that is a
    string, that run resolves to all the processed records of the
    workspace: when one of them has a handle, the retrieval worker is
    spawned with the handles of all of them, in the order of the store,
    and the answer is not a 400, hence not the rejection of an id list
    that matches nothing; when none has, the answer is the 400 of a
    workspace without processed documents, not the one for explicit
    ids. *)
Theorem empty_id_list_is_no_id_list
  (c : Caster) (w : World) (query : option string) (workspace : option Json)
  (db : Db) :
  let run := universal_qa_body c w (mkQaBody query (Some []) workspace) db in
  run = universal_qa_body c w (mkQaBody query None workspace) db
  /\ forall q ws,
      truthyField query = Some q ->
      workspace = Some (JString ws) ->
      truthy ws = true ->
      let handles_of_all := chromaIds (filter (all_processed ws) (documents db)) in
      (handles_of_all = [] ->
       run = ([], db,
              mkResponse 400
                (MessageBody
                   "No documents have been processed yet. Please upload a file first.")))
      /\ (handles_of_all <> [] ->
          run = retrieve_and_answer w q handles_of_all db
          /\ (exists rest,
                 events_of run
                 = Spawned chroma_handler (query_args q handles_of_all) :: rest)
          /\ status (result_of run) <> 400
          /\ result_of run
             <> mkResponse 400
                  (MessageBody "No processed documents found for the provided IDs.")).
Proof.
  intros run; split; [reflexivity|].
  intros q ws Hq -> Hws handles_of_all.
  assert (E : run
              = match handles_of_all with
                | [] =>
                    ([], db,
                     mkResponse 400
                       (MessageBody
                          "No documents have been processed yet. Please upload a file first."))
                | h :: hs => retrieve_and_answer w q (h :: hs) db
                end).
  { unfold run.
    rewrite (universal_qa_body_cases c w _ q (JString ws)); cbn;
      [reflexivity | exact Hq | now rewrite Hws]. }
  split.
  - intros H; now rewrite E, H.
  - intros Hne.
    destruct handles_of_all as [|h hs] eqn:Eh; [congruence|].
    destruct (retrieve_and_answer_spawns w q (h :: hs) db)
      as ((rest & Hev) & _ & Hst).
    rewrite E; split; [reflexivity|]; split; [now exists rest|].
    assert (Hs : status (result_of (retrieve_and_answer w q (h :: hs) db)) <> 400)
      by (destruct Hst as [H|[H|H]]; rewrite H; discriminate).
    split; [exact Hs|].
    intros H; rewrite H in Hs; now apply Hs.
Qed.

Lemma empty_id_list_is_no_id_list_witness :
  exists rest,
    events_of (universal_qa_body Driver.mongoose Sample.world_ok
                 (mkQaBody (Some "What is the revenue?") (Some [])
                           (Some (JString "W1")))
                 Sample.db_processed)
    = Spawned chroma_handler (query_args "What is the revenue?" ["vec123"])
        :: rest.
Proof.
  refine (proj1 (proj2 (proj2 (proj2 (empty_id_list_is_no_id_list
                                        Driver.mongoose Sample.world_ok
                                        (Some "What is the revenue?")
                                        (Some (JString "W1"))
                                        Sample.db_processed)
                                     "What is the revenue?" "W1"
                                     eq_refl eq_refl eq_refl) _))).
  discriminate.
Defined.

(** The contrast: a non-empty list that matches nothing is rejected
    although the workspace has a processed record. *)
Example unmatched_id_list_is_rejected :
  result_of (universal_qa Sample.world_ok (Sample.ask_W1_ids [7%N])
               Sample.db_processed)
  = mkResponse 400
      (MessageBody "No processed documents found for the provided IDs.")
  /\ status (result_of (universal_qa Sample.world_ok (Sample.ask_W1_ids [])
                          Sample.db_processed)) = 200.
Proof. split; reflexivity. Qed.

(* ================================================================== *)
(** ** Workspace scoping *)
(* ================================================================== *)

Lemma chromaIds_In (docs : list DocRecord) (d : DocRecord) (h : string) :
  In d docs -> chromaDocumentId d = Some h -> truthy h = true ->
  In h (chromaIds docs).
Proof.
  intros Hd Hh Ht; unfold chromaIds, filter_Boolean.
  apply in_flat_map; exists (Some h); split.
  - rewrite <- Hh; now apply in_map.
  - rewrite Ht; now left.
Qed.

(** With a workspace id that is a string, the records a query resolves
    to, with or without explicit ids, are processed records of that
    workspace, and the retrieval worker gets their handles alone. *)
Lemma string_workspace_id_scopes_the_query
  (c : Caster) (w : World) (body : QaBody) (db : Db) (query B : string)
  (script : string) (args : list string) :
  truthyField (body_query body) = Some query ->
  body_workspaceId body = Some (JString B) ->
  truthy B = true ->
  In (Spawned script args) (events_of (universal_qa_body c w body db)) ->
  exists docs,
    Forall (fun u => workspaceId u = B /\ processed u = true
                     /\ In u (documents db)) docs
    /\ args = query_args query (chromaIds docs).
Proof.
  intros Hq Hw HB Hin.
  assert (Hw' : truthyJson (body_workspaceId body) = Some (JString B))
    by (rewrite Hw; cbn; now rewrite HB).
  destruct (universal_qa_body_spawned c w body query (JString B) Hq Hw' db
              script args Hin) as (p & h & hs & Hp & Hc & _ & -> & _).
  exists (filter p (documents db)); split; [|now rewrite Hc].
  apply Forall_forall; intros u Hu; apply filter_In in Hu as [Hu Hpu].
  unfold body_filter in Hp.
  destruct (ids_given_body (body_documentIds body)) as [items|].
  - unfold ids_filter in Hp; destruct (cast_ids c items) as [e|ids];
      [discriminate|].
    cbn [text_filter] in Hp; injection Hp as <-.
    apply andb_prop in Hpu as [Hpu Hproc]; apply andb_prop in Hpu as [_ Hws].
    apply String.eqb_eq in Hws; auto.
  - unfold workspace_filter in Hp; cbn [text_filter] in Hp; injection Hp as <-.
    apply andb_prop in Hpu as [Hws Hproc].
    apply String.eqb_eq in Hws; auto.
Qed.

(** C8. The scoping of the query fails on a body whose [workspaceId] is
    not a string. The handler tests only that the value is truthy (line
    259) and puts it in the filter of [find] as it is (lines 268-272 and
    285-288); when Mongoose reads it as an operator whose test a processed
    record of some workspace passes, the handle of that record is given to
    the retrieval worker and the query is not rejected, although the body
    names no workspace at all. *)
Theorem operator_as_workspace_id_crosses_workspaces
  (c : Caster) (w : World) (db : Db) (query : string) (operator : Json)
  (test : string -> bool) (d : DocRecord) (h : string) :
  truthy query = true ->
  json_truthy operator = true ->
  (forall ws, operator <> JString ws) ->
  cast_operand c operator = inr test ->
  In d (documents db) ->
  processed d = true ->
  chromaDocumentId d = Some h ->
  truthy h = true ->
  test (workspaceId d) = true ->
  let run := universal_qa_body c w (mkQaBody (Some query) None (Some operator)) db in
  exists hs rest,
    events_of run = Spawned chroma_handler (query_args query hs) :: rest
    /\ In h hs
    /\ status (result_of run) <> 400.
Proof.
  intros Hq Hop Hnot Hcast Hd Hproc Hh Ht Htest run.
  assert (Hfilter : body_filter c None operator
                    = inr (fun u => test (workspaceId u) && processed u)).
  { unfold body_filter, workspace_filter; cbn [ids_given_body].
    replace (text_filter c operator) with (cast_operand c operator);
      [now rewrite Hcast|].
    destruct operator; try reflexivity. exfalso; now apply (Hnot s). }
  assert (E : run
              = match chromaIds
                        (filter (fun u => test (workspaceId u) && processed u)
                                (documents db)) with
                | [] => ([], db, no_processed_documents_body None)
                | x :: xs => retrieve_and_answer w query (x :: xs) db
                end).
  { unfold run.
    rewrite (universal_qa_body_cases c w _ query operator);
      cbn [body_query body_documentIds body_workspaceId truthyField truthyJson].
    - now rewrite Hfilter.
    - now rewrite Hq.
    - now rewrite Hop. }
  assert (Hin : In h (chromaIds
                        (filter (fun u => test (workspaceId u) && processed u)
                                (documents db)))).
  { apply (chromaIds_In _ d h); try assumption.
    apply filter_In; split; [assumption|]. now rewrite Htest, Hproc. }
  destruct (chromaIds _) as [|x xs] eqn:Ec; [destruct Hin|].
  destruct (retrieve_and_answer_spawns w query (x :: xs) db)
    as ((rest & Hev) & _ & Hst).
  exists (x :: xs), rest; rewrite E; split; [exact Hev|]; split; [exact Hin|].
  destruct Hst as [H|[H|H]]; rewrite H; discriminate.
Qed.

(** The body [{query: .., workspaceId: {"$ne": "W2"}}] on a store whose
    only record belongs to workspace [W1]. *)
Lemma operator_as_workspace_id_crosses_workspaces_witness :
  exists hs rest,
    events_of (universal_qa_body Driver.mongoose Sample.world_ok
                 (mkQaBody (Some "What is the revenue?") None
                           (Some (JObject [("$ne", JString "W2")])))
                 Sample.db_processed)
    = Spawned chroma_handler (query_args "What is the revenue?" hs) :: rest
    /\ In "vec123" hs
    /\ status (result_of
                 (universal_qa_body Driver.mongoose Sample.world_ok
                    (mkQaBody (Some "What is the revenue?") None
                              (Some (JObject [("$ne", JString "W2")])))
                    Sample.db_processed)) <> 400.
Proof.
  refine (operator_as_workspace_id_crosses_workspaces
            Driver.mongoose Sample.world_ok Sample.db_processed
            "What is the revenue?" (JObject [("$ne", JString "W2")])
            (fun x => negb (String.eqb x "W2")) Sample.report_processed "vec123"
            eq_refl eq_refl _ eq_refl (or_introl eq_refl)
            eq_refl eq_refl eq_refl eq_refl).
  discriminate.
Defined.

(** The same run in full: the record of [W1] is cited in an answer with
    status 200, and with the id of that record the operator works as
    well; the string ["W2"] in its place is rejected. *)
Example operator_as_workspace_id_in_full :
  workspaceId Sample.report_processed = "W1"
  /\ universal_qa_body Driver.mongoose Sample.world_ok
       (Driver.ask None (JObject [("$ne", JString "W2")])) Sample.db_processed
     = ([Spawned chroma_handler
           ["query_documents"; "What is the revenue?"; "vec123"];
         Generated (llmPrompt "Revenue was $5M" "What is the revenue?")],
        Sample.db_processed,
        mkResponse 200
          (AnswerBody
             "Revenue was $5M. A Pie Chart would show the split; suggested next steps follow."
             ["vec123"]
             (Some "Pie chart showing proportions.")
             ["Review the detailed report."; "Discuss findings with the team."]))
  /\ status (result_of
               (universal_qa_body Driver.mongoose Sample.world_ok
                  (Driver.ask (Some [JString "000000000000000000000000"])
                              (JObject [("$ne", JString "W2")]))
                  Sample.db_processed)) = 200
  /\ status (result_of
               (universal_qa_body Driver.mongoose Sample.world_ok
                  (Driver.ask None (JString "W2")) Sample.db_processed)) = 400.
Proof. repeat split. Qed.

(** The upload handler has the test the query handler lacks (line 190):
    a [workspaceId] that is not a string is rejected there. *)
Example upload_rejects_a_workspace_id_that_is_no_string :
  universal_upload Sample.world_ok (mkUpload (Some Sample.report) None)
                   Sample.db_processed
  = ([], Sample.db_processed,
     mkResponse 400 (MessageBody "Workspace ID is required.")).
Proof. reflexivity. Qed.

(** *** The listing and the router *)

(** A GET of [<ws>/documents] reaches the listing exactly when [ws] does
    not read "join"; otherwise the join route takes it, with "documents"
    as the invite link. *)
Lemma route_get_documents (ws : string) :
  (toLowerCase ws <> "join" <-> route_get ws "documents" = ToDocuments ws)
  /\ (toLowerCase ws = "join" <-> route_get ws "documents" = ToJoin "documents").
Proof.
  unfold route_get.
  destruct (String.eqb (toLowerCase ws) "join") eqn:E.
  - apply String.eqb_eq in E; split; split; intros H;
      try reflexivity; try assumption; try discriminate; contradiction.
  - apply String.eqb_neq in E; cbn; split; split; intros H;
      try reflexivity; try assumption; try discriminate; contradiction.
Qed.

(** The record uploaded to [W1] is listed for [W1] and for no other
    workspace. *)
Example listing_of_another_workspace_is_empty :
  result_of (workspace_documents "W2" Sample.db_processed)
  = mkResponse 200 (DocumentsBody "Found 0 documents for workspace W2." [])
  /\ result_of (workspace_documents "W1" Sample.db_processed)
     = mkResponse 200
         (DocumentsBody "Found 1 documents for workspace W1."
                        [Sample.report_processed]).
Proof. split; reflexivity. Qed.

(** The documents of a workspace called "join" cannot be listed: the GET
    is the join route's. *)
Example listing_of_join_is_the_join_route :
  route_get "join" "documents" = ToJoin "documents"
  /\ route_get "Join" "documents" = ToJoin "documents"
  /\ route_get "W1" "documents" = ToDocuments "W1".
Proof. repeat split. Qed.

(* ================================================================== *)
(** ** The embedding worker boundary *)
(* ================================================================== *)

Section SuccessPattern.

Lemma line_rest_split (s : string) :
  exists post,
    s = line_rest s ++ post
    /\ no_line_terminator (line_rest s) = true
    /\ at_line_end post = true.
Proof.
  induction s as [|c s (post & E & Hg & Hpost)]; simpl.
  - now exists EmptyString.
  - destruct (isLineTerminator c) eqn:Ec.
    + exists (String c s); simpl; auto.
    + exists post; simpl; rewrite Ec, <- E; auto.
Qed.

Lemma line_rest_app (g post : string) :
  no_line_terminator g = true -> at_line_end post = true ->
  line_rest (g ++ post) = g.
Proof.
  intros Hg Hpost; induction g as [|c g IH]; simpl in *.
  - destruct post as [|c post]; simpl in *; [reflexivity | now rewrite Hpost].
  - apply andb_true_iff in Hg as [Hc Hg]; apply negb_true_iff in Hc.
    now rewrite Hc, IH.
Qed.

Lemma success_at_iff (s g : string) :
  success_at s = Some g <-> success_match s EmptyString g.
Proof.
  unfold success_at, success_match; split.
  - destruct (stripPrefix "SUCCESS:" s) as [rest|] eqn:E; [|discriminate].
    apply stripPrefix_Some in E; subst s.
    destruct (line_rest_split rest) as (post & E & Hg & Hpost).
    destruct (line_rest rest) as [|c r] eqn:Er; [discriminate|].
    intros H; injection H as <-.
    exists post; repeat split; auto; [now rewrite E at 1 | discriminate].
  - intros (post & -> & Hne & Hg & Hpost).
    change (EmptyString ++ "SUCCESS:" ++ g ++ post)
      with ("SUCCESS:" ++ (g ++ post)).
    rewrite stripPrefix_app, line_rest_app by assumption.
    destruct g; [congruence | reflexivity].
Qed.

Lemma success_match_cons (c : ascii) (s pre g : string) :
  success_match (String c s) (String c pre) g <-> success_match s pre g.
Proof.
  unfold success_match; split; intros (post & E & H); exists post;
    (split; [|exact H]).
  - simpl in E; now injection E.
  - simpl; now rewrite E.
Qed.

Lemma success_match_inv (c : ascii) (s pre g : string) :
  success_match (String c s) pre g ->
  (pre = EmptyString /\ success_at (String c s) = Some g)
  \/ exists pre', pre = String c pre' /\ success_match s pre' g.
Proof.
  intros H; destruct pre as [|c' pre'].
  - left; split; [reflexivity | now apply success_at_iff].
  - right; exists pre'.
    assert (c' = c) as ->
        by (destruct H as (post & E & _); simpl in E; now injection E).
    split; [reflexivity | now apply success_match_cons in H].
Qed.

Lemma match_success_unfold (s : string) :
  match_success s
  = match success_at s with
    | Some g => Some g
    | None => match s with
              | EmptyString => None
              | String _ s' => match_success s'
              end
    end.
Proof. now destruct s. Qed.

Lemma match_success_None (s : string) :
  match_success s = None -> forall pre g, ~ success_match s pre g.
Proof.
  induction s as [|c s IH]; intros Hnone pre g Hm;
    rewrite match_success_unfold in Hnone.
  - destruct Hm as (post & E & _).
    destruct pre; simpl in E; discriminate.
  - destruct (success_at (String c s)) eqn:Eat; [discriminate|].
    apply success_match_inv in Hm as [[_ E]|(pre' & _ & Hm)];
      [congruence | exact (IH Hnone pre' g Hm)].
Qed.

Lemma match_success_first (s g : string) :
  match_success s = Some g -> first_success s g.
Proof.
  revert g; induction s as [|c s IH]; intros g Hsome;
    rewrite match_success_unfold in Hsome.
  - discriminate.
  - destruct (success_at (String c s)) as [g0|] eqn:Eat.
    + injection Hsome as ->.
      exists EmptyString; split; [now apply success_at_iff|].
      intros; simpl; lia.
    + destruct (IH g Hsome) as (pre & Hm & Hmin).
      exists (String c pre); split; [now apply success_match_cons|].
      intros pre' g' Hm'.
      apply success_match_inv in Hm' as [[_ E]|(p & -> & Hm')];
        [congruence|].
      simpl; specialize (Hmin p g' Hm'); lia.
Qed.

Lemma append_same_length (a b x y : string) :
  a ++ x = b ++ y -> String.length a = String.length b -> a = b /\ x = y.
Proof.
  revert b; induction a as [|c a IH]; intros [|d b] E L; simpl in *;
    try discriminate; [now split|].
  injection E as -> E; injection L as L.
  destruct (IH b E L) as [-> ->]; now split.
Qed.

Lemma success_match_group (s pre g g' : string) :
  success_match s pre g -> success_match s pre g' -> g = g'.
Proof.
  intros (post & E & _ & Hg & Hpost) (post' & E' & _ & Hg' & Hpost').
  rewrite E in E'.
  apply append_same_length in E' as [_ E']; [|reflexivity].
  simpl in E'; injection E' as E'.
  rewrite <- (line_rest_app g post Hg Hpost), E'.
  now apply line_rest_app.
Qed.

Lemma first_success_match (s g : string) :
  first_success s g -> match_success s = Some g.
Proof.
  intros (pre & Hm & Hmin).
  destruct (match_success s) as [g'|] eqn:E.
  - destruct (match_success_first s g' E) as (pre' & Hm' & Hmin').
    assert (L : String.length pre = String.length pre').
    { specialize (Hmin _ _ Hm'); specialize (Hmin' _ _ Hm); lia. }
    assert (pre = pre') as <-.
    { destruct Hm as (post & E1 & _), Hm' as (post' & E2 & _).
      rewrite E1 in E2; now apply append_same_length in E2 as [-> _]. }
    f_equal; exact (success_match_group s pre g' g Hm' Hm).
  - exfalso; exact (match_success_None s E pre g Hm).
Qed.

End SuccessPattern.

(** C3, as the specification words it, fails: on a zero-exit output with
    two matching lines the last matching line names handle [b], and the
    handler takes [a] from the first. *)
Lemma embed_takes_the_first_match :
  last_success_line Sample.two_lines = Some "b"
  /\ embed_outcome (Exited (Some 0%N) Sample.two_lines EmptyString) = inr "a".
Proof. split; reflexivity. Qed.

(** C3, amended. For a worker that ends with exit code [code]: a code
    other than 0 is a failure whose reason is the code and the trimmed
    stderr; on code 0 the handle is group 1, trimmed, of the first
    (leftmost) match of [/SUCCESS:(.+)$/m] in the trimmed stdout; and a
    zero-exit output with no match is a failure whose reason is that
    trimmed stdout. The upload handler's embedding step gives this outcome
    for the process it spawned. *)
Theorem embed_outcome_by_first_match
  (code : option N) (stdout stderr : string) :
  (code <> Some 0%N ->
   embed_outcome (Exited code stdout stderr)
   = inl ("Python script exited with code " ++ showCode code
          ++ ". Stderr: " ++ trim stderr))
  /\ (forall g,
         code = Some 0%N -> first_success (trim stdout) g ->
         embed_outcome (Exited code stdout stderr) = inr (trim g))
  /\ (code = Some 0%N ->
      (forall pre g, ~ success_match (trim stdout) pre g) ->
      embed_outcome (Exited code stdout stderr)
      = inl ("Python processing failed: " ++ trim stdout))
  /\ (forall w filePath type id db,
         embed_document w filePath type id db
         = ([Spawned chroma_handler ["embed_document"; filePath; type; id]], db,
            embed_outcome
              (spawn_python w chroma_handler
                 ["embed_document"; filePath; type; id]))).
Proof.
  split; [|split; [|split]].
  - intros Hcode; unfold embed_outcome, settle.
    destruct code as [[|p]|]; [congruence | reflexivity | reflexivity].
  - intros g -> Hfirst; unfold embed_outcome, settle, parse_embed.
    now rewrite (first_success_match _ _ Hfirst).
  - intros -> Hnone; unfold embed_outcome, settle, parse_embed.
    destruct (match_success (trim stdout)) as [g|] eqn:E; [|reflexivity].
    destruct (match_success_first _ _ E) as (pre & Hm & _).
    exfalso; exact (Hnone pre g Hm).
  - intros; apply embed_document_run.
Qed.

Lemma embed_outcome_by_first_match_witness :
  embed_outcome (Exited (Some 1%N) "FAILURE:no text" " boom ")
  = inl "Python script exited with code 1. Stderr: boom"
  /\ embed_outcome (Exited (Some 0%N) Sample.two_lines EmptyString) = inr "a".
Proof.
  split.
  - refine (proj1 (embed_outcome_by_first_match
                     (Some 1%N) "FAILURE:no text" " boom ") _).
    discriminate.
  - refine (proj1 (proj2 (embed_outcome_by_first_match
                            (Some 0%N) Sample.two_lines EmptyString))
                  "a" eq_refl _).
    apply match_success_first; reflexivity.
Defined.

(* ================================================================== *)
(** * Further properties of the handlers *)
(* ================================================================== *)

(** ** [trim] *)

Section TrimFacts.

Lemma trimStart_clean (s : string) : starts_clean (trimStart s) = true.
Proof.
  induction s as [|c s IH]; simpl; [reflexivity|].
  destruct (isWhiteSpace c) eqn:E; [assumption|]. simpl; now rewrite E.
Qed.

Lemma trimStart_of_clean (s : string) : starts_clean s = true -> trimStart s = s.
Proof.
  destruct s as [|c s]; simpl; [reflexivity|].
  intros H; apply negb_true_iff in H; now rewrite H.
Qed.

Lemma trimEnd_clean (s : string) :
  starts_clean s = true -> starts_clean (trimEnd s) = true.
Proof.
  destruct s as [|c s]; simpl; [reflexivity|].
  intros H; destruct (trimEnd s); simpl; [|assumption].
  apply negb_true_iff in H; rewrite H; simpl; now rewrite H.
Qed.

Lemma trimEnd_idem (s : string) : trimEnd (trimEnd s) = trimEnd s.
Proof.
  induction s as [|c s IH]; simpl; [reflexivity|].
  destruct (trimEnd s) as [|x t] eqn:E.
  - destruct (isWhiteSpace c) eqn:Ec; simpl; [reflexivity | now rewrite Ec].
  - change (trimEnd (String c (String x t)))
      with (match trimEnd (String x t) with
            | EmptyString =>
                if isWhiteSpace c then EmptyString else String c EmptyString
            | u => String c u
            end).
    now rewrite IH.
Qed.

Lemma trim_idem (s : string) : trim (trim s) = trim s.
Proof.
  unfold trim.
  rewrite (trimStart_of_clean (trimEnd (trimStart s)))
    by apply trimEnd_clean, trimStart_clean.
  apply trimEnd_idem.
Qed.

Lemma trimStart_no_terminator (s : string) :
  no_line_terminator s = true -> no_line_terminator (trimStart s) = true.
Proof.
  induction s as [|c s IH]; simpl; [reflexivity|]; intros H.
  destruct (isWhiteSpace c); [|exact H].
  apply andb_true_iff in H as [_ H]; auto.
Qed.

Lemma trimEnd_no_terminator (s : string) :
  no_line_terminator s = true -> no_line_terminator (trimEnd s) = true.
Proof.
  induction s as [|c s IH]; simpl; [reflexivity|]; intros H.
  apply andb_true_iff in H as [Hc H]; specialize (IH H).
  destruct (trimEnd s) as [|x t].
  - destruct (isWhiteSpace c); simpl; [reflexivity | now rewrite Hc].
  - change (no_line_terminator (String c (String x t)))
      with (negb (isLineTerminator c) && no_line_terminator (String x t)).
    now rewrite Hc, IH.
Qed.

Lemma trim_no_terminator (s : string) :
  no_line_terminator s = true -> no_line_terminator (trim s) = true.
Proof.
  intros H; unfold trim; now apply trimEnd_no_terminator, trimStart_no_terminator.
Qed.

End TrimFacts.

(** ** The worker boundary, continued *)

(** X1. The promise of [runPythonScript] resolves exactly when the child
    closes with exit code 0, and then with the trimmed stdout, a text
    that [trim] leaves as it is; the call spawns the script once with the
    given arguments and leaves the store alone. *)
Theorem runPythonScript_resolves_on_exit_zero
  (w : World) (scriptPath : string) (args : list string) (db : Db) :
  runPythonScript w scriptPath args db
  = ([Spawned scriptPath args], db, settle (spawn_python w scriptPath args))
  /\ forall (r : ProcResult) (out : string),
      settle r = inr out <->
      exists stdout stderr,
        r = Exited (Some 0%N) stdout stderr /\ out = trim stdout /\ trim out = out.
Proof.
  split.
  - unfold runPythonScript, await; unfold_M.
    now destruct (settle _).
  - intros r out; split.
    + destruct r as [[[|p]|] stdout stderr|m]; simpl; try discriminate.
      intros H; injection H as <-.
      exists stdout, stderr; repeat split; apply trim_idem.
    + intros (stdout & stderr & -> & -> & _); reflexivity.
Qed.

(** X2. A vector handle that the embedding yields has no line break in
    it and no white space at either end: [trim] leaves it as it is. *)
Theorem embedded_handle_is_one_trimmed_line (r : ProcResult) (h : string) :
  embed_outcome r = inr h ->
  trim h = h /\ no_line_terminator h = true.
Proof.
  unfold embed_outcome, parse_embed.
  destruct (settle r) as [e|out]; [discriminate|].
  destruct (match_success out) as [g|] eqn:E; [|discriminate].
  intros H; injection H as <-.
  split; [apply trim_idem|].
  apply trim_no_terminator.
  destruct (match_success_first _ _ E) as (pre & (post & _ & _ & Hg & _) & _).
  exact Hg.
Qed.

Lemma embedded_handle_is_one_trimmed_line_witness :
  trim "vec123" = "vec123" /\ no_line_terminator "vec123" = true.
Proof.
  apply (embedded_handle_is_one_trimmed_line
           (Exited (Some 0%N) ("Loading file" ++ nl ++ "SUCCESS:  vec123 " ++ nl)
                   EmptyString)).
  reflexivity.
Defined.

(** ** Uploads, continued *)

Lemma handles_app (a b : list DocRecord) :
  handles (a ++ b) = (handles a ++ handles b)%list.
Proof. unfold handles; apply flat_map_app. Qed.

Lemma id_taken_false_iff (d : DocRecord) (docs : list DocRecord) :
  id_taken d docs = false <-> ~ In (_id d) (map _id docs).
Proof.
  unfold id_taken; induction docs as [|x docs IH]; cbn.
  - split; [intros _ [] | reflexivity].
  - rewrite orb_false_iff, IH, N.eqb_neq; tauto.
Qed.

Lemma handle_taken_marked (h : string) (d : DocRecord) (docs : list DocRecord) :
  id_taken d docs = false ->
  (handle_taken (marked h d) (docs ++ [d]) = true <-> In h (handles docs)).
Proof.
  intros Hid; unfold handle_taken; cbn [chromaDocumentId marked _id].
  rewrite existsb_app; cbn [existsb].
  rewrite N.eqb_refl; cbn [negb andb orb]; rewrite orb_false_r.
  unfold id_taken in Hid.
  induction docs as [|x docs IH]; cbn.
  - split; [discriminate | intros []].
  - cbn in Hid; apply orb_false_iff in Hid as [Hx Hid].
    rewrite Hx; cbn [negb andb]; rewrite orb_true_iff, (IH Hid).
    change (handles (x :: docs))
      with ((match chromaDocumentId x with Some h0 => [h0] | None => [] end)
              ++ handles docs)%list.
    rewrite in_app_iff.
    destruct (chromaDocumentId x) as [h'|]; cbn [In].
    + rewrite String.eqb_eq; tauto.
    + split; [intros [H|H]; [discriminate | auto] | intros [[]|H]; auto].
Qed.

Lemma fresh_id (db : Db) (d : DocRecord) :
  _id d = next_oid db ->
  Forall (fun x => (_id x < next_oid db)%N) (documents db) ->
  id_taken d (documents db) = false.
Proof.
  intros Hd Hall; apply id_taken_false_iff; rewrite Hd; intros Hin.
  apply in_map_iff in Hin as (x & Hx & Hin).
  rewrite Forall_forall in Hall; specialize (Hall x Hin); lia.
Qed.

(** X3. From a store whose ids and handles are keys, an upload of a file
    with a name and a type into a workspace is never lost: the record is
    stored whatever the worker does. It is answered 200, and the record
    marked processed with the handle, exactly when the worker yields a
    handle that no stored record holds; a failure of the worker, or a
    handle already held, is answered 500 and leaves the record pending. *)
Theorem upload_is_never_lost
  (w : World) (req : UploadRequest) (file : File) (ws : string) (db : Db) :
  up_file req = Some file ->
  truthyField (up_workspaceId req) = Some ws ->
  truthy (originalname file) = true ->
  truthy (mimetype file) = true ->
  well_keyed db ->
  let d := pending w file ws db in
  let spawned := Spawned chroma_handler (embed_args file d) in
  let outcome := embed_outcome (spawn_python w chroma_handler (embed_args file d)) in
  (forall e,
      outcome = inl e ->
      universal_upload w req db
      = ([Saved (documents db ++ [d])%list; spawned],
         mkDb (documents db ++ [d])%list (N.succ (next_oid db)),
         mkResponse 500 (ErrorBody "Error processing file" e)))
  /\ (forall h,
         outcome = inr h -> In h (handles (documents db)) ->
         universal_upload w req db
         = ([Saved (documents db ++ [d])%list; spawned],
            mkDb (documents db ++ [d])%list (N.succ (next_oid db)),
            mkResponse 500
              (ErrorBody "Error processing file" (store_error w DuplicateKey))))
  /\ (forall h,
         outcome = inr h -> ~ In h (handles (documents db)) ->
         universal_upload w req db
         = ([Saved (documents db ++ [d])%list; spawned;
             Saved (documents db ++ [marked h d])%list],
            mkDb (documents db ++ [marked h d])%list (N.succ (next_oid db)),
            mkResponse 200
              (UploadBody "File uploaded and processed successfully!"
                          (oid_toString (next_oid db)) h))).
Proof.
  intros Hfile Hws Hname Htype (_ & _ & Hbelow) d spawned outcome.
  pose proof (universal_upload_eq w req file ws Hfile Hws db) as E;
    cbv zeta in E; fold d spawned outcome in E.
  assert (Hvalid : valid d = true).
  { unfold valid, d; cbn [pending fileName originalType workspaceId].
    rewrite Hname, Htype; cbn [andb].
    unfold truthyField in Hws; destruct (up_workspaceId req) as [s|];
      [|discriminate].
    destruct (truthy s) eqn:Es; [|discriminate]. now injection Hws as <-. }
  assert (Hid : id_taken d (documents db) = false)
    by (apply fresh_id; [reflexivity | assumption]).
  rewrite Hvalid, Hid in E; cbn [negb] in E.
  pose proof (fun h => handle_taken_marked h d (documents db) Hid) as Htaken.
  repeat split.
  - intros e He; now rewrite He in E.
  - intros h Hh Hin; rewrite Hh in E.
    apply Htaken in Hin; now rewrite Hin in E.
  - intros h Hh Hnin; rewrite Hh in E.
    destruct (handle_taken (marked h d) (documents db ++ [d])) eqn:Et;
      [apply Htaken in Et; contradiction | exact E].
Qed.

Lemma well_keyed_empty : well_keyed empty_db.
Proof. repeat split; constructor. Qed.

Lemma upload_is_never_lost_witness :
  universal_upload Sample.world_ok Sample.upload_W1 empty_db
  = ([Saved [Sample.report_pending];
      Spawned chroma_handler (embed_args Sample.report Sample.report_pending);
      Saved [Sample.report_processed]],
     mkDb [Sample.report_processed] 1,
     mkResponse 200
       (UploadBody "File uploaded and processed successfully!"
                   "000000000000000000000000" "vec123")).
Proof.
  refine (proj2 (proj2 (upload_is_never_lost Sample.world_ok Sample.upload_W1
                          Sample.report "W1" empty_db
                          eq_refl eq_refl eq_refl eq_refl well_keyed_empty))
                "vec123" eq_refl _).
  intros [].
Defined.

(** ** Keys of the collection *)

Lemma NoDup_snoc {A} (l : list A) (x : A) :
  NoDup l -> ~ In x l -> NoDup (l ++ [x]).
Proof.
  intros Hl Hx; induction Hl as [|y l Hy Hl IH]; cbn.
  - constructor; [intros [] | constructor].
  - constructor.
    + rewrite in_app_iff; cbn; intros [H|[H|[]]]; [contradiction|].
      subst; apply Hx; now left.
    + apply IH; intros H; apply Hx; now right.
Qed.

Lemma well_keyed_below (docs : list DocRecord) (n m : N) :
  (n <= m)%N -> well_keyed (mkDb docs n) -> well_keyed (mkDb docs m).
Proof.
  intros Hle (H1 & H2 & H3); repeat split; try assumption.
  cbn in *; eapply Forall_impl; [|exact H3]; cbn; intros; lia.
Qed.

Lemma well_keyed_snoc (db : Db) (d : DocRecord) :
  well_keyed db ->
  _id d = next_oid db ->
  (forall h, chromaDocumentId d = Some h -> ~ In h (handles (documents db))) ->
  well_keyed (mkDb (documents db ++ [d]) (N.succ (next_oid db))).
Proof.
  intros (Hids & Hhandles & Hbelow) Hd Hh; repeat split; cbn [documents next_oid].
  - rewrite map_app; cbn [map]; apply NoDup_snoc; [assumption|].
    apply id_taken_false_iff, fresh_id; assumption.
  - rewrite handles_app.
    unfold handles at 2; cbn [flat_map]; rewrite app_nil_r.
    destruct (chromaDocumentId d) as [h|]; [|now rewrite app_nil_r].
    apply NoDup_snoc; [assumption | now apply Hh].
  - apply Forall_app; split.
    + eapply Forall_impl; [|exact Hbelow]; cbn; intros; lia.
    + constructor; [lia | constructor].
Qed.

Lemma universal_upload_well_keyed (w : World) (req : UploadRequest) (db : Db) :
  well_keyed db ->
  well_keyed (store_of (universal_upload w req db))
  /\ Forall (fun coll => NoDup (map _id coll) /\ NoDup (handles coll))
            (snapshots (events_of (universal_upload w req db))).
Proof.
  intros Hdb.
  destruct (up_file req) as [file|] eqn:Hfile.
  2:{ unfold universal_upload; rewrite Hfile; now split. }
  destruct (truthyField (up_workspaceId req)) as [ws|] eqn:Hws.
  2:{ unfold universal_upload; rewrite Hfile, Hws; now split. }
  rewrite (universal_upload_eq w req file ws Hfile Hws db); cbv zeta.
  set (d := pending w file ws db).
  assert (Hnext : well_keyed (mkDb (documents db) (N.succ (next_oid db)))).
  { apply (well_keyed_below _ (next_oid db)); [lia | now destruct db]. }
  assert (Hpend : well_keyed (mkDb (documents db ++ [d]) (N.succ (next_oid db)))).
  { apply well_keyed_snoc; [assumption | reflexivity | discriminate]. }
  destruct (negb (valid d)); [now split|].
  destruct (id_taken d (documents db)) eqn:Hid; [now split|].
  destruct (embed_outcome _) as [e|h].
  - split; [exact Hpend|].
    unfold events_of; cbn.
    constructor; [|constructor]. destruct Hpend as (H1 & H2 & _); now split.
  - destruct (handle_taken (marked h d) (documents db ++ [d])) eqn:Et.
    + split; [exact Hpend|].
      unfold events_of; cbn.
      constructor; [|constructor]. destruct Hpend as (H1 & H2 & _); now split.
    + assert (Hmark : well_keyed (mkDb (documents db ++ [marked h d])
                                       (N.succ (next_oid db)))).
      { apply well_keyed_snoc; [assumption | reflexivity|].
        cbn; intros h' Hh'; injection Hh' as <-; intros Hin.
        apply (handle_taken_marked h d (documents db) Hid) in Hin; congruence. }
      split; [exact Hmark|].
      unfold events_of; cbn.
      constructor; [|constructor; [|constructor]].
      * destruct Hpend as (H1 & H2 & _); now split.
      * destruct Hmark as (H1 & H2 & _); now split.
Qed.

Lemma handle_well_keyed (w : World) (r : Request) (db : Db) :
  well_keyed db ->
  well_keyed (store_of (handle w r db))
  /\ Forall (fun coll => NoDup (map _id coll) /\ NoDup (handles coll))
            (snapshots (events_of (handle w r db))).
Proof.
  intros Hdb; destruct r as [req|req|ws]; cbn [handle].
  - now apply universal_upload_well_keyed.
  - destruct (universal_qa_reads w req db) as [-> ->]; now split.
  - rewrite workspace_documents_run; now split.
Qed.

Lemma serve_well_keyed (rs : list (World * Request)) (db : Db) :
  well_keyed db ->
  well_keyed (store_of (serve rs db))
  /\ Forall (fun coll => NoDup (map _id coll) /\ NoDup (handles coll))
            (snapshots (events_of (serve rs db))).
Proof.
  revert db; induction rs as [|[w r] rs IH]; intros db Hdb; [now split|].
  cbn [serve].
  destruct (handle_well_keyed w r db Hdb) as [H1 H2].
  destruct (handle w r db) as [[ev db'] resp].
  unfold store_of, events_of in H1, H2; cbn [fst snd] in H1, H2.
  destruct (IH db' H1) as [H3 H4].
  destruct (serve rs db') as [[ev' db''] resps].
  unfold store_of, events_of in *; cbn [fst snd] in *.
  split; [assumption|].
  rewrite snapshots_app; apply Forall_app; now split.
Qed.

Lemma ids_and_handles_are_keys_store (rs : list (World * Request)) :
  well_keyed (store_of (serve rs empty_db)).
Proof. exact (proj1 (serve_well_keyed rs empty_db well_keyed_empty)). Qed.

(** X4. In every run of the server from the empty store, the ids of the
    records are pairwise distinct and so are their vector handles, at the
    end and in every state of the collection an observer can meet; and
    the id generator stays ahead of every stored id. *)
Theorem ids_and_handles_are_keys (rs : list (World * Request)) :
  well_keyed (store_of (serve rs empty_db))
  /\ Forall (fun coll => NoDup (map _id coll) /\ NoDup (handles coll))
            (observable empty_db (events_of (serve rs empty_db))).
Proof.
  destruct (serve_well_keyed rs empty_db well_keyed_empty) as [H1 H2].
  split; [assumption|].
  constructor; [split; constructor | assumption].
Qed.

(** ** What a request leaves in place *)

Lemma universal_upload_appends (w : World) (req : UploadRequest) (db : Db) :
  exists tail,
    documents (store_of (universal_upload w req db)) = (documents db ++ tail)%list
    /\ List.length tail <= 1.
Proof.
  destruct (up_file req) as [file|] eqn:Hfile.
  2:{ unfold universal_upload; rewrite Hfile; exists [].
      cbn; rewrite app_nil_r; auto. }
  destruct (truthyField (up_workspaceId req)) as [ws|] eqn:Hws.
  2:{ unfold universal_upload; rewrite Hfile, Hws; exists [].
      cbn; rewrite app_nil_r; auto. }
  rewrite (universal_upload_eq w req file ws Hfile Hws db); cbv zeta.
  destruct (negb (valid _));
    [exists []; cbn; rewrite app_nil_r; auto|].
  destruct (id_taken _ _);
    [exists []; cbn; rewrite app_nil_r; auto|].
  destruct (embed_outcome _) as [e|h]; [eexists; split; [reflexivity | auto]|].
  destruct (handle_taken _ _); eexists; (split; [reflexivity | auto]).
Qed.

(** X5. No request alters or removes a record stored by an earlier
    request: after any run the collection is the one before, in the same
    order, followed by at most one new record per upload request. Queries
    and listings add nothing. *)
Theorem stored_records_stay (rs : list (World * Request)) (db : Db) :
  exists tail,
    documents (store_of (serve rs db)) = (documents db ++ tail)%list
    /\ List.length tail <= List.length (filter is_upload rs).
Proof.
  revert db; induction rs as [|[w r] rs IH]; intros db.
  - exists []; cbn; rewrite app_nil_r; auto.
  - cbn [serve].
    assert (H : exists t,
               documents (store_of (handle w r db)) = (documents db ++ t)%list
               /\ List.length t <= if is_upload (w, r) then 1 else 0).
    { destruct r as [req|req|ws]; cbn [handle is_upload snd].
      - apply universal_upload_appends.
      - destruct (universal_qa_reads w req db) as [-> _].
        exists []; rewrite app_nil_r; auto.
      - rewrite workspace_documents_run.
        exists []; cbn; rewrite app_nil_r; auto. }
    destruct H as (t & Ht & Hlen).
    destruct (handle w r db) as [[ev db'] resp].
    unfold store_of in Ht; cbn [fst snd] in Ht.
    destruct (IH db') as (t' & Ht' & Hlen').
    destruct (serve rs db') as [[ev' db''] resps].
    unfold store_of in *; cbn [fst snd] in *.
    exists (t ++ t')%list; split.
    + now rewrite Ht', Ht, app_assoc.
    + rewrite length_app; cbn [filter].
      destruct (is_upload (w, r)); cbn [List.length]; lia.
Qed.

(** ** From an upload to the queries that follow *)

Lemma chromaIds_app (a b : list DocRecord) :
  chromaIds (a ++ b) = (chromaIds a ++ chromaIds b)%list.
Proof.
  unfold chromaIds, filter_Boolean; now rewrite map_app, flat_map_app.
Qed.

Lemma resolved_records_app (ids : option (list ObjectId)) (ws : string)
      (a b : list DocRecord) :
  resolved_records ids ws (a ++ b)
  = (resolved_records ids ws a ++ resolved_records ids ws b)%list.
Proof.
  unfold resolved_records; destruct (ids_given ids); apply filter_app.
Qed.

Lemma candidate_handles_app (ids : option (list ObjectId)) (ws : string)
      (a b : list DocRecord) :
  candidate_handles ids ws (a ++ b)
  = (candidate_handles ids ws a ++ candidate_handles ids ws b)%list.
Proof.
  unfold candidate_handles; now rewrite resolved_records_app, chromaIds_app.
Qed.

Lemma resolved_records_unprocessed (ids : option (list ObjectId)) (ws : string)
      (d : DocRecord) :
  processed d = false -> resolved_records ids ws [d] = [].
Proof.
  intros H; unfold resolved_records, by_ids, all_processed.
  destruct (ids_given ids); cbn [filter]; rewrite H, andb_false_r; reflexivity.
Qed.

(** X6. An upload that is not answered 200 changes nothing for the
    queries: for every workspace and every id list the candidate handles
    are those of the store before, whether the record was stored pending
    or not. *)
Theorem failed_upload_is_invisible_to_queries
  (w : World) (req : UploadRequest) (db : Db)
  (ids : option (list ObjectId)) (ws : string) :
  status (result_of (universal_upload w req db)) <> 200 ->
  candidate_handles ids ws (documents (store_of (universal_upload w req db)))
  = candidate_handles ids ws (documents db).
Proof.
  destruct (up_file req) as [file|] eqn:Hfile.
  2:{ unfold universal_upload; now rewrite Hfile. }
  destruct (truthyField (up_workspaceId req)) as [ws'|] eqn:Hws.
  2:{ unfold universal_upload; now rewrite Hfile, Hws. }
  rewrite (universal_upload_eq w req file ws' Hfile Hws db); cbv zeta.
  assert (Hpend : candidate_handles ids ws
                    (documents db ++ [pending w file ws' db])
                  = candidate_handles ids ws (documents db)).
  { rewrite candidate_handles_app; unfold candidate_handles at 2.
    rewrite resolved_records_unprocessed by reflexivity.
    apply app_nil_r. }
  destruct (negb (valid _)); [reflexivity|].
  destruct (id_taken _ _); [reflexivity|].
  destruct (embed_outcome _) as [e|h]; [intros _; exact Hpend|].
  destruct (handle_taken _ _); [intros _; exact Hpend|].
  unfold result_of; cbn; congruence.
Qed.

Lemma failed_upload_is_invisible_to_queries_witness :
  candidate_handles None "W1"
    (documents (store_of (universal_upload Sample.world_fail Sample.upload_W1
                            Sample.db_processed)))
  = candidate_handles None "W1" (documents Sample.db_processed).
Proof.
  apply (failed_upload_is_invisible_to_queries Sample.world_fail
           Sample.upload_W1 Sample.db_processed None "W1").
  vm_compute; discriminate.
Defined.

Lemma resolved_by_fresh_id (ws : string) (d : DocRecord) (docs : list DocRecord) :
  id_taken d docs = false ->
  resolved_records (Some [_id d]) ws docs = [].
Proof.
  intros Hid; unfold resolved_records; cbn [ids_given].
  apply filter_nil_iff; intros x Hx; unfold by_ids; cbn [existsb].
  rewrite orb_false_r.
  replace (N.eqb (_id x) (_id d)) with false; [reflexivity|].
  symmetry; unfold id_taken in Hid.
  rewrite <- not_true_iff_false in Hid.
  apply not_true_iff_false; intros E; apply Hid.
  apply existsb_exists; now exists x.
Qed.

Lemma get_workspace_documents_cases (ws : string) :
  (toLowerCase ws <> "join" ->
   get_workspace_documents ws = Some (workspace_documents ws))
  /\ (toLowerCase ws = "join" -> get_workspace_documents ws = None).
Proof.
  unfold get_workspace_documents.
  destruct (route_get_documents ws) as [[H1 _] [H2 _]].
  split; intros H; [now rewrite (H1 H) | now rewrite (H2 H)].
Qed.

(** X7. After an upload answered 200 with document id [docId] and handle
    [h], the store holds a processed record of the workspace with that id
    and handle. Unless the workspace id reads "join", in which case the
    GET of its documents is the join route's and no listing is made, the
    listing of the workspace shows the record. When [h] is not empty, a
    query of the workspace finds it: with the new id as its only explicit
    id the retrieval worker is given exactly [h], and without ids [h] is
    among the handles it is given. *)
Theorem uploaded_document_is_found
  (w : World) (req : UploadRequest) (db : Db) (message docId h : string) :
  result_of (universal_upload w req db)
  = mkResponse 200 (UploadBody message docId h) ->
  let db' := store_of (universal_upload w req db) in
  exists d ws,
    In d (documents db')
    /\ _id d = next_oid db /\ oid_toString (_id d) = docId
    /\ processed d = true /\ chromaDocumentId d = Some h
    /\ truthyField (up_workspaceId req) = Some ws /\ workspaceId d = ws
    /\ (toLowerCase ws <> "join" ->
        exists listing text docs,
          get_workspace_documents ws = Some listing
          /\ result_of (listing db')
             = mkResponse 200 (DocumentsBody text docs)
          /\ In d docs)
    /\ (toLowerCase ws = "join" -> get_workspace_documents ws = None)
    /\ (truthy h = true ->
        forall w' query,
          truthy query = true ->
          (exists rest,
              events_of (universal_qa w' (mkQa (Some query) (Some [_id d]) (Some ws)) db')
              = Spawned chroma_handler (query_args query [h]) :: rest)
          /\ (exists hs rest,
                 events_of (universal_qa w' (mkQa (Some query) None (Some ws)) db')
                 = Spawned chroma_handler (query_args query hs) :: rest
                 /\ In h hs)).
Proof.
  destruct (up_file req) as [file|] eqn:Hfile.
  2:{ unfold universal_upload; rewrite Hfile; discriminate. }
  destruct (truthyField (up_workspaceId req)) as [ws|] eqn:Hws.
  2:{ unfold universal_upload; rewrite Hfile, Hws; discriminate. }
  rewrite (universal_upload_eq w req file ws Hfile Hws db); cbv zeta.
  set (d := pending w file ws db).
  destruct (negb (valid d)) eqn:Hvalid; [discriminate|].
  destruct (id_taken d (documents db)) eqn:Hid; [discriminate|].
  destruct (embed_outcome _) as [e|h']; [discriminate|].
  destruct (handle_taken _ _); [discriminate|].
  unfold result_of, store_of; cbn [fst snd documents].
  intros H; injection H as _ <- <-.
  assert (Hws' : truthy ws = true).
  { unfold truthyField in Hws; destruct (up_workspaceId req) as [s|];
      [|discriminate].
    destruct (truthy s) eqn:Es; [|discriminate]. now injection Hws as <-. }
  assert (Hin : In (marked h' d) (documents db ++ [marked h' d]))
    by (apply in_or_app; right; now left).
  exists (marked h' d), ws.
  do 7 (split; [first [reflexivity | assumption]|]).
  split; [|split].
  - intros Hjoin.
    exists (workspace_documents ws).
    rewrite workspace_documents_run; cbv zeta.
    eexists _, _; split;
      [exact (proj1 (get_workspace_documents_cases ws) Hjoin)|].
    split; [reflexivity|].
    apply filter_In; split; [assumption|]. cbn; apply String.eqb_refl.
  - exact (proj2 (get_workspace_documents_cases ws)).
  - intros Hh w' query Hquery; split.
    + assert (E : candidate_handles (Some [_id (marked h' d)]) ws
                    (documents db ++ [marked h' d]) = [h']).
      { rewrite candidate_handles_app; unfold candidate_handles at 1.
        change (_id (marked h' d)) with (_id d).
        rewrite (resolved_by_fresh_id ws d _ Hid); cbn [chromaIds app].
        unfold candidate_handles, resolved_records, by_ids, chromaIds,
          filter_Boolean; cbn.
        rewrite N.eqb_refl, String.eqb_refl; cbn. now rewrite Hh. }
      pose proof (universal_qa_cases w'
                    (mkQa (Some query) (Some [_id (marked h' d)]) (Some ws))
                    query ws) as Hqa.
      cbn [qa_query qa_workspaceId qa_documentIds truthyField] in Hqa.
      rewrite Hquery, Hws' in Hqa.
      rewrite (Hqa eq_refl eq_refl); cbv zeta;
        cbn [qa_documentIds documents]; rewrite E.
      destruct (retrieval_outcome _ _) as [e|[|c cs]];
        [| |destruct (generateContent _ _)]; eexists; reflexivity.
    + assert (E : In h' (candidate_handles None ws
                           (documents db ++ [marked h' d]))).
      { rewrite candidate_handles_app; apply in_or_app; right.
        unfold candidate_handles, resolved_records, all_processed, chromaIds,
          filter_Boolean; cbn.
        rewrite String.eqb_refl; cbn. rewrite Hh; now left. }
      pose proof (universal_qa_cases w' (mkQa (Some query) None (Some ws))
                    query ws) as Hqa.
      cbn [qa_query qa_workspaceId qa_documentIds truthyField] in Hqa.
      rewrite Hquery, Hws' in Hqa.
      rewrite (Hqa eq_refl eq_refl); cbv zeta; cbn [qa_documentIds documents].
      destruct (candidate_handles None ws _) as [|x xs] eqn:Ec; [destruct E|].
      exists (x :: xs).
      destruct (retrieval_outcome _ _) as [e|[|c cs]];
        [| |destruct (generateContent _ _)]; eexists; split;
        try reflexivity; assumption.
Qed.

Lemma uploaded_document_is_found_witness :
  let db' := store_of (universal_upload Sample.world_ok Sample.upload_W1 empty_db) in
  exists d ws,
    In d (documents db')
    /\ _id d = next_oid empty_db
    /\ oid_toString (_id d) = "000000000000000000000000"
    /\ processed d = true /\ chromaDocumentId d = Some "vec123"
    /\ truthyField (up_workspaceId Sample.upload_W1) = Some ws
    /\ workspaceId d = ws
    /\ (toLowerCase ws <> "join" ->
        exists listing text docs,
          get_workspace_documents ws = Some listing
          /\ result_of (listing db')
             = mkResponse 200 (DocumentsBody text docs)
          /\ In d docs)
    /\ (toLowerCase ws = "join" -> get_workspace_documents ws = None)
    /\ (truthy "vec123" = true ->
        forall w' query,
          truthy query = true ->
          (exists rest,
              events_of (universal_qa w' (mkQa (Some query) (Some [_id d]) (Some ws)) db')
              = Spawned chroma_handler (query_args query ["vec123"]) :: rest)
          /\ (exists hs rest,
                 events_of (universal_qa w' (mkQa (Some query) None (Some ws)) db')
                 = Spawned chroma_handler (query_args query hs) :: rest
                 /\ In "vec123" hs)).
Proof.
  exact (uploaded_document_is_found Sample.world_ok Sample.upload_W1 empty_db
           "File uploaded and processed successfully!"
           "000000000000000000000000" "vec123" eq_refl).
Defined.

(** An upload into a workspace called "join" is stored, and its record
    cannot be listed. *)
Example upload_into_join_is_not_listed :
  status (result_of (universal_upload Sample.world_ok
                       (mkUpload (Some Sample.report) (Some "join")) empty_db))
  = 200
  /\ get_workspace_documents "join" = None
  /\ route_get "join" "documents" = ToJoin "documents".
Proof. repeat split. Qed.

(** ** The query handler, continued *)

Lemma includes_append_l (a s k : string) :
  includes s k = true -> includes (a ++ s) k = true.
Proof.
  rewrite !includes_iff; intros (pre & post & ->).
  exists (a ++ pre), post; now rewrite append_assoc.
Qed.

Lemma includes_append_r (s b k : string) :
  includes s k = true -> includes (s ++ b) k = true.
Proof.
  rewrite !includes_iff; intros (pre & post & ->).
  exists pre, (post ++ b); now rewrite !append_assoc.
Qed.

Lemma includes_refl (s : string) : includes s s = true.
Proof.
  apply includes_iff; exists EmptyString, EmptyString.
  now rewrite append_empty_r.
Qed.

Lemma join_includes (sep x : string) (l : list string) :
  In x l -> includes (join sep l) x = true.
Proof.
  induction l as [|y l IH]; [intros []|].
  intros [->|Hin].
  - destruct l; cbn [join]; [apply includes_refl|].
    apply includes_append_r, includes_refl.
  - destruct l as [|z l]; [destruct Hin|].
    change (join sep (y :: z :: l)) with (y ++ sep ++ join sep (z :: l)).
    now apply includes_append_l, includes_append_l, IH.
Qed.



(** X9. When the retrieval worker of a query exits with a code other
    than 0, the model is not called; the answer is 500 with the worker's
    failure text, unless the trimmed stderr contains "API key not valid":
    then it is the 401 answer about the Gemini key. *)
Theorem retrieval_failure_answer
  (w : World) (req : QaRequest) (db : Db) (query ws : string)
  (code : option N) (stdout stderr : string) :
  truthyField (qa_query req) = Some query ->
  truthyField (qa_workspaceId req) = Some ws ->
  candidate_handles (qa_documentIds req) ws (documents db) <> [] ->
  spawn_python w chroma_handler
    (query_args query (candidate_handles (qa_documentIds req) ws (documents db)))
  = Exited code stdout stderr ->
  code <> Some 0%N ->
  let failure :=
    "Python script exited with code " ++ showCode code
    ++ ". Stderr: " ++ trim stderr in
  (forall prompt, ~ In (Generated prompt) (events_of (universal_qa w req db)))
  /\ (includes (trim stderr) "API key not valid" = true ->
      result_of (universal_qa w req db)
      = mkResponse 401
          (MessageBody "Gemini API key is invalid or not configured."))
  /\ (includes failure "API key not valid" = false ->
      result_of (universal_qa w req db)
      = mkResponse 500 (ErrorBody "Error getting AI response" failure)).
Proof.
  intros Hq Hw Hne Hspawn Hcode failure.
  rewrite (universal_qa_cases w req query ws Hq Hw db); cbv zeta.
  destruct (candidate_handles _ _ _) as [|h hs]; [congruence|].
  rewrite Hspawn.
  assert (E : retrieval_outcome w (Exited code stdout stderr) = inl failure).
  { unfold retrieval_outcome, settle.
    destruct code as [[|p]|]; [congruence | reflexivity | reflexivity]. }
  rewrite E; unfold result_of, events_of; cbn [fst snd].
  split; [|split].
  - intros prompt [H|[]]; discriminate.
  - intros Hkey; unfold qa_catch.
    replace (includes failure "API key not valid") with true; [reflexivity|].
    symmetry; unfold failure.
    now apply includes_append_l, includes_append_l, includes_append_l.
  - intros Hkey; unfold qa_catch; now rewrite Hkey.
Qed.

Lemma retrieval_failure_answer_witness :
  result_of (universal_qa Scenario.world_key_error Sample.ask_W1 Sample.db_processed)
  = mkResponse 401 (MessageBody "Gemini API key is invalid or not configured.").
Proof.
  refine (proj1 (proj2 (retrieval_failure_answer Scenario.world_key_error
                          Sample.ask_W1 Sample.db_processed
                          "What is the revenue?" "W1" (Some 1%N) EmptyString
                          ("chromadb: API key not valid" ++ nl)
                          eq_refl eq_refl _ eq_refl _)) _).
  - vm_compute; discriminate.
  - discriminate.
  - reflexivity.
Defined.

(** X10. The model is called at most once in a query, after the
    retrieval worker, and only on a non-empty list of passages; its
    prompt is built from these passages in retrieval order and contains
    the query text and the text of every passage. *)
Theorem prompt_is_grounded
  (w : World) (req : QaRequest) (db : Db) (prompt : string) :
  In (Generated prompt) (events_of (universal_qa w req db)) ->
  exists query ws chunks,
    truthyField (qa_query req) = Some query
    /\ truthyField (qa_workspaceId req) = Some ws
    /\ retrieval_outcome w
         (spawn_python w chroma_handler
            (query_args query
               (candidate_handles (qa_documentIds req) ws (documents db))))
       = inr chunks
    /\ chunks <> []
    /\ prompt = llmPrompt (join (nl ++ nl) (map text chunks)) query
    /\ events_of (universal_qa w req db)
       = [Spawned chroma_handler
            (query_args query
               (candidate_handles (qa_documentIds req) ws (documents db)));
          Generated prompt]
    /\ includes prompt query = true
    /\ forall c, In c chunks -> includes prompt (text c) = true.
Proof.
  destruct (truthyField (qa_query req)) as [query|] eqn:Hq.
  2:{ unfold universal_qa; rewrite Hq; intros []. }
  destruct (truthyField (qa_workspaceId req)) as [ws|] eqn:Hw.
  2:{ unfold universal_qa; rewrite Hq, Hw; intros []. }
  rewrite (universal_qa_cases w req query ws Hq Hw db); cbv zeta.
  destruct (candidate_handles _ _ _) as [|h hs] eqn:Ec; [intros []|].
  destruct (retrieval_outcome _ _) as [e|[|c cs]] eqn:Eret;
    try (intros [H|[]]; discriminate).
  assert (Hprompt : forall p,
             p = llmPrompt (join (nl ++ nl) (map text (c :: cs))) query ->
             includes p query = true
             /\ forall x, In x (c :: cs) -> includes p (text x) = true).
  { intros p ->; unfold llmPrompt; split.
    - do 24 apply includes_append_l.
      apply includes_append_r, includes_refl.
    - intros x Hx.
      do 19 apply includes_append_l.
      apply includes_append_r, join_includes, in_map, Hx. }
  destruct (generateContent w _) as [e|a]; unfold events_of; cbn [fst];
    (intros [H|[H|[]]]; [discriminate|]; injection H as <-;
     exists query, ws, (c :: cs); rewrite Ec;
     destruct (Hprompt _ eq_refl) as [P1 P2];
     split; [reflexivity|]; split; [reflexivity|]; split; [exact Eret|];
     split; [discriminate|]; split; [reflexivity|]; split; [reflexivity|];
     split; assumption).
Qed.

Lemma prompt_is_grounded_witness :
  exists query ws chunks,
    truthyField (qa_query Sample.ask_W1) = Some query
    /\ truthyField (qa_workspaceId Sample.ask_W1) = Some ws
    /\ retrieval_outcome Sample.world_ok
         (spawn_python Sample.world_ok chroma_handler
            (query_args query
               (candidate_handles (qa_documentIds Sample.ask_W1) ws
                  (documents Sample.db_processed))))
       = inr chunks
    /\ chunks <> []
    /\ llmPrompt "Revenue was $5M" "What is the revenue?"
       = llmPrompt (join (nl ++ nl) (map text chunks)) query
    /\ events_of (universal_qa Sample.world_ok Sample.ask_W1 Sample.db_processed)
       = [Spawned chroma_handler
            (query_args query
               (candidate_handles (qa_documentIds Sample.ask_W1) ws
                  (documents Sample.db_processed)));
          Generated (llmPrompt "Revenue was $5M" "What is the revenue?")]
    /\ includes (llmPrompt "Revenue was $5M" "What is the revenue?") query = true
    /\ forall c, In c chunks ->
                 includes (llmPrompt "Revenue was $5M" "What is the revenue?")
                          (text c) = true.
Proof.
  apply (prompt_is_grounded Sample.world_ok Sample.ask_W1 Sample.db_processed
           (llmPrompt "Revenue was $5M" "What is the revenue?")).
  vm_compute; right; left; reflexivity.
Defined.

(** ** The handle list given to the retrieval worker *)

Section JoinedHandles.

Lemma append_comma_split (x y s t : string) :
  has_char COMMA x = false -> has_char COMMA y = false ->
  (s = EmptyString \/ exists s', s = String COMMA s') ->
  (t = EmptyString \/ exists t', t = String COMMA t') ->
  x ++ s = y ++ t -> x = y /\ s = t.
Proof.
  revert y; induction x as [|a x IH]; intros y Hx Hy Hs Ht E.
  - destruct y as [|b y]; [now split|].
    cbn [has_char] in Hy; apply orb_false_iff in Hy as [Hb _].
    cbn [append] in E; destruct Hs as [->|(s' & ->)]; [discriminate|].
    injection E as <- _; rewrite Ascii.eqb_refl in Hb; discriminate.
  - cbn [has_char] in Hx; apply orb_false_iff in Hx as [Ha Hx].
    destruct y as [|b y].
    + cbn [append] in E; destruct Ht as [->|(t' & ->)]; [discriminate|].
      injection E as -> _; rewrite Ascii.eqb_refl in Ha; discriminate.
    + cbn [has_char] in Hy; apply orb_false_iff in Hy as [_ Hy].
      cbn [append] in E; injection E as -> E.
      destruct (IH y Hx Hy Hs Ht E) as [-> ->]; now split.
Qed.

Lemma join_cons (sep x : string) (l : list string) :
  join sep (x :: l)
  = x ++ match l with [] => EmptyString | _ :: _ => sep ++ join sep l end.
Proof. destruct l; cbn [join]; [now rewrite append_empty_r | reflexivity]. Qed.

Lemma join_tail_shape (l : list string) :
  let t := match l with
           | [] => EmptyString
           | _ :: _ => "," ++ join "," l
           end in
  t = EmptyString \/ exists t', t = String COMMA t'.
Proof. destruct l; cbn; [now left | right; eexists; reflexivity]. Qed.

Lemma truthy_append (x s : string) : truthy x = true -> truthy (x ++ s) = true.
Proof. now destruct x. Qed.

End JoinedHandles.

(** X11. The comma-separated argument the query handler gives the
    retrieval worker determines the handle list, as long as no handle is
    empty or contains a comma: two such lists with the same joined text
    are equal. (The handler drops empty handles itself; nothing keeps a
    comma out of a handle.) *)
Theorem joined_handles_determine_the_list (l1 l2 : list string) :
  Forall (fun h => truthy h = true /\ has_char COMMA h = false) l1 ->
  Forall (fun h => truthy h = true /\ has_char COMMA h = false) l2 ->
  join "," l1 = join "," l2 ->
  l1 = l2.
Proof.
  intros H1; revert l2; induction H1 as [|x r1 [Hx Hcx] H1 IH];
    intros l2 H2 E.
  - destruct H2 as [|y r2 [Hy _] _]; [reflexivity|].
    rewrite join_cons in E; cbn [join] in E.
    apply (truthy_append y) with (s := match r2 with
                                       | [] => EmptyString
                                       | _ :: _ => "," ++ join "," r2
                                       end) in Hy.
    rewrite <- E in Hy; discriminate.
  - destruct H2 as [|y r2 [Hy Hcy] H2].
    + rewrite join_cons in E; cbn [join] in E.
      apply (truthy_append x) with (s := match r1 with
                                         | [] => EmptyString
                                         | _ :: _ => "," ++ join "," r1
                                         end) in Hx.
      rewrite E in Hx; discriminate.
    + rewrite !join_cons in E.
      apply append_comma_split in E as [-> E];
        try assumption; try apply join_tail_shape.
      f_equal.
      destruct r1 as [|a r1], r2 as [|b r2]; try reflexivity; try discriminate.
      cbn in E; injection E as E.
      exact (IH (b :: r2) H2 E).
Qed.

Lemma joined_handles_determine_the_list_witness : ["vec1"; "vec2"] = ["vec1"; "vec2"].
Proof.
  apply (joined_handles_determine_the_list ["vec1"; "vec2"] ["vec1"; "vec2"]).
  - repeat constructor.
  - repeat constructor.
  - reflexivity.
Defined.

(** A handle with a comma in it: one record gives the argument of two. *)
Example comma_in_a_handle :
  embed_outcome (Exited (Some 0%N) "SUCCESS:a,b" EmptyString) = inr "a,b"
  /\ join "," ["a,b"] = join "," ["a"; "b"].
Proof. split; reflexivity. Qed.

(** ** The knowledge graph route *)

Section KnowledgeGraph.

Context {Json : Type}.
Variable w : World.
Variable parse : string -> string + Json.
Variable bodyWorkspaceId : option string.
Variable ws : string.
Hypothesis Hws : truthyField bodyWorkspaceId = Some ws.

Lemma allProcessedChunks_chromaIds (docs : list DocRecord) :
  allProcessedChunks docs
  = map (fun h => "Placeholder content for doc ID: " ++ h ++ ".") (chromaIds docs).
Proof.
  unfold allProcessedChunks, chromaIds, filter_Boolean.
  induction docs as [|d docs IH]; [reflexivity|].
  cbn [flat_map map]; rewrite IH, map_app; f_equal.
  destruct (chromaDocumentId d) as [h|]; [|reflexivity].
  now destruct (truthy h).
Qed.

(** Every run of the handler on a request with a workspace id. *)
Lemma generate_knowledge_graph_cases (db : Db) :
  let hs := candidate_handles None ws (documents db) in
  let textContext :=
    join (nl ++ nl)
         (map (fun h => "Placeholder content for doc ID: " ++ h ++ ".") hs) in
  generate_knowledge_graph w parse bodyWorkspaceId db
  = match filter (all_processed ws) (documents db) with
    | [] =>
        ([], db,
         Fixed (mkResponse 400 (MessageBody "No processed document found")))
    | _ :: _ =>
        match hs with
        | [] =>
            ([], db,
             Fixed (mkResponse 400 (MessageBody "Could not retrieve content")))
        | _ :: _ =>
            ([Spawned knowledge_graph_generator ["generate_graph"; textContext]],
             db,
             match settle (spawn_python w knowledge_graph_generator
                             ["generate_graph"; textContext]) with
             | inl e =>
                 Fixed (mkResponse 500
                          (ErrorBody "Failed to generate knowledge graph" e))
             | inr pythonOutput =>
                 match parse pythonOutput with
                 | inl e =>
                     Fixed (mkResponse 500
                              (ErrorBody "Failed to generate knowledge graph" e))
                 | inr knowledgeGraph => Parsed 200 knowledgeGraph
                 end
             end)
        end
    end.
Proof.
  intros hs textContext.
  unfold generate_knowledge_graph; rewrite Hws.
  unfold catching, bind, find.
  unfold hs, candidate_handles, resolved_records in textContext |- *.
  cbn [ids_given] in textContext |- *.
  destruct (filter (all_processed ws) (documents db)) as [|d docs];
    [reflexivity|].
  rewrite allProcessedChunks_chromaIds. fold textContext.
  destruct (chromaIds (d :: docs)) as [|h hs'] eqn:Ec; [reflexivity|].
  replace (truthy textContext) with true.
  2:{ symmetry; unfold textContext; cbn [map].
      rewrite join_cons; reflexivity. }
  cbn [negb].
  unfold runPythonScript, await, bind, emit, ret.
  destruct (settle _) as [e|out]; [reflexivity|].
  destruct (parse out); reflexivity.
Qed.

End KnowledgeGraph.

(** X12. The knowledge graph route reads the same candidates as a query
    without ids: with no truthy handle among the processed records of the
    workspace it answers 400 and spawns nothing; otherwise it spawns the
    generator once, on one placeholder line per candidate handle in store
    order, and answers 200 with the parsed output, or 500 with the text
    of the failure of the script or of the parser. It never writes. *)
Theorem knowledge_graph_uses_query_candidates
  {Json : Type} (w : World) (parse : string -> string + Json)
  (bodyWorkspaceId : option string) (ws : string) (db : Db) :
  truthyField bodyWorkspaceId = Some ws ->
  let run := generate_knowledge_graph w parse bodyWorkspaceId db in
  let hs := candidate_handles None ws (documents db) in
  let args :=
    ["generate_graph";
     join (nl ++ nl)
          (map (fun h => "Placeholder content for doc ID: " ++ h ++ ".") hs)] in
  store_of run = db
  /\ (hs = [] ->
      events_of run = []
      /\ exists text, result_of run = Fixed (mkResponse 400 (MessageBody text)))
  /\ (hs <> [] ->
      events_of run = [Spawned knowledge_graph_generator args]
      /\ (forall out json,
             settle (spawn_python w knowledge_graph_generator args) = inr out ->
             parse out = inr json ->
             result_of run = Parsed 200 json)
      /\ (forall e,
             settle (spawn_python w knowledge_graph_generator args) = inl e
             \/ (exists out,
                    settle (spawn_python w knowledge_graph_generator args) = inr out
                    /\ parse out = inl e) ->
             result_of run
             = Fixed (mkResponse 500
                        (ErrorBody "Failed to generate knowledge graph" e)))).
Proof.
  intros Hws run hs args; unfold run.
  rewrite (generate_knowledge_graph_cases w parse bodyWorkspaceId ws Hws db);
    cbv zeta; fold hs; fold args.
  destruct (filter (all_processed ws) (documents db)) as [|d docs] eqn:Ef.
  - assert (Hhs : hs = []).
    { unfold hs, candidate_handles, resolved_records; cbn [ids_given].
      now rewrite Ef. }
    split; [reflexivity|]; split;
      [intros _; split; [reflexivity | eexists; reflexivity]|].
    intros H; contradiction.
  - destruct hs as [|h hs'].
    + split; [reflexivity|]; split;
      [intros _; split; [reflexivity | eexists; reflexivity]|].
      intros H; now contradiction H.
    + split; [reflexivity|]; split; [discriminate|].
      intros _; unfold events_of, result_of; cbn [fst snd].
      split; [reflexivity|]; split.
      * intros out json -> ->; reflexivity.
      * intros e [-> | (out & -> & ->)]; reflexivity.
Qed.

Lemma knowledge_graph_uses_query_candidates_witness :
  result_of (generate_knowledge_graph Sample.world_ok Scenario.parse_one
               (Some "W1") Sample.db_processed)
  = Parsed 200 7.
Proof.
  refine (proj1 (proj2 (proj2 (proj2
            (knowledge_graph_uses_query_candidates Sample.world_ok
               Scenario.parse_one (Some "W1") "W1" Sample.db_processed eq_refl))
            _)) "[...]" 7 eq_refl eq_refl).
  vm_compute; discriminate.
Defined.

Lemma serve_store_invariant (rs : list (World * Request)) (db : Db) :
  Forall handle_iff_processed (documents db) ->
  Forall handle_iff_processed (documents (store_of (serve rs db))).
Proof.
  revert db; induction rs as [|[w r] rs IH]; intros db Hdb; [exact Hdb|].
  cbn [serve].
  destruct (handle_invariant w r db Hdb) as [_ H].
  destruct (handle w r db) as [[ev db'] resp].
  unfold store_of in H; cbn [fst snd] in H.
  specialize (IH db' H).
  destruct (serve rs db') as [[ev' db''] resps].
  exact IH.
Qed.

Lemma handles_filter_incl (p : DocRecord -> bool) (l : list DocRecord) (h : string) :
  In h (handles (filter p l)) -> In h (handles l).
Proof.
  induction l as [|x l IH]; [intros []|].
  change (handles (x :: l))
    with ((match chromaDocumentId x with Some h0 => [h0] | None => [] end)
            ++ handles l)%list.
  cbn [filter]; destruct (p x).
  - change (handles (x :: filter p l))
      with ((match chromaDocumentId x with Some h0 => [h0] | None => [] end)
              ++ handles (filter p l))%list.
    rewrite !in_app_iff; intros [H|H]; auto.
  - rewrite in_app_iff; auto.
Qed.

Lemma NoDup_handles_filter (p : DocRecord -> bool) (l : list DocRecord) :
  NoDup (handles l) -> NoDup (handles (filter p l)).
Proof.
  induction l as [|x l IH]; [intros _; constructor|].
  change (handles (x :: l))
    with ((match chromaDocumentId x with Some h0 => [h0] | None => [] end)
            ++ handles l)%list.
  cbn [filter]; destruct (p x).
  - change (handles (x :: filter p l))
      with ((match chromaDocumentId x with Some h0 => [h0] | None => [] end)
              ++ handles (filter p l))%list.
    destruct (chromaDocumentId x) as [h|]; cbn [app]; [|exact IH].
    intros H; inversion H as [|? ? Hnin Hnd]; subst.
    constructor; [|now apply IH].
    intros Hin; apply Hnin; now apply handles_filter_incl in Hin.
  - destruct (chromaDocumentId x) as [h|]; cbn [app]; [|exact IH].
    intros H; inversion H; subst; now apply IH.
Qed.

Lemma truthy_false (s : string) : truthy s = false -> s = EmptyString.
Proof. destruct s; [reflexivity | discriminate]. Qed.

(** X13. On a store the server has reached from the empty one, the
    knowledge graph route answers "Could not retrieve content" only in
    one situation: the workspace has exactly one processed record and its
    handle is the empty string. *)
Theorem could_not_retrieve_means_blank_handle
  {Json : Type} (rs : list (World * Request)) (w : World)
  (parse : string -> string + Json) (bodyWorkspaceId : option string)
  (ws : string) :
  truthyField bodyWorkspaceId = Some ws ->
  let db := store_of (serve rs empty_db) in
  result_of (generate_knowledge_graph w parse bodyWorkspaceId db)
  = Fixed (mkResponse 400 (MessageBody "Could not retrieve content")) ->
  exists d,
    filter (all_processed ws) (documents db) = [d]
    /\ chromaDocumentId d = Some EmptyString.
Proof.
  intros Hws db.
  rewrite (generate_knowledge_graph_cases w parse bodyWorkspaceId ws Hws db);
    cbv zeta.
  pose proof (serve_store_invariant rs empty_db (Forall_nil _)) as Hinv.
  destruct (ids_and_handles_are_keys_store rs) as (_ & Hnd & _).
  fold db in Hinv, Hnd.
  unfold candidate_handles, resolved_records; cbn [ids_given].
  pose proof (NoDup_handles_filter (all_processed ws) _ Hnd) as HndL.
  assert (Hall : forall x,
             In x (filter (all_processed ws) (documents db)) ->
             processed x = true /\ handle_iff_processed x).
  { intros x Hx; apply filter_In in Hx as [Hx Hp].
    unfold all_processed in Hp; apply andb_true_iff in Hp as [_ Hp].
    rewrite Forall_forall in Hinv; auto. }
  destruct (filter (all_processed ws) (documents db)) as [|d docs];
    [discriminate|].
  destruct (chromaIds (d :: docs)) as [|h hs] eqn:Ec.
  2:{ unfold result_of; cbn [snd].
      destruct (settle _) as [e|out]; [discriminate|].
      destruct (parse out); discriminate. }
  intros _.
  assert (Hblank : forall x, In x (d :: docs) ->
                             chromaDocumentId x = Some EmptyString).
  { intros x Hx; destruct (Hall x Hx) as [Hp Hiff].
    destruct (chromaDocumentId x) as [h|] eqn:Eh.
    2:{ apply Hiff in Hp; congruence. }
    f_equal; apply truthy_false.
    destruct (truthy h) eqn:Et; [|reflexivity].
    assert (Hin : In h (chromaIds (d :: docs))).
    { unfold chromaIds, filter_Boolean.
      apply in_flat_map; exists (Some h); split.
      - rewrite <- Eh; now apply in_map.
      - rewrite Et; now left. }
    rewrite Ec in Hin; destruct Hin. }
  exists d; split; [|apply Hblank; now left].
  destruct docs as [|d' docs]; [reflexivity|].
  exfalso.
  change (handles (d :: d' :: docs))
    with ((match chromaDocumentId d with Some h0 => [h0] | None => [] end)
            ++ (match chromaDocumentId d' with Some h0 => [h0] | None => [] end)
            ++ handles docs)%list in HndL.
  rewrite (Hblank d), (Hblank d') in HndL by (cbn; auto).
  cbn [app] in HndL; inversion HndL as [|? ? Hnin _]; subst.
  apply Hnin; now left.
Qed.

Lemma could_not_retrieve_means_blank_handle_witness :
  exists d,
    filter (all_processed "W1")
           (documents (store_of (serve [(Sample.world_blank,
                                         Upload Sample.upload_W1)] empty_db)))
    = [d]
    /\ chromaDocumentId d = Some EmptyString.
Proof.
  apply (could_not_retrieve_means_blank_handle
           [(Sample.world_blank, Upload Sample.upload_W1)]
           Sample.world_blank Scenario.parse_one (Some "W1") "W1").
  - reflexivity.
  - reflexivity.
Defined.

(** ** The agent route *)

Lemma agent_run_cases
  {Json : Type} (w : World) (parse : string -> string + Json)
  (bodyGoal : option string) (goal : string) (db : Db) :
  truthyField bodyGoal = Some goal ->
  agent_run w parse bodyGoal db
  = ([Spawned langgraph_agent ["run_agent"; goal]], db,
     match settle (spawn_python w langgraph_agent ["run_agent"; goal]) with
     | inl e => Fixed (mkResponse 500 (ErrorBody "Failed to run agent." e))
     | inr pythonOutput =>
         match parse pythonOutput with
         | inl e => Fixed (mkResponse 500 (ErrorBody "Failed to run agent." e))
         | inr result => Parsed 200 result
         end
     end).
Proof.
  intros Hgoal; unfold agent_run; rewrite Hgoal.
  unfold runPythonScript, await, catching, bind, emit, ret.
  destruct (settle _) as [e|out]; [reflexivity|].
  destruct (parse out); reflexivity.
Qed.

(** X14. The agent route rejects a missing or empty goal with 400
    without starting the script. Otherwise it spawns the agent script
    once with the goal as its argument and answers 200 with the parsed
    output exactly when the script exits with code 0 and its trimmed
    stdout parses. Every other outcome is the 500 answer "Failed to run
    agent." with the text of the failure: the exit code and the trimmed
    stderr of a script that does not exit with 0, the error of a script
    that does not start, the error of the parser. It never touches the
    store. *)
Theorem agent_run_outcome
  {Json : Type} (w : World) (parse : string -> string + Json)
  (bodyGoal : option string) (db : Db) :
  let run := agent_run w parse bodyGoal db in
  let failed e := Fixed (mkResponse 500 (ErrorBody "Failed to run agent." e)) in
  store_of run = db
  /\ (truthyField bodyGoal = None ->
      events_of run = []
      /\ result_of run
         = Fixed (mkResponse 400
                    (MessageBody "A goal is required to run the agent.")))
  /\ (forall goal,
         truthyField bodyGoal = Some goal ->
         let ended := spawn_python w langgraph_agent ["run_agent"; goal] in
         events_of run = [Spawned langgraph_agent ["run_agent"; goal]]
         /\ (forall json,
                result_of run = Parsed 200 json <->
                exists stdout stderr,
                  ended = Exited (Some 0%N) stdout stderr
                  /\ parse (trim stdout) = inr json)
         /\ (forall code stdout stderr,
                ended = Exited code stdout stderr ->
                code <> Some 0%N ->
                result_of run
                = failed ("Python script exited with code " ++ showCode code
                          ++ ". Stderr: " ++ trim stderr))
         /\ (forall message,
                ended = SpawnFailed message ->
                result_of run
                = failed ("Failed to start Python script: " ++ message))
         /\ (forall stdout stderr e,
                ended = Exited (Some 0%N) stdout stderr ->
                parse (trim stdout) = inl e ->
                result_of run = failed e)).
Proof.
  intros run failed; unfold run, failed.
  destruct (truthyField bodyGoal) as [goal|] eqn:Hgoal.
  2:{ unfold agent_run; rewrite Hgoal.
      split; [reflexivity|]; split; [now split | discriminate]. }
  rewrite (agent_run_cases w parse bodyGoal goal db Hgoal).
  unfold store_of, events_of, result_of; cbn [fst snd].
  split; [reflexivity|]; split; [discriminate|].
  intros g Hg; injection Hg as <-; cbv zeta.
  split; [reflexivity|].
  destruct (spawn_python w langgraph_agent ["run_agent"; goal])
    as [code stdout stderr|m]; cbn [settle].
  - assert (Hzero : code = Some 0%N \/ code <> Some 0%N).
    { destruct code as [n|]; [|right; discriminate].
      destruct (N.eq_dec n 0) as [->|Hn]; [now left | right; congruence]. }
    destruct Hzero as [->|Hcode].
    + destruct (parse (trim stdout)) as [e|json] eqn:Eparse;
        (split; [|split; [|split]]).
      * intros json; split; [discriminate|].
        intros (so & se & H & Hp); injection H as <- _; congruence.
      * intros code so se H Hc; injection H as <- _ _; congruence.
      * discriminate.
      * intros so se e0 H Hp; injection H as <- _; congruence.
      * intros json'; split.
        -- intros H; injection H as <-; now exists stdout, stderr.
        -- intros (so & se & H & Hp); injection H as <- _; congruence.
      * intros code so se H Hc; injection H as <- _ _; congruence.
      * discriminate.
      * intros so se e0 H Hp; injection H as <- _; congruence.
    + assert (E : match code with
                  | Some 0%N => inr (trim stdout)
                  | _ => inl ("Python script exited with code " ++ showCode code
                              ++ ". Stderr: " ++ trim stderr)
                  end
                  = @inl string string
                      ("Python script exited with code " ++ showCode code
                       ++ ". Stderr: " ++ trim stderr)).
      { destruct code as [[|p]|]; try reflexivity. congruence. }
      rewrite E; split; [|split; [|split]].
      * intros json; split; [discriminate|].
        intros (so & se & H & _); injection H as Hc _ _; congruence.
      * intros c so se H _; now injection H as <- _ <-.
      * discriminate.
      * intros so se e0 H; injection H as Hc _ _; congruence.
  - split; [|split; [|split]].
    + intros json; split; [discriminate|].
      intros (so & se & H & _); discriminate.
    + discriminate.
    + intros message H; now injection H as <-.
    + discriminate.
Qed.

Lemma agent_run_outcome_witness :
  result_of (agent_run Sample.world_fail Scenario.parse_one
               (Some "summarise the report") empty_db)
  = Fixed (mkResponse 500
             (ErrorBody "Failed to run agent."
                        "Python script exited with code 1. Stderr: boom")).
Proof.
  refine (proj1 (proj2 (proj2 (proj2 (proj2 (agent_run_outcome Sample.world_fail
                                       Scenario.parse_one
                                       (Some "summarise the report") empty_db))
                             "summarise the report" eq_refl)))
                (Some 1%N) "FAILURE:no text" " boom " eq_refl _).
  discriminate.
Defined.

(** The script prints a JSON text and the route answers with its value;
    it prints something else and the route reports the parser's error. *)
Example agent_run_parses_the_output :
  result_of (agent_run Scenario.world_agent Scenario.parse_array
               (Some "summarise the report") empty_db)
  = Parsed 200 [7; 8]
  /\ result_of (agent_run Sample.world_fail Scenario.parse_array
                  (Some "summarise the report") empty_db)
     = Fixed (mkResponse 500
                (ErrorBody "Failed to run agent."
                           "Python script exited with code 1. Stderr: boom"))
  /\ result_of (agent_run Sample.world_ok Scenario.parse_array
                  (Some "summarise the report") empty_db)
     = Fixed (mkResponse 500
                (ErrorBody "Failed to run agent." "Unexpected token . in JSON")).
Proof. repeat split. Qed.

(* ================================================================== *)
(** * The workspace routes *)
(* ================================================================== *)

Section Workspaces.

Lemma find_none_iff {A} (p : A -> bool) (l : list A) :
  List.find p l = None <-> forall x, In x l -> p x = false.
Proof.
  induction l as [|a l IH]; cbn.
  - split; [intros _ x [] | reflexivity].
  - destruct (p a) eqn:E; split.
    + discriminate.
    + intros H; specialize (H a (or_introl eq_refl)); congruence.
    + intros H x [<-|Hx]; [assumption | now apply IH].
    + intros H; apply IH; auto.
Qed.

Lemma existsb_false_iff {A} (p : A -> bool) (l : list A) :
  existsb p l = false <-> forall x, In x l -> p x = false.
Proof.
  induction l as [|a l IH]; cbn.
  - split; [intros _ x [] | reflexivity].
  - rewrite orb_false_iff, IH; split.
    + intros [Ha H] x [<-|Hx]; auto.
    + intros H; split; auto.
Qed.

Lemma find_app_first {A} (p : A -> bool) (pre post : list A) (x : A) :
  (forall y, In y pre -> p y = false) -> p x = true ->
  List.find p (pre ++ x :: post) = Some x.
Proof.
  intros Hpre Hx; induction pre as [|a pre IH]; cbn.
  - now rewrite Hx.
  - rewrite (Hpre a (or_introl eq_refl)); apply IH; intros; apply Hpre; now right.
Qed.

(** What a creation that is answered 201 has done. *)
Lemma workspace_create_201 (w : SqlWorld) (workspaceName : option string)
      (s s' : Sql) (message id link : string) :
  workspace_create w workspaceName s
  = (s', mkWsResponse 201 (WsCreated message id link)) ->
  exists name,
    truthyField workspaceName = Some name
    /\ id = uuid_id w /\ link = uuid_link w
    /\ s' = mkSql (users s)
                  (workspaces s
                   ++ [mkWorkspace id name placeholder_owner link None
                                   (sql_now w) (sql_now w)])
    /\ refuses_workspace w (mkWorkspace id name placeholder_owner link None
                                        (sql_now w) (sql_now w)) = false
    /\ (forall r, In r (workspaces s) ->
                  String.eqb (workspace_id r) id = false
                  /\ collate w (inviteLink r) link = false)
    /\ exists u, In u (users s) /\ user_id u = placeholder_owner.
Proof.
  unfold workspace_create.
  destruct (truthyField workspaceName) as [name|]; [|discriminate].
  cbv zeta; unfold insert_workspace; cbn [workspace_id inviteLink ownerId].
  destruct (refuses_workspace w _) eqn:Eref; [discriminate|].
  destruct (existsb _ (workspaces s) || existsb _ (workspaces s)) eqn:Euniq;
    [discriminate|].
  destruct (negb (existsb _ (users s))) eqn:Efk; [discriminate|].
  intros H; injection H as <- _ <- <-.
  exists name; repeat split; try assumption.
  - apply orb_false_iff in Euniq as [E1 _].
    rewrite existsb_false_iff in E1; now apply E1.
  - apply orb_false_iff in Euniq as [_ E2].
    rewrite existsb_false_iff in E2; now apply E2.
  - apply negb_false_iff, existsb_exists in Efk as (u & Hu & E).
    exists u; split; [assumption | now apply String.eqb_eq].
Qed.

Lemma workspace_route_appends (w : SqlWorld) (r : WorkspaceRequest) (s : Sql) :
  users (fst (workspace_route w r s)) = users s
  /\ exists tail,
      workspaces (fst (workspace_route w r s)) = (workspaces s ++ tail)%list.
Proof.
  destruct r as [workspaceName|link]; cbn [workspace_route].
  - unfold workspace_create.
    destruct (truthyField workspaceName) as [name|];
      [|split; [reflexivity | exists []; now rewrite app_nil_r]].
    cbv zeta; unfold insert_workspace.
    destruct (refuses_workspace w _);
      [split; [reflexivity | exists []; now rewrite app_nil_r]|].
    destruct (existsb _ _ || existsb _ _);
      [split; [reflexivity | exists []; now rewrite app_nil_r]|].
    destruct (negb _);
      [split; [reflexivity | exists []; now rewrite app_nil_r]|].
    split; [reflexivity | eexists; reflexivity].
  - unfold workspace_join; destruct (findOne_inviteLink w link s);
      (split; [reflexivity | exists []; now rewrite app_nil_r]).
Qed.

Lemma serve_workspaces_appends (rs : list (SqlWorld * WorkspaceRequest)) (s : Sql) :
  users (serve_workspaces rs s) = users s
  /\ exists tail,
      workspaces (serve_workspaces rs s) = (workspaces s ++ tail)%list.
Proof.
  revert s; induction rs as [|[w r] rs IH]; intros s; cbn [serve_workspaces].
  - split; [reflexivity | exists []; now rewrite app_nil_r].
  - destruct (workspace_route_appends w r s) as (Hu & t & Ht).
    destruct (IH (fst (workspace_route w r s))) as (Hu' & t' & Ht').
    split; [congruence|].
    exists (t ++ t')%list; now rewrite Ht', Ht, app_assoc.
Qed.

End Workspaces.

(** X15. An invite link keeps leading to the workspace it was created
    for: once a creation is answered 201 with an id and a link, joining
    by that link answers 200 with the same id and the given name, right
    away and after any further creations and joins, provided the server
    compares links the same way throughout and finds a link equal to
    itself. *)
Theorem invite_link_leads_to_its_workspace
  (w : SqlWorld) (workspaceName : option string) (s s' : Sql)
  (message id link : string)
  (rs : list (SqlWorld * WorkspaceRequest)) (w' : SqlWorld) :
  workspace_create w workspaceName s
  = (s', mkWsResponse 201 (WsCreated message id link)) ->
  collate w link link = true ->
  collate w' = collate w ->
  exists name,
    truthyField workspaceName = Some name
    /\ workspace_join w' link (serve_workspaces rs s')
       = (serve_workspaces rs s',
          mkWsResponse 200 (WsFound "Workspace found." id name link)).
Proof.
  intros Hcreate Hrefl Hsame.
  destruct (workspace_create_201 _ _ _ _ _ _ _ Hcreate)
    as (name & Hname & _ & _ & -> & _ & Hfresh & _).
  exists name; split; [assumption|].
  destruct (serve_workspaces_appends rs
              (mkSql (users s)
                     (workspaces s
                      ++ [mkWorkspace id name placeholder_owner link None
                                      (sql_now w) (sql_now w)])))
    as (_ & tail & Htail).
  unfold workspace_join, findOne_inviteLink.
  rewrite Htail; cbn [workspaces]; rewrite <- app_assoc; cbn [app].
  rewrite (find_app_first _ (workspaces s) tail
             (mkWorkspace id name placeholder_owner link None
                          (sql_now w) (sql_now w))).
  - reflexivity.
  - intros y Hy; rewrite Hsame; now apply Hfresh.
  - cbn [inviteLink]; now rewrite Hsame.
Qed.

Lemma invite_link_leads_to_its_workspace_witness :
  exists name,
    truthyField (Some "Research") = Some name
    /\ workspace_join (Scenario.sql_world "id-3" "link-3") "link-1"
         (serve_workspaces
            [(Scenario.sql_world "id-2" "link-2", Create (Some "Other"))]
            (fst (workspace_create (Scenario.sql_world "id-1" "link-1")
                    (Some "Research") Scenario.seeded)))
       = (serve_workspaces
            [(Scenario.sql_world "id-2" "link-2", Create (Some "Other"))]
            (fst (workspace_create (Scenario.sql_world "id-1" "link-1")
                    (Some "Research") Scenario.seeded)),
          mkWsResponse 200 (WsFound "Workspace found." "id-1" name "link-1")).
Proof.
  apply (invite_link_leads_to_its_workspace
           (Scenario.sql_world "id-1" "link-1") (Some "Research")
           Scenario.seeded _ "Workspace created successfully!" "id-1" "link-1"
           [(Scenario.sql_world "id-2" "link-2", Create (Some "Other"))]
           (Scenario.sql_world "id-3" "link-3")).
  - reflexivity.
  - reflexivity.
  - reflexivity.
Defined.

(** X16. A creation is answered 201 exactly when the name is given and
    not empty, the placeholder owner exists, no workspace has the new id
    or an equal invite link, and the server does not refuse the row; it
    is answered 400 exactly when the name is missing or empty, and 500
    otherwise. Only a creation answered 201 changes the table, and it
    adds one row, owned by the placeholder user, at the end. *)
Theorem workspace_create_outcome
  (w : SqlWorld) (workspaceName : option string) (s : Sql) :
  let run := workspace_create w workspaceName s in
  (ws_status (snd run) = 201 <->
   exists name,
     truthyField workspaceName = Some name
     /\ refuses_workspace w
          (mkWorkspace (uuid_id w) name placeholder_owner (uuid_link w) None
                       (sql_now w) (sql_now w)) = false
     /\ (forall r, In r (workspaces s) ->
                   workspace_id r <> uuid_id w
                   /\ collate w (inviteLink r) (uuid_link w) = false)
     /\ exists u, In u (users s) /\ user_id u = placeholder_owner)
  /\ (ws_status (snd run) = 400 <-> truthyField workspaceName = None)
  /\ (ws_status (snd run) = 201 \/ ws_status (snd run) = 400
      \/ ws_status (snd run) = 500)
  /\ (ws_status (snd run) <> 201 -> fst run = s)
  /\ (ws_status (snd run) = 201 ->
      exists name,
        truthyField workspaceName = Some name
        /\ fst run
           = mkSql (users s)
                   (workspaces s
                    ++ [mkWorkspace (uuid_id w) name placeholder_owner
                                    (uuid_link w) None (sql_now w) (sql_now w)])
        /\ snd run
           = mkWsResponse 201
               (WsCreated "Workspace created successfully!"
                          (uuid_id w) (uuid_link w))).
Proof.
  intros run; unfold run, workspace_create.
  destruct (truthyField workspaceName) as [name|]; cbn [fst snd ws_status].
  2:{ repeat split; auto; try discriminate.
      intros (n & H & _); discriminate. }
  cbv zeta; unfold insert_workspace; cbn [workspace_id inviteLink ownerId].
  set (row := mkWorkspace (uuid_id w) name placeholder_owner (uuid_link w)
                          None (sql_now w) (sql_now w)).
  destruct (refuses_workspace w row) eqn:Eref; cbn [fst snd ws_status].
  { repeat split; auto; try discriminate.
    intros (n & H & Hr & _); injection H as <-; fold row in Hr; congruence. }
  destruct (existsb (fun r => String.eqb (workspace_id r) (uuid_id w))
                    (workspaces s)) eqn:Eid; cbn [orb fst snd ws_status].
  { repeat split; auto; try discriminate.
    intros (n & _ & _ & Hf & _).
    apply existsb_exists in Eid as (r & Hr & E); apply String.eqb_eq in E.
    destruct (Hf r Hr) as [Hne _]; contradiction. }
  destruct (existsb (fun r => collate w (inviteLink r) (uuid_link w))
                    (workspaces s)) eqn:Elink; cbn [fst snd ws_status].
  { repeat split; auto; try discriminate.
    intros (n & _ & _ & Hf & _).
    apply existsb_exists in Elink as (r & Hr & E).
    destruct (Hf r Hr) as [_ Hne]; congruence. }
  destruct (existsb (fun u => String.eqb (user_id u) placeholder_owner)
                    (users s)) eqn:Efk; cbn [negb fst snd ws_status].
  2:{ repeat split; auto; try discriminate.
      intros (n & _ & _ & _ & u & Hu & E).
      rewrite existsb_false_iff in Efk; specialize (Efk u Hu).
      rewrite E, String.eqb_refl in Efk; discriminate. }
  repeat split; auto; try discriminate; try contradiction.
  - intros _; exists name; repeat split; try assumption.
    + rewrite existsb_false_iff in Eid; specialize (Eid r H).
      now apply String.eqb_neq.
    + rewrite existsb_false_iff in Elink; now apply Elink.
    + apply existsb_exists in Efk as (u & Hu & E).
      exists u; split; [assumption | now apply String.eqb_eq].
  - intros _; exists name; repeat split.
Qed.

(** X17. When the start of the server does not exit, the placeholder
    owner exists afterwards and no workspace was touched; at most one
    user was added, and none if the owner was there before. Starting
    again changes nothing, and the owner is still there after any
    requests to the workspace routes, so that a creation never fails for
    want of its owner. *)
Theorem startup_seeds_the_owner (w : SqlWorld) (s s' : Sql) :
  startup w s = Some s' ->
  (exists u, In u (users s') /\ user_id u = placeholder_owner)
  /\ workspaces s' = workspaces s
  /\ (exists tail, users s' = (users s ++ tail)%list /\ List.length tail <= 1)
  /\ ((exists u, In u (users s) /\ user_id u = placeholder_owner) -> s' = s)
  /\ (forall w2, sync_fails w2 = false -> startup w2 s' = Some s')
  /\ (forall rs,
         exists u,
           In u (users (serve_workspaces rs s')) /\ user_id u = placeholder_owner).
Proof.
  unfold startup.
  destruct (sync_fails w); [discriminate|].
  assert (Hfound : forall t u,
             findByPk placeholder_owner t = Some u ->
             In u (users t) /\ user_id u = placeholder_owner).
  { intros t u H; unfold findByPk in H; apply find_some in H as [Hin E].
    split; [assumption | now apply String.eqb_eq]. }
  assert (Hexists : forall t,
             (exists u, In u (users t) /\ user_id u = placeholder_owner) ->
             exists u, findByPk placeholder_owner t = Some u).
  { intros t (u & Hu & E); unfold findByPk.
    destruct (List.find _ (users t)) as [x|] eqn:Ef; [now exists x|].
    rewrite find_none_iff in Ef; specialize (Ef u Hu).
    rewrite E, String.eqb_refl in Ef; discriminate. }
  assert (Hgoal : forall t,
             (exists u, In u (users t) /\ user_id u = placeholder_owner) ->
             (forall w2, sync_fails w2 = false -> startup w2 t = Some t)
             /\ (forall rs,
                    exists u,
                      In u (users (serve_workspaces rs t))
                      /\ user_id u = placeholder_owner)).
  { intros t Ht; split.
    - intros w2 Hsync; unfold startup; rewrite Hsync.
      destruct (Hexists t Ht) as (u & ->); reflexivity.
    - intros rs; destruct (serve_workspaces_appends rs t) as [-> _]; exact Ht. }
  destruct (findByPk placeholder_owner s) as [existingUser|] eqn:Efind.
  - intros H; injection H as <-.
    pose proof (Hfound s _ Efind) as Hu.
    assert (Hs : exists u, In u (users s) /\ user_id u = placeholder_owner)
      by now exists existingUser.
    destruct (Hgoal s Hs) as [G1 G2].
    repeat split; auto.
    exists []; rewrite app_nil_r; auto.
  - unfold insert_user.
    destruct (refuses_user w _); [discriminate|].
    destruct (existsb _ (users s)); [discriminate|].
    intros H; injection H as <-; cbn [users workspaces].
    assert (Hs : exists u,
               In u (users (mkSql (users s ++ [placeholder_user w]) (workspaces s)))
               /\ user_id u = placeholder_owner).
    { exists (placeholder_user w); split; [|reflexivity].
      cbn [users]; apply in_or_app; right; now left. }
    destruct (Hgoal _ Hs) as [G1 G2].
    repeat split; auto.
    + eexists; split; [reflexivity | auto].
    + intros Hold; destruct (Hexists s Hold) as (u & E); congruence.
Qed.

Lemma startup_seeds_the_owner_witness :
  (exists u, In u (users Scenario.seeded) /\ user_id u = placeholder_owner)
  /\ workspaces Scenario.seeded = workspaces (mkSql [] [])
  /\ (exists tail,
         users Scenario.seeded = (users (mkSql [] []) ++ tail)%list
         /\ List.length tail <= 1)
  /\ ((exists u, In u (users (mkSql [] [])) /\ user_id u = placeholder_owner) ->
      Scenario.seeded = mkSql [] [])
  /\ (forall w2, sync_fails w2 = false ->
                 startup w2 Scenario.seeded = Some Scenario.seeded)
  /\ (forall rs,
         exists u,
           In u (users (serve_workspaces rs Scenario.seeded))
           /\ user_id u = placeholder_owner).
Proof.
  apply (startup_seeds_the_owner (Scenario.sql_world "id-1" "link-1")
           (mkSql [] []) Scenario.seeded).
  reflexivity.
Defined.

(** X18. Joining never writes. It is answered 404 exactly when no
    workspace has an invite link the server finds equal to the given one;
    otherwise the answer is 200 with the id, name and link of the first
    such workspace in the table. *)
Theorem workspace_join_outcome (w : SqlWorld) (link : string) (s : Sql) :
  let run := workspace_join w link s in
  fst run = s
  /\ (ws_status (snd run) = 404 <->
      forall r, In r (workspaces s) -> collate w (inviteLink r) link = false)
  /\ (ws_status (snd run) <> 404 ->
      exists pre r post,
        workspaces s = (pre ++ r :: post)%list
        /\ (forall x, In x pre -> collate w (inviteLink x) link = false)
        /\ collate w (inviteLink r) link = true
        /\ snd run
           = mkWsResponse 200
               (WsFound "Workspace found." (workspace_id r) (workspace_name r)
                        (inviteLink r))).
Proof.
  intros run; unfold run, workspace_join, findOne_inviteLink.
  destruct (List.find _ (workspaces s)) as [r|] eqn:Ef; cbn [fst snd ws_status].
  - split; [reflexivity|]; split.
    + split; [discriminate|].
      intros H; apply find_some in Ef as [Hin E].
      rewrite (H r Hin) in E; discriminate.
    + intros _.
      revert Ef; generalize (workspaces s) as l.
      induction l as [|a l IH]; cbn [List.find]; [discriminate|].
      destruct (collate w (inviteLink a) link) eqn:Ea.
      * intros H; injection H as ->.
        exists [], r, l; repeat split; [intros x [] | assumption].
      * intros H; destruct (IH H) as (pre & r' & post & -> & Hpre & Hr & Hres).
        exists (a :: pre), r', post; repeat split; try assumption.
        intros x [<-|Hx]; auto.
  - split; [reflexivity|]; split.
    + split; [intros _; now apply find_none_iff | reflexivity].
    + intros H; now contradiction H.
Qed.

(* ================================================================== *)
(** * The port of the MySQL connection *)
(* ================================================================== *)

Section Port.

Lemma digit_char (c : ascii) :
  isDigit c = true ->
  isWhiteSpace c = false /\ Ascii.eqb c "-" = false /\ Ascii.eqb c "+" = false.
Proof.
  destruct c as [[|] [|] [|] [|] [|] [|] [|] [|]]; cbv; intros H;
    try discriminate; repeat split.
Qed.

Lemma digits_of_uint (d : Decimal.uint) (rest : string) :
  digits (DecimalString.NilEmpty.string_of_uint d ++ rest)
  = DecimalString.NilEmpty.string_of_uint d ++ digits rest.
Proof.
  induction d; cbn [DecimalString.NilEmpty.string_of_uint append];
    [reflexivity|..];
    (change (digits (String ?c ?s)) with (String c (digits s)) || cbn [digits]);
    cbn; now rewrite IHd.
Qed.

Lemma uint_first_digit (d : Decimal.uint) :
  d <> Decimal.Nil ->
  exists c t,
    DecimalString.NilEmpty.string_of_uint d = String c t /\ isDigit c = true.
Proof.
  destruct d; [congruence|..]; intros _; eexists _, _; split; reflexivity.
Qed.

Lemma to_uint_nonnil (n : N) : N.to_uint n <> Decimal.Nil.
Proof.
  destruct n; cbn; [discriminate | apply DecimalPos.Unsigned.to_uint_nonnil].
Qed.

Lemma showN_unfold (n : N) :
  showN n = DecimalString.NilEmpty.string_of_uint (N.to_uint n).
Proof.
  unfold showN, DecimalString.NilZero.string_of_uint.
  pose proof (to_uint_nonnil n); now destruct (N.to_uint n).
Qed.

Lemma parseInt10_showN (n : N) (rest : string) :
  digits rest = EmptyString ->
  parseInt10 (showN n ++ rest)
  = if (n <=? 9007199254740992)%N then Int false n else Beyond false.
Proof.
  intros Hrest; unfold parseInt10.
  rewrite showN_unfold.
  destruct (uint_first_digit _ (to_uint_nonnil n)) as (c & t & E & Hc).
  destruct (digit_char c Hc) as (Hw & Hm & Hp).
  assert (Hstrip : strip_sign
                     (trimStart
                        (DecimalString.NilEmpty.string_of_uint (N.to_uint n)
                         ++ rest))
                   = (false,
                      DecimalString.NilEmpty.string_of_uint (N.to_uint n)
                      ++ rest)).
  { rewrite E; cbn [append trimStart]; rewrite Hw.
    cbn [strip_sign]; now rewrite Hm, Hp. }
  rewrite Hstrip, digits_of_uint, Hrest, append_empty_r.
  rewrite <- showN_unfold; unfold showN.
  rewrite DecimalString.NilZero.usu by apply to_uint_nonnil.
  cbv zeta; now rewrite DecimalN.Unsigned.of_to.
Qed.

End Port.

(** X19. The port of the MySQL connection is never [NaN] and never 0: it
    is 3306 when [MYSQL_PORT] is unset and when the text starts, after
    white space and a sign, with no digit or denotes zero. A decimal
    numeral from 1 to 2^53, followed by nothing or by text that does not
    start with a digit, gives exactly that number. *)
Theorem mysql_port_default (MYSQL_PORT : option string) :
  mysql_port MYSQL_PORT <> NaN
  /\ (forall negative, mysql_port MYSQL_PORT <> Int negative 0)
  /\ mysql_port None = Int false 3306
  /\ (forall s,
         digits (snd (strip_sign (trimStart s))) = EmptyString ->
         mysql_port (Some s) = Int false 3306)
  /\ (forall rest, digits rest = EmptyString ->
                   mysql_port (Some ("0" ++ rest)) = Int false 3306)
  /\ (forall n rest,
         (1 <= n <= 9007199254740992)%N ->
         digits rest = EmptyString ->
         mysql_port (Some (showN n ++ rest)) = Int false n).
Proof.
  split; [|split; [|split; [|split; [|split]]]].
  - unfold mysql_port; destruct (parseInt10 _) as [|neg [|p]|neg]; discriminate.
  - intros negative; unfold mysql_port.
    destruct (parseInt10 _) as [|neg [|p]|neg]; discriminate.
  - reflexivity.
  - intros s Hs; unfold mysql_port, parseInt10.
    destruct (strip_sign (trimStart s)) as [neg rest]; cbn [snd] in Hs.
    now rewrite Hs.
  - intros rest Hrest; unfold mysql_port.
    change ("0" ++ rest) with (showN 0 ++ rest).
    now rewrite (parseInt10_showN 0 rest Hrest).
  - intros n rest [Hlo Hhi] Hrest; unfold mysql_port.
    rewrite (parseInt10_showN n rest Hrest).
    apply N.leb_le in Hhi; rewrite Hhi.
    destruct n; [lia | reflexivity].
Qed.

(** The port of a usual setting, and of one with a unit left in. *)
Example mysql_port_examples :
  mysql_port (Some "3307") = Int false 3307
  /\ mysql_port (Some " 3307 tcp") = Int false 3307
  /\ mysql_port (Some "tcp/3307") = Int false 3306
  /\ mysql_port (Some "-0") = Int false 3306
  /\ mysql_port (Some "-5") = Int true 5.
Proof. repeat split; reflexivity. Qed.

Lemma mysql_port_default_witness : mysql_port (Some "3307") = Int false 3307.
Proof.
  apply (proj2 (proj2 (proj2 (proj2 (proj2 (mysql_port_default None)))))
           3307%N EmptyString).
  - lia.
  - reflexivity.
Defined.

Lemma workspace_create_outcome_witness :
  exists name,
    truthyField (Some "Research") = Some name
    /\ fst (workspace_create (Scenario.sql_world "id-1" "link-1")
              (Some "Research") Scenario.seeded)
       = mkSql (users Scenario.seeded)
               (workspaces Scenario.seeded
                ++ [mkWorkspace "id-1" name placeholder_owner "link-1" None
                                1700000000000%N 1700000000000%N])
    /\ snd (workspace_create (Scenario.sql_world "id-1" "link-1")
              (Some "Research") Scenario.seeded)
       = mkWsResponse 201
           (WsCreated "Workspace created successfully!" "id-1" "link-1").
Proof.
  apply (proj2 (proj2 (proj2 (proj2
           (workspace_create_outcome (Scenario.sql_world "id-1" "link-1")
              (Some "Research") Scenario.seeded))))).
  reflexivity.
Defined.

Lemma workspace_join_outcome_witness :
  ws_status (snd (workspace_join (Scenario.sql_world "id-1" "link-1")
                    "no-such-link" Scenario.seeded)) = 404.
Proof.
  apply (proj2 (proj1 (proj2 (workspace_join_outcome
                                (Scenario.sql_world "id-1" "link-1")
                                "no-such-link" Scenario.seeded)))).
  intros r [].
Defined.

(* ================================================================== *)
(** * Uploads, listings and the store, continued *)
(* ================================================================== *)

(** X20. An upload is answered 400 exactly when the file is missing or
    the workspace id is missing, empty or not a string; then nothing is
    stored, no id is used up and nothing is spawned. Every other upload
    is answered 200 or 500. *)
Theorem upload_is_rejected_iff (w : World) (req : UploadRequest) (db : Db) :
  let run := universal_upload w req db in
  (status (result_of run) = 400 <->
   up_file req = None \/ truthyField (up_workspaceId req) = None)
  /\ (status (result_of run) = 400 -> events_of run = [] /\ store_of run = db)
  /\ (status (result_of run) = 200 \/ status (result_of run) = 400
      \/ status (result_of run) = 500).
Proof.
  intros run; unfold run.
  destruct (up_file req) as [file|] eqn:Hfile.
  2:{ unfold universal_upload; rewrite Hfile; cbn; repeat split; auto. }
  destruct (truthyField (up_workspaceId req)) as [ws|] eqn:Hws.
  2:{ unfold universal_upload; rewrite Hfile, Hws; cbn; repeat split; auto. }
  rewrite (universal_upload_eq w req file ws Hfile Hws db); cbv zeta.
  destruct (negb (valid _));
    [|destruct (id_taken _ _);
      [|destruct (embed_outcome _) as [e|h];
        [|destruct (handle_taken _ _)]]];
    unfold result_of, events_of, store_of; cbn [fst snd status];
    (split; [split; [discriminate | intros [H|H]; discriminate]|]);
    (split; [discriminate | auto]).
Qed.

(** X21. A GET of the documents of a workspace whose id reads "join"
    is the join route's: no listing is made. For every other workspace
    the router calls the listing handler, and the listing holds exactly
    the stored records of that workspace, pending ones included, in the
    order they were stored, and its message counts them; every record a
    query of the workspace resolves to, with or without ids, is a
    processed one among the listed. *)
Theorem listing_covers_the_workspace (ws : string) (db : Db) :
  (toLowerCase ws = "join" ->
   get_workspace_documents ws = None
   /\ route_get ws "documents" = ToJoin "documents")
  /\ (toLowerCase ws <> "join" ->
      exists listing docs,
        get_workspace_documents ws = Some listing
        /\ listing db
           = ([], db,
              mkResponse 200
                (DocumentsBody
                   ("Found " ++ showN (N.of_nat (List.length docs))
                    ++ " documents for workspace " ++ ws ++ ".")
                   docs))
        /\ (forall d, In d docs <-> In d (documents db) /\ workspaceId d = ws)
        /\ (exists indices,
               docs = map snd indices
               /\ Forall (fun p => nth_error (documents db) (fst p) = Some (snd p))
                         indices
               /\ StronglySorted Nat.lt (map fst indices))
        /\ (forall ids d,
               In d (resolved_records ids ws (documents db)) ->
               In d docs /\ processed d = true)).
Proof.
  split.
  { intros Hjoin; split.
    - exact (proj2 (get_workspace_documents_cases ws) Hjoin).
    - now apply (route_get_documents ws). }
  intros Hjoin.
  exists (workspace_documents ws),
         (filter (fun d => String.eqb (workspaceId d) ws) (documents db)).
  split; [exact (proj1 (get_workspace_documents_cases ws) Hjoin)|].
  split; [apply workspace_documents_run|]; split; [|split].
  - intros d; rewrite filter_In, String.eqb_eq; tauto.
  - generalize (documents db) as l.
    assert (H : forall l k,
               exists indices,
                 filter (fun d => String.eqb (workspaceId d) ws) l
                 = map snd indices
                 /\ Forall (fun p => nth_error l (fst p - k) = Some (snd p)
                                     /\ k <= fst p) indices
                 /\ StronglySorted Nat.lt (map fst indices)).
    { induction l as [|a l IH]; intros k.
      - exists []; repeat split; constructor.
      - destruct (IH (S k)) as (ix & E & Hnth & Hsorted).
        assert (Hshift : Forall (fun p => nth_error (a :: l) (fst p - k)
                                          = Some (snd p) /\ k <= fst p) ix).
        { eapply Forall_impl; [|exact Hnth]; cbn beta.
          intros p [Hp Hk]; split; [|lia].
          replace (fst p - k) with (S (fst p - S k)) by lia; exact Hp. }
        cbn [filter]; destruct (String.eqb (workspaceId a) ws).
        + exists ((k, a) :: ix); split; [cbn; now rewrite E|]; split.
          * constructor; [|exact Hshift].
            cbn [fst snd]; rewrite Nat.sub_diag; split; [reflexivity | lia].
          * cbn [map fst]; constructor; [assumption|].
            apply Forall_map; eapply Forall_impl; [|exact Hnth]; cbn beta.
            intros p [_ Hk]; lia.
        + exists ix; repeat split; assumption. }
    intros l; destruct (H l 0) as (ix & E & Hnth & Hsorted).
    exists ix; split; [assumption|]; split; [|assumption].
    eapply Forall_impl; [|exact Hnth]; cbn beta.
    intros p [Hp _]; now rewrite Nat.sub_0_r in Hp.
  - intros ids d Hd; apply resolved_records_spec in Hd as (Hin & Hws & Hp).
    split; [|assumption].
    apply filter_In; split; [assumption | now apply String.eqb_eq].
Qed.

Lemma listing_covers_the_workspace_witness :
  exists listing docs,
    get_workspace_documents "W1" = Some listing
    /\ listing Sample.db_processed
       = ([], Sample.db_processed,
          mkResponse 200
            (DocumentsBody
               ("Found " ++ showN (N.of_nat (List.length docs))
                ++ " documents for workspace " ++ "W1" ++ ".")
               docs))
    /\ (forall d, In d docs <->
                  In d (documents Sample.db_processed) /\ workspaceId d = "W1")
    /\ (exists indices,
           docs = map snd indices
           /\ Forall (fun p => nth_error (documents Sample.db_processed) (fst p)
                               = Some (snd p)) indices
           /\ StronglySorted Nat.lt (map fst indices))
    /\ (forall ids d,
           In d (resolved_records ids "W1" (documents Sample.db_processed)) ->
           In d docs /\ processed d = true).
Proof.
  apply (proj2 (listing_covers_the_workspace "W1" Sample.db_processed)).
  vm_compute; discriminate.
Defined.

(** ** Stored records are complete *)

Lemma universal_upload_valid (w : World) (req : UploadRequest) (db : Db) :
  Forall (fun d => valid d = true) (documents db) ->
  Forall (fun d => valid d = true)
         (documents (store_of (universal_upload w req db))).
Proof.
  intros Hdb.
  destruct (up_file req) as [file|] eqn:Hfile.
  2:{ unfold universal_upload; now rewrite Hfile. }
  destruct (truthyField (up_workspaceId req)) as [ws|] eqn:Hws.
  2:{ unfold universal_upload; now rewrite Hfile, Hws. }
  rewrite (universal_upload_eq w req file ws Hfile Hws db); cbv zeta.
  destruct (negb (valid _)) eqn:Hvalid; [exact Hdb|].
  apply negb_false_iff in Hvalid.
  destruct (id_taken _ _); [exact Hdb|].
  destruct (embed_outcome _) as [e|h];
    [|destruct (handle_taken _ _)];
    unfold store_of; cbn [fst snd documents];
    apply Forall_app; split; try assumption;
    (constructor; [exact Hvalid | constructor]).
Qed.

(** X22. Every record the server has stored, in any run from the empty
    store, has a file name, a type and a workspace id that are not empty:
    the upload of a file without name or type is answered 500 and stores
    nothing. *)
Theorem stored_records_are_complete (rs : list (World * Request)) (d : DocRecord) :
  In d (documents (store_of (serve rs empty_db))) ->
  fileName d <> EmptyString
  /\ originalType d <> EmptyString
  /\ workspaceId d <> EmptyString.
Proof.
  assert (H : forall db,
             Forall (fun d => valid d = true) (documents db) ->
             Forall (fun d => valid d = true)
                    (documents (store_of (serve rs db)))).
  { induction rs as [|[w r] rs IH]; intros db Hdb; [exact Hdb|].
    cbn [serve].
    assert (Hh : Forall (fun d => valid d = true)
                        (documents (store_of (handle w r db)))).
    { destruct r as [req|req|ws]; cbn [handle].
      - now apply universal_upload_valid.
      - now destruct (universal_qa_reads w req db) as [-> _].
      - now rewrite workspace_documents_run. }
    destruct (handle w r db) as [[ev db'] resp].
    unfold store_of in Hh; cbn [fst snd] in Hh.
    specialize (IH db' Hh).
    destruct (serve rs db') as [[ev' db''] resps]; exact IH. }
  specialize (H empty_db (Forall_nil _)).
  rewrite Forall_forall in H; intros Hd; specialize (H d Hd).
  unfold valid in H; apply andb_true_iff in H as [H H3].
  apply andb_true_iff in H as [H1 H2].
  repeat split; intros E; rewrite E in *; discriminate.
Qed.

Lemma stored_records_are_complete_witness :
  fileName Sample.report_processed <> EmptyString
  /\ originalType Sample.report_processed <> EmptyString
  /\ workspaceId Sample.report_processed <> EmptyString.
Proof.
  apply (stored_records_are_complete
           [(Sample.world_ok, Upload Sample.upload_W1)]).
  vm_compute; left; reflexivity.
Defined.

(** ** Keys when uploads overlap *)

Section OverlappingKeys.

Variable m : DocRecord.
Variable h : string.
Hypothesis Hm : chromaDocumentId m = Some h.

Let mark (stored : DocRecord) : DocRecord :=
  if N.eqb (_id stored) (_id m) then set_processed m stored else stored.

Lemma mark_ids (docs : list DocRecord) : map _id (map mark docs) = map _id docs.
Proof.
  induction docs as [|x docs IH]; [reflexivity|].
  cbn [map]; rewrite IH; f_equal.
  unfold mark; now destruct (N.eqb (_id x) (_id m)).
Qed.

Lemma mark_absent (docs : list DocRecord) :
  ~ In (_id m) (map _id docs) -> map mark docs = docs.
Proof.
  induction docs as [|x docs IH]; [reflexivity|].
  cbn [map In]; intros H.
  rewrite IH by tauto; f_equal.
  unfold mark; destruct (N.eqb_spec (_id x) (_id m)); [tauto | reflexivity].
Qed.

Lemma handles_cons (x : DocRecord) (docs : list DocRecord) :
  handles (x :: docs)
  = ((match chromaDocumentId x with Some k => [k] | None => [] end)
       ++ handles docs)%list.
Proof. reflexivity. Qed.

Lemma mark_handles (docs : list DocRecord) (k : string) :
  In k (handles (map mark docs)) -> In k (handles docs) \/ k = h.
Proof.
  induction docs as [|x docs IH]; [intros []|].
  cbn [map]; rewrite !handles_cons, !in_app_iff.
  intros [Hk|Hk]; [|destruct (IH Hk); auto].
  unfold mark in Hk; destruct (N.eqb (_id x) (_id m)); [|auto].
  cbn [set_processed chromaDocumentId] in Hk; rewrite Hm in Hk.
  destruct Hk as [<-|[]]; auto.
Qed.

Lemma handle_taken_cons (x : DocRecord) (docs : list DocRecord) :
  handle_taken m (x :: docs) = false ->
  (_id x = _id m \/ chromaDocumentId x <> Some h)
  /\ handle_taken m docs = false.
Proof.
  unfold handle_taken; rewrite Hm; cbn [existsb].
  intros H; apply orb_false_iff in H as [Hx H]; split; [|exact H].
  destruct (N.eqb_spec (_id x) (_id m)); [now left | right].
  cbn [negb andb] in Hx.
  destruct (chromaDocumentId x) as [k|]; [|discriminate].
  apply String.eqb_neq in Hx; congruence.
Qed.

Lemma handle_not_taken_absent (docs : list DocRecord) :
  handle_taken m docs = false ->
  ~ In (_id m) (map _id docs) ->
  ~ In h (handles docs).
Proof.
  induction docs as [|x docs IH]; [intros _ _ []|].
  intros Ht Hid; apply handle_taken_cons in Ht as [Hx Ht].
  cbn [map In] in Hid.
  rewrite handles_cons, in_app_iff; intros [Hin|Hin].
  - destruct Hx as [Hx|Hx]; [tauto|].
    destruct (chromaDocumentId x) as [k|]; [|destruct Hin].
    destruct Hin as [->|[]]; congruence.
  - apply IH in Hin; tauto.
Qed.

Lemma mark_keeps_handles_unique (docs : list DocRecord) :
  NoDup (map _id docs) ->
  NoDup (handles docs) ->
  handle_taken m docs = false ->
  NoDup (handles (map mark docs)).
Proof.
  induction docs as [|x docs IH]; [intros _ _ _; constructor|].
  intros Hids Hh Ht.
  inversion Hids as [|? ? Hx Hids']; subst.
  apply handle_taken_cons in Ht as [Hcase Ht].
  rewrite handles_cons in Hh.
  assert (Hh' : NoDup (handles docs)).
  { destruct (chromaDocumentId x); [now inversion Hh | exact Hh]. }
  cbn [map]; rewrite handles_cons.
  unfold mark at 1; destruct (N.eqb_spec (_id x) (_id m)) as [E|E].
  - cbn [set_processed chromaDocumentId]; rewrite Hm; cbn [app].
    rewrite E in Hx; rewrite (mark_absent docs Hx).
    constructor; [|assumption].
    now apply handle_not_taken_absent.
  - destruct (chromaDocumentId x) as [k|] eqn:Ek; cbn [app];
      [|now apply IH].
    constructor; [|now apply IH].
    intros Hin; apply mark_handles in Hin as [Hin| ->].
    + cbn [app] in Hh; now inversion Hh.
    + destruct Hcase; congruence.
Qed.

End OverlappingKeys.

Lemma step_keeps_keys (s s' : Server) :
  step s s' ->
  NoDup (map _id (documents (fst s))) /\ NoDup (handles (documents (fst s))) ->
  NoDup (map _id (documents (fst s'))) /\ NoDup (handles (documents (fst s'))).
Proof.
  intros Hstep; destruct Hstep as
      [w file ws db db' ev d pool E | w file ws db db' ev e pool E
      | s db db' ev r pool1 pool2 E]; cbn [fst]; intros [Hids Hh].
  - unfold upload_begin, bind, new_DocumentModel, save_new, ret in E;
      cbn [documents next_oid] in E.
    destruct (negb (valid _)); [discriminate|].
    destruct (id_taken _ _ || handle_taken _ _) eqn:Et; [discriminate|].
    injection E as _ <- <-; cbn [documents].
    apply orb_false_iff in Et as [Et _].
    split.
    + rewrite map_app; cbn [map]; apply NoDup_snoc; [assumption|].
      now apply id_taken_false_iff in Et.
    + rewrite handles_app; cbn; now rewrite app_nil_r.
  - unfold upload_begin, bind, new_DocumentModel, save_new, ret in E;
      cbn [documents next_oid] in E.
    destruct (negb (valid _)); [injection E as _ <- _; now split|].
    destruct (id_taken _ _ || handle_taken _ _);
      [injection E as _ <- _; now split | discriminate].
  - unfold upload_resume, bind, await, save_modified, ret in E.
    destruct (embed_outcome _) as [e|h]; [injection E as _ <- _; now split|].
    destruct (negb (id_taken _ _)); [injection E as _ <- _; now split|].
    destruct (handle_taken _ _) eqn:Et; [injection E as _ <- _; now split|].
    injection E as _ <- _; cbn [documents].
    split.
    + now rewrite (mark_ids (marked h (s_doc s))).
    + now apply (mark_keeps_handles_unique (marked h (s_doc s)) h eq_refl).
Qed.

(** X23. Also when uploads overlap, suspended on their workers in any
    number and resumed in any order, no two records of the collection
    share an id and no two share a vector handle: the second save of an
    upload whose handle another record took meanwhile is refused. *)
Theorem keys_hold_when_uploads_overlap (db : Db) (pool : list Suspended) :
  reachable (db, pool) ->
  NoDup (map _id (documents db)) /\ NoDup (handles (documents db)).
Proof.
  intros H.
  change (NoDup (map _id (documents (fst (db, pool))))
          /\ NoDup (handles (documents (fst (db, pool))))).
  induction H as [|s s' _ IH Hstep]; [split; constructor|].
  exact (step_keeps_keys s s' Hstep IH).
Qed.

Lemma keys_hold_when_uploads_overlap_witness :
  NoDup (map _id [Sample.report_processed;
                  mkDoc 1%N "report.pdf" "application/pdf" 1700000000000%N
                        false None "W2"])
  /\ NoDup (handles [Sample.report_processed;
                     mkDoc 1%N "report.pdf" "application/pdf" 1700000000000%N
                           false None "W2"]).
Proof.
  exact (keys_hold_when_uploads_overlap _ _ overlapping_uploads).
Defined.
